(* ===== verification/_CoqProject ===== *)
-Q . S2P
Prelude.v
PyStr.v
UrlLib.v
Sha256.v
Dedup.v
RobotParser.v
Robots.v
Fetch.v
Article.v
Ops.v
Metrics.v
Tracing.v
Storage.v
Crawl.v
RunSource.v
Cli.v
Render.v
Worker.v
Scheduler.v
ScheduledJob.v
