(* ===== verification/Prelude.v ===== *)
(** * Volector: a verification development of the [crawler] package

    The program (src/crawler) is a polite web crawler.  Its parts, and how
    they interact:

    - [core/dedup.py]: [canonical(url)] normalises a URL (scheme and netloc
      lower-cased, trailing slashes of the path stripped, tracking query
      parameters dropped, the remaining pairs sorted, fragment dropped);
      [content_hash(text)] is the SHA-256 hex digest of the UTF-8 bytes.
    - [core/robots.py]: [robots_for(netloc)] builds a
      [urllib.robotparser.RobotFileParser] for the host, cached by
      [functools.lru_cache(maxsize=1024)]; [allowed(url, agent)] asks it.
    - [core/fetch.py]: [_get] issues one GET, raises on a non-2xx status and
      sleeps a random politeness delay; the [backoff.on_exception] decorator
      retries it on transport errors, at most 5 tries with delays 1,2,4,8 s.
    - [cli.py]: [crawl_once] and [run_source] loop over URLs, skip the ones
      robots forbids, fetch the others one at a time, and count successes
      and failures in the metrics counters.

    - [cli.py:main]: an [argparse] parser with the subcommands [urls URL...]
      and [run --source --country [--max-pages] [--write-raw]
      [--metrics-port]]; it dispatches to [crawl_once] or [run_source].
    - [core/parse.py], [pipelines/article.py]: the article assembler
      ([parse_article], [to_article]) and the curated parquet writer.
    - [core/storage.py]: S3 configuration, [put_gz], [write_parquet].
    - [core/render.py]: [render_html] with Playwright and an HTTP fallback.
    - [workers/tasks.py]: the Celery task [crawl_url] (render or fetch,
      assemble, retried up to five times).
    - [ops/scheduler.py]: [start_scheduler] adds one cron job per catalog
      entry; each job awaits [run_source] and logs its failure.
    - [ops/logging.py], [ops/metrics.py], [ops/tracing.py]: JSON logging,
      Prometheus counters and OpenTelemetry spans, each with a fallback when
      its library is missing.

    Library layout (one file per part, in dependency order):

    - [Prelude]   this header; the exception-as-value type [exc] and the
                  state/exception monad [st_exc] ([TRY ... EXCEPT]) with
                  stdpp's monad notation; the hint database [volector];
                  shared tactics and list lemmas.
    - [PyStr]     the Python [str] builtins the sources use ([lower],
                  [rstrip], [strip], [split], [find], [startswith], slicing,
                  [str(int)], [int(str)]), as functions on byte strings.
    - [UrlLib]    CPython 3.11's [urllib.parse]: [urlsplit], [urlunsplit],
                  [quote_plus], [unquote], [parse_qsl], [urlencode].
    - [Sha256]    [hashlib.sha256(...).hexdigest()] from FIPS 180-4.
    - [Dedup]     [core/dedup.py]: [TRACKING_PARAMS], [canonical],
                  [content_hash].
    - [RobotParser], [Robots]  [urllib.robotparser] and [core/robots.py]:
                  the robots.txt parser state machine, [robots_for] with
                  its LRU cache as explicit state, [allowed].
    - [Fetch]     [core/fetch.py]: [_get] under [backoff.on_exception],
                  [fetch], the abstract retry contract [fetch_contract].
    - [Article]   [core/parse.py], [pipelines/article.py:to_article] and the
                  records of [models/schemas.py].
    - [Ops]       [ops/logging.py] and the [logging] calls (levels,
                  [makeRecord]'s refusal of reserved [extra] keys); the
                  counters as a map.
    - [Metrics]   [ops/metrics.py]: [Counter] with the [prometheus_client]
                  backend and the [_NoopCounter] fallback.
    - [Tracing]   [ops/tracing.py]: [get_tracer], [_NoopSpan], [span].
    - [Storage]   [core/storage.py], [write_curated_articles].
    - [Crawl]     [cli.py:crawl_once] over the interfaces (typeclasses)
                  [RobotsGate] and [FetchEngine], instantiated by [Robots]
                  and [Fetch].
    - [RunSource] [cli.py:run_source], adding the object store and the
                  metrics server to the state of [Crawl].
    - [Cli]       [cli.py:main]: the parser it builds, over a model of
                  CPython 3.11 [argparse], and the dispatch.
    - [Render]    [core/render.py]; [Worker] [workers/tasks.py].
    - [Scheduler] [ops/scheduler.py:start_scheduler]; [ScheduledJob] the job
                  closure it schedules, instantiated with [run_source].

    Representation choices.  A Python [str] is represented by its UTF-8
    encoding, a Rocq [string] (a list of 8-bit [ascii] characters).  Byte
    order on UTF-8 agrees with code-point order, so comparisons and sorting
    are exact; [str.lower] is modelled on ASCII letters only (the case
    mapping of non-ASCII letters is not modelled); percent-decoding keeps the
    decoded bytes as they are, which is exact when they form valid UTF-8
    (CPython then substitutes U+FFFD for invalid sequences, which is not
    modelled).  The IPv6/IPvFuture literal grammar of the [ipaddress] module
    and the NFKC check of [urlsplit] are left abstract as the class
    [UrlLib.UrlEnv]: every theorem holds for every instance.  Integers are
    [Z] (Python's are unbounded); SHA-256 words are [Z] in [0, 2^32) with
    the wrap-around written out.  Dicts are stdpp [gmap]s, except where
    order matters (the LRU cache, [extra] dicts), which are lists.  Effects
    are explicit state: the network, the clock and random draws are oracles
    indexed by the number of requests or draws made so far.

    Groups of theorems.
    - Canonicalizer: invariance under tracking parameters, parameter order,
      host case, trailing slashes and fragment ([canonical_equiv]); the
      query as a sorted permutation ([canonical_query_spec]); the shape of
      the fingerprint; the failure and non-idempotence cases.
    - Politeness gate: fail-open on an evaluator exception, fail-closed when
      robots.txt was unreadable, the cache invariant (at most 1024 distinct
      hosts) preserved by every call.
    - Fetch engine: refinement of the retry contract, the retry, no-retry
      and give-up cases, termination and the delay bounds.
    - Politeness, at every log level: [crawl_once] and [run_source] only
      fetch URLs the gate allowed, in order, once each, whatever they
      raise ([Crawl.polite_effects] is the reference; the frame lemmas of
      the prelude, [st_frame], show that logging, counters, assembly and
      storage touch neither the gate nor the network; [Crawl.polite_loop]
      is the loop argument, proved once in a Section for both loops).
    - Batch controller: above WARNING, [crawl_once] and [run_source] are the
      gate run composed with the engine run (refinement); at lower levels
      the [extra={"message": ...}] log calls raise [KeyError], with the
      consequences proved as theorems; at every level, when the gate
      allows every URL, the loop of [crawl_once] returns after fetching
      each URL once, in order, whatever the fetches and the log calls
      raise ([crawl_loop_all_allowed], liveness); [main] parses each command line back
      to its command (round trip) and runs it.
    - Scheduler, worker, rendering, storage, metrics, tracing: the jobs
      added, the failures that stop the scheduler, a job that never
      raises; the worker fetching without a robots check; the render
      fallback; the storage layer's import guards and the curated columns;
      the three counter calls of [cli.py] against both metrics backends
      ([metrics_calls_refine]: the Prometheus labels land on the key the
      counter map uses); spans that never change the block's outcome.

    Fuel and bounds.  [Fetch.backoff_retry] runs on fuel [max_tries] = 5,
    and [fetch_terminates] shows the fuel is always enough.
    [Worker.crawl_url_task] runs on [MAX_RETRIES] = 5, Celery's own
    bound.  [Cli.consume_optional] runs on the length of the explicit
    argument, which each recursive call shortens.  Every other loop is
    structural over the URL list or the catalog.

    What is not modelled, and why: the network, clocks and sleeps are
    inputs (oracles) of the models, not code; Playwright, boto3, pyarrow,
    gzip, pydantic validation internals, the Prometheus HTTP server,
    APScheduler's clock and Celery's broker are libraries the sources only
    call; [json.dumps] of a log record is left at the dictionary it is
    given; the binary64 rounding of [random.uniform] is not modelled (times
    are exact rationals).  The tests under [tests/] are not implementation;
    their inputs are reused as examples.
*)

From stdpp Require Export base list strings gmap sorting.
From Stdlib Require Export ZArith Lia.

Declare Scope py_scope.
Delimit Scope py_scope with py.

(** ** Exceptions as values

    Python code that may raise returns [exc E A]: [Ok a] for a normal
    return, [Raise e] for an exception [e].  stdpp's monad classes give the
    notation [x ← m; k] for "run [m], propagate its exception". *)
Inductive exc (E A : Type) : Type :=
  | Ok (a : A)
  | Raise (e : E).
Arguments Ok {E A} a.
Arguments Raise {E A} e.

#[export] Instance exc_ret E : MRet (exc E) := λ A a, Ok a.
#[export] Instance exc_bind E : MBind (exc E) :=
  λ A B f m, match m with Ok a => f a | Raise e => Raise e end.
#[export] Instance exc_fmap E : FMap (exc E) :=
  λ A B f m, match m with Ok a => Ok (f a) | Raise e => Raise e end.

(** [try ... except: handler] as a combinator. *)
Definition py_except {E A} (m : exc E A) (handler : E → A) : A :=
  match m with Ok a => a | Raise e => handler e end.

Definition is_ok {E A} (m : exc E A) : bool :=
  match m with Ok _ => true | Raise _ => false end.

Lemma exc_bind_ok {E A B} (a : A) (f : A → exc E B) :
  (Ok a ≫= f) = f a.
Proof. done. Qed.

Lemma exc_bind_raise {E A B} (e : E) (f : A → exc E B) :
  (Raise e ≫= f) = Raise e.
Proof. done. Qed.

Lemma exc_bind_Ok_inv {E A B} (m : exc E A) (f : A → exc E B) b :
  (m ≫= f) = Ok b → ∃ a, m = Ok a ∧ f a = Ok b.
Proof. destruct m; simpl; [eauto | discriminate]. Qed.

Create HintDb volector discriminated.
Create Rewrite HintDb volector_rw.
#[export] Hint Rewrite @exc_bind_ok @exc_bind_raise : volector_rw.

(** ** Python list slicing [l[:n]] with an integer bound: a negative bound
    counts from the end, and the result is clamped to [0, len l]. *)
Definition py_take {A} (n : Z) (l : list A) : list A :=
  if bool_decide (0 ≤ n)%Z then take (Z.to_nat n) l
  else take (Z.to_nat (Z.of_nat (length l) + n)) l.

Lemma py_take_nonneg {A} (n : Z) (l : list A) :
  (0 ≤ n)%Z → py_take n l = take (Z.to_nat n) l.
Proof. intros. unfold py_take. by rewrite bool_decide_true. Qed.

Lemma py_take_neg {A} (n : Z) (l : list A) :
  (n < 0)%Z → py_take n l = take (Z.to_nat (Z.of_nat (length l) + n)) l.
Proof. intros. unfold py_take. rewrite bool_decide_false; [done | lia]. Qed.

Lemma length_py_take {A} (n : Z) (l : list A) :
  length (py_take n l) =
    if bool_decide (0 ≤ n)%Z then Nat.min (Z.to_nat n) (length l)
    else Nat.min (Z.to_nat (Z.of_nat (length l) + n)) (length l).
Proof. unfold py_take. case_bool_decide; apply length_take. Qed.

(** ** Shared tactics *)

(** Case analysis on every boolean [if] in the goal, keeping the equation. *)
Ltac destruct_ifs :=
  repeat match goal with
  | |- context [if ?b then _ else _] =>
      lazymatch b with
      | bool_decide _ => case_bool_decide
      | _ => let E := fresh "E" in destruct b eqn:E
      end
  end.

(** Invert an equation between constructors and substitute. *)
Ltac inv_clear H := inversion H; subst; clear H.

(** ** Generic list lemmas *)

Lemma Forall_filter_holds {A} (P : A → Prop) `{∀ x, Decision (P x)} (l : list A) :
  Forall P (filter P l).
Proof. apply Forall_forall. intros x Hx. by apply list_elem_of_filter in Hx as [? _]. Qed.
#[export] Hint Resolve Forall_filter_holds : volector.

(** In an association list with distinct keys, a key has one value. *)
Lemma NoDup_fst_unique {A B} (l : list (A * B)) k v1 v2 :
  NoDup l.*1 → (k, v1) ∈ l → (k, v2) ∈ l → v1 = v2.
Proof.
  induction l as [|[k' v'] l IH]; intros Hnd H1 H2; [by apply not_elem_of_nil in H1|].
  simpl in Hnd. apply NoDup_cons in Hnd as [Hk Hnd].
  apply elem_of_cons in H1, H2.
  destruct H1 as [H1|H1], H2 as [H2|H2]; simplify_eq; [done| | |by apply IH].
  - exfalso. apply Hk. apply list_elem_of_fmap. by exists (k', v2).
  - exfalso. apply Hk. apply list_elem_of_fmap. by exists (k', v1).
Qed.

(** ** State and exceptions

    A handler that updates state and may raise is [st_exc S E A]: it maps
    a state to a result and the state reached, which is kept when the
    result is an exception (the effects made before a [raise] stay made).
    [st_try m h] is [try: m except: h]. *)
Definition st_exc (S E A : Type) : Type := S → exc E A * S.

#[export] Instance st_exc_ret S E : MRet (st_exc S E) := λ A a s, (Ok a, s).
#[export] Instance st_exc_bind S E : MBind (st_exc S E) :=
  λ A B k m s, match m s with (Ok a, s') => k a s' | (Raise e, s') => (Raise e, s') end.

Definition st_throw {S E A} (e : E) : st_exc S E A := λ s, (Raise e, s).
Definition st_modify {S E} (f : S → S) : st_exc S E unit := λ s, (Ok (), f s).
Definition st_gets {S E A} (f : S → A) : st_exc S E A := λ s, (Ok (f s), s).
Definition st_lift {S E A} (m : exc E A) : st_exc S E A := λ s, (m, s).
Definition st_try {S E A} (m : st_exc S E A) (h : E → st_exc S E A) : st_exc S E A :=
  λ s, match m s with (Raise e, s') => h e s' | r => r end.

Notation "'TRY' m 'EXCEPT' h" := (st_try m h) (at level 200, m at level 100, h at level 200) : py_scope.

Lemma st_bind_ok {S E A B} (m : st_exc S E A) (k : A → st_exc S E B) s a s' :
  m s = (Ok a, s') → (m ≫= k) s = k a s'.
Proof. intros Hm. unfold mbind, st_exc_bind. by rewrite Hm. Qed.

Lemma st_bind_raise {S E A B} (m : st_exc S E A) (k : A → st_exc S E B) s e s' :
  m s = (Raise e, s') → (m ≫= k) s = (Raise e, s').
Proof. intros Hm. unfold mbind, st_exc_bind. by rewrite Hm. Qed.

Lemma st_try_ok {S E A} (m : st_exc S E A) h s a s' :
  m s = (Ok a, s') → st_try m h s = (Ok a, s').
Proof. intros Hm. unfold st_try. by rewrite Hm. Qed.

Lemma st_try_raise {S E A} (m : st_exc S E A) h s e s' :
  m s = (Raise e, s') → st_try m h s = h e s'.
Proof. intros Hm. unfold st_try. by rewrite Hm. Qed.

(** ** Frames

    [st_frame f m]: the computation [m] leaves the part [f s] of the state
    as it was, whatever it returns or raises (the frame condition of
    Hoare logic's frame rule, for the state/exception monad). *)
Definition st_frame {S E A X} (f : S → X) (m : st_exc S E A) : Prop := ∀ s, f (m s).2 = f s.

Lemma st_frame_ret {S E A X} (f : S → X) (a : A) : st_frame (E:=E) f (mret a).
Proof. done. Qed.

Lemma st_frame_throw {S E A X} (f : S → X) (e : E) : st_frame (A:=A) f (st_throw e).
Proof. done. Qed.

Lemma st_frame_lift {S E A X} (f : S → X) (m : exc E A) : st_frame f (st_lift (S:=S) m).
Proof. done. Qed.

Lemma st_frame_modify {S E X} (f : S → X) (g : S → S) :
  (∀ s, f (g s) = f s) → st_frame (E:=E) f (st_modify g).
Proof. done. Qed.

(** A framed continuation keeps the part [f] as [m] left it. *)
Lemma st_bind_frame_r {S E A B X} (f : S → X) (m : st_exc S E A) (k : A → st_exc S E B) s :
  (∀ a, st_frame f (k a)) → f ((m ≫= k) s).2 = f (m s).2.
Proof. intros Hk. unfold mbind, st_exc_bind. destruct (m s) as [[a|e] s']; [apply Hk|done]. Qed.

(** A framed handler keeps the part [f] as the guarded block left it. *)
Lemma st_try_frame_r {S E A X} (f : S → X) (m : st_exc S E A) h s :
  (∀ e, st_frame f (h e)) → f (st_try m h s).2 = f (m s).2.
Proof. intros Hh. unfold st_try. destruct (m s) as [[a|e] s']; [done|apply Hh]. Qed.

Lemma st_frame_bind {S E A B X} (f : S → X) (m : st_exc S E A) (k : A → st_exc S E B) :
  st_frame f m → (∀ a, st_frame f (k a)) → st_frame f (m ≫= k).
Proof. intros Hm Hk s. by rewrite st_bind_frame_r. Qed.

Lemma st_frame_try {S E A X} (f : S → X) (m : st_exc S E A) h :
  st_frame f m → (∀ e, st_frame f (h e)) → st_frame f (st_try m h).
Proof. intros Hm Hh s. by rewrite st_try_frame_r. Qed.
#[export] Hint Resolve st_frame_ret st_frame_throw st_frame_lift st_frame_bind st_frame_try : volector.
