(* ===== verification/PyStr.v ===== *)
(** * PyStr: the Python [str] builtins used by the sources

    A Python [str] is represented by its UTF-8 encoding as a Rocq [string].
    This file defines the methods the crawler and the standard-library code
    it calls use: [lower] (ASCII letters), [rstrip]/[lstrip]/[strip] with a
    character class, [find], [split] on one character, [split(c, 1)],
    [join], [startswith] and the substring test [in], with the lemmas the
    components share (round trips, idempotence, characterisations). *)

From S2P Require Import Prelude.
From Stdlib Require Import Ascii.



(** ** Characters *)

Definition ascii_code (c : ascii) : nat := nat_of_ascii c.

Definition is_ascii_upper (c : ascii) : bool :=
  (65 <=? ascii_code c)%nat && (ascii_code c <=? 90)%nat.

Definition ascii_lower (c : ascii) : ascii :=
  if is_ascii_upper c then ascii_of_nat (ascii_code c + 32) else c.

(** [str.isspace()] on ASCII: HT, LF, VT, FF, CR, the separators
    0x1C-0x1F and space. *)
Definition is_py_space (c : ascii) : bool :=
  let n := ascii_code c in
  ((9 <=? n) && (n <=? 13)) || ((28 <=? n) && (n <=? 32)).

(** ** Methods *)

Fixpoint str_map (f : ascii → ascii) (s : string) : string :=
  match s with
  | EmptyString => EmptyString
  | String c s' => String (f c) (str_map f s')
  end.

(** [s.lower()] *)
Definition py_lower (s : string) : string := str_map ascii_lower s.

(** [s.rstrip(chars)]: drop the longest suffix made of characters of the
    class [strip]. *)
Fixpoint py_rstrip (strip : ascii → bool) (s : string) : string :=
  match s with
  | EmptyString => EmptyString
  | String c s' =>
      let r := py_rstrip strip s' in
      match r with
      | EmptyString => if strip c then EmptyString else String c EmptyString
      | _ => String c r
      end
  end.

(** [s.lstrip(chars)] *)
Fixpoint py_lstrip (strip : ascii → bool) (s : string) : string :=
  match s with
  | EmptyString => EmptyString
  | String c s' => if strip c then py_lstrip strip s' else s
  end.

(** [s.strip()] with no argument: whitespace on both sides. *)
Definition py_strip (s : string) : string :=
  py_lstrip is_py_space (py_rstrip is_py_space s).

(** [s.find(c)] for a one-character [c]; [None] stands for Python's -1. *)
Fixpoint py_find (c : ascii) (s : string) : option nat :=
  match s with
  | EmptyString => None
  | String d s' =>
      if Ascii.eqb d c then Some 0 else S <$> py_find c s'
  end.

(** [s.split(c, 1)] for a one-character [c]: [None] when [c] does not occur
    (Python returns the one-element list [[s]]), else the text before and
    after the first occurrence. *)
Fixpoint py_split_once (c : ascii) (s : string) : option (string * string) :=
  match s with
  | EmptyString => None
  | String d s' =>
      if Ascii.eqb d c then Some (EmptyString, s')
      else (λ '(a, b), (String d a, b)) <$> py_split_once c s'
  end.

(** [s.split(c)] for a one-character [c]: never empty. *)
Fixpoint py_split (c : ascii) (s : string) : list string :=
  match s with
  | EmptyString => [EmptyString]
  | String d s' =>
      match py_split c s' with
      | [] => [String d EmptyString]
      | x :: xs => if Ascii.eqb d c then EmptyString :: x :: xs
                   else String d x :: xs
      end
  end.

(** [sep.join(l)] *)
Fixpoint py_join (sep : string) (l : list string) : string :=
  match l with
  | [] => EmptyString
  | [x] => x
  | x :: xs => x +:+ sep +:+ py_join sep xs
  end.

(** [s.startswith(p)] *)
Definition py_startswith (p s : string) : bool := String.prefix p s.

(** [sub in s] *)
Fixpoint py_contains (sub s : string) : bool :=
  String.prefix sub s ||
  match s with
  | EmptyString => false
  | String _ s' => py_contains sub s'
  end.

(** Membership of a character. *)
Fixpoint str_has (c : ascii) (s : string) : bool :=
  match s with
  | EmptyString => false
  | String d s' => Ascii.eqb d c || str_has c s'
  end.

(** [s[n:]] *)
Fixpoint str_drop (n : nat) (s : string) : string :=
  match n, s with
  | O, _ => s
  | S _, EmptyString => EmptyString
  | S n', String _ s' => str_drop n' s'
  end.

(** [s.replace(a, b)] for one-character [a] and [b]. *)
Definition py_replace_char (a b : ascii) (s : string) : string :=
  str_map (λ c, if Ascii.eqb c a then b else c) s.

(** ** Lemmas *)

Lemma ascii_lower_idem c : ascii_lower (ascii_lower c) = ascii_lower c.
Proof.
  unfold ascii_lower, is_ascii_upper, ascii_code.
  destruct ((65 <=? nat_of_ascii c)%nat && (nat_of_ascii c <=? 90)%nat) eqn:E;
    [|by rewrite E].
  apply andb_true_iff in E as [E1 E2].
  apply Nat.leb_le in E1, E2.
  rewrite nat_ascii_embedding by lia.
  replace ((nat_of_ascii c + 32 <=? 90)%nat) with false
    by (symmetry; apply Nat.leb_gt; lia).
  by rewrite andb_false_r.
Qed.

Lemma str_map_compose f g s : str_map f (str_map g s) = str_map (f ∘ g) s.
Proof. induction s; simpl; by f_equal. Qed.

Lemma str_map_ext f g s : (∀ c, f c = g c) → str_map f s = str_map g s.
Proof. intros Hfg. induction s; simpl; by f_equal. Qed.

Lemma py_lower_idem s : py_lower (py_lower s) = py_lower s.
Proof.
  unfold py_lower. rewrite str_map_compose.
  apply str_map_ext. intros c. apply ascii_lower_idem.
Qed.

Lemma length_str_map f s : String.length (str_map f s) = String.length s.
Proof. induction s; simpl; by f_equal. Qed.

Lemma str_map_app f s1 s2 : str_map f (s1 +:+ s2) = str_map f s1 +:+ str_map f s2.
Proof. induction s1; [reflexivity|]. simpl. rewrite IHs1. reflexivity. Qed.

Lemma py_rstrip_cons strip c s :
  py_rstrip strip (String c s) =
    match py_rstrip strip s with
    | EmptyString => if strip c then EmptyString else String c EmptyString
    | String _ _ => String c (py_rstrip strip s)
    end.
Proof. reflexivity. Qed.

(** [rstrip] leaves no strippable character at the end. *)
Lemma py_rstrip_idem strip s : py_rstrip strip (py_rstrip strip s) = py_rstrip strip s.
Proof.
  induction s as [|c s IH]; [done|]. rewrite py_rstrip_cons.
  destruct (py_rstrip strip s) as [|d r] eqn:E.
  - destruct (strip c) eqn:Hc; simpl; [done|]. by rewrite Hc.
  - rewrite py_rstrip_cons, IH. done.
Qed.

(** The result of [rstrip] is a prefix of the input, and what was dropped
    consists of strippable characters only. *)
Lemma py_rstrip_spec strip s :
  ∃ t, s = py_rstrip strip s +:+ t ∧
       (∀ c, str_has c t = true → strip c = true).
Proof.
  induction s as [|c s (t & Ht & Hall)]; simpl.
  - exists "". split; [done|]. done.
  - destruct (py_rstrip strip s) as [|d r] eqn:E.
    + destruct (strip c) eqn:Hc.
      * exists (String c t). simpl. split; [by rewrite Ht at 1|].
        intros c' H'. simpl in H'. apply orb_true_iff in H' as [H'|H'].
        -- apply Ascii.eqb_eq in H'. by subst.
        -- by apply Hall.
      * exists t. simpl. split; [by rewrite Ht at 1|done].
    + exists t. simpl. split; [by rewrite Ht at 1|done].
Qed.

Lemma py_find_split_once c s i :
  py_find c s = Some i →
  ∃ a b, py_split_once c s = Some (a, b) ∧ String.length a = i.
Proof.
  revert i. induction s as [|d s IH]; intros i H; simpl in *; [done|].
  destruct (Ascii.eqb d c) eqn:E.
  - inv_clear H. eauto.
  - destruct (py_find c s) as [j|] eqn:Hj; simpl in H; [|done]. inv_clear H.
    destruct (IH j eq_refl) as (a & b & -> & <-). simpl. eauto.
Qed.

(** [split(c, 1)] cuts at the first [c]. *)
Lemma py_split_once_spec c s a b :
  py_split_once c s = Some (a, b) → s = a +:+ String c b ∧ str_has c a = false.
Proof.
  revert a b. induction s as [|d s IH]; intros a b H; simpl in *; [done|].
  destruct (Ascii.eqb d c) eqn:E.
  - inv_clear H. apply Ascii.eqb_eq in E. subst. done.
  - destruct (py_split_once c s) as [[a' b']|] eqn:Hs; simpl in H; [|done].
    inv_clear H. destruct (IH _ _ eq_refl) as [-> Ha]. simpl.
    rewrite E, Ha. done.
Qed.

Lemma py_split_once_None c s : py_split_once c s = None ↔ str_has c s = false.
Proof.
  induction s as [|d s IH]; simpl; [done|].
  destruct (Ascii.eqb d c); simpl; [done|].
  rewrite <- IH. destruct (py_split_once c s) as [[]|]; simpl; done.
Qed.

Lemma py_split_not_nil c s : py_split c s ≠ [].
Proof.
  induction s as [|d s IH]; simpl; [done|].
  destruct (py_split c s); [done|]. by destruct (Ascii.eqb d c).
Qed.

(** [c.join(s.split(c)) == s] *)
Lemma py_join_split c s : py_join (String c "") (py_split c s) = s.
Proof.
  induction s as [|d s IH]; [done|]. simpl.
  destruct (py_split c s) as [|x xs] eqn:E; [by apply py_split_not_nil in E|].
  destruct (Ascii.eqb d c) eqn:Hd.
  - apply Ascii.eqb_eq in Hd as ->. rewrite <- IH. reflexivity.
  - rewrite <- IH. destruct xs; reflexivity.
Qed.

(** No piece of [s.split(c)] contains [c]. *)
Lemma py_split_pieces c s : Forall (λ x, str_has c x = false) (py_split c s).
Proof.
  induction s as [|d s IH]; simpl; [by repeat constructor|].
  destruct (py_split c s) as [|x xs] eqn:E; [by apply py_split_not_nil in E|].
  inversion IH as [|? ? Hx Hxs]; subst.
  destruct (Ascii.eqb d c) eqn:Hd; repeat constructor; simpl; try done.
  by rewrite Hd, Hx.
Qed.

Lemma str_has_cons c d s : str_has c (String d s) = Ascii.eqb d c || str_has c s.
Proof. reflexivity. Qed.

Lemma str_has_app c s1 s2 : str_has c (s1 +:+ s2) = str_has c s1 || str_has c s2.
Proof. induction s1; simpl; [done|]. rewrite IHs1. apply orb_assoc. Qed.

Lemma py_startswith_app p t : py_startswith p (p +:+ t) = true.
Proof.
  unfold py_startswith. induction p as [|c p IH]; simpl.
  - by destruct t.
  - destruct (ascii_dec c c); [done|congruence].
Qed.

#[export] Hint Resolve py_split_not_nil py_split_pieces py_startswith_app : volector.
#[export] Hint Rewrite py_lower_idem py_rstrip_idem py_join_split : volector_rw.

Lemma py_join_cons_ne sep x l : x ≠ EmptyString → py_join sep (x :: l) ≠ EmptyString.
Proof. destruct x; [done|]. destruct l; simpl; done. Qed.

(** [s.split(c)] inverts [c.join(l)] when no piece contains [c]. *)
Lemma py_split_no_sep c x : str_has c x = false → py_split c x = [x].
Proof.
  induction x as [|d x IH]; intros H; [done|]. simpl in *.
  apply orb_false_iff in H as [Hd Hx]. rewrite IH by done. by rewrite Hd.
Qed.

Lemma py_split_app_sep c x r :
  str_has c x = false → py_split c (x +:+ String c r) = x :: py_split c r.
Proof.
  induction x as [|d x IH]; intros H; simpl in *.
  - destruct (py_split c r) eqn:E; [by apply py_split_not_nil in E|].
    by rewrite Ascii.eqb_refl.
  - apply orb_false_iff in H as [Hd Hx]. rewrite IH by done. by rewrite Hd.
Qed.

Lemma py_split_join c l :
  l ≠ [] → Forall (λ x, str_has c x = false) l →
  py_split c (py_join (String c EmptyString) l) = l.
Proof.
  induction l as [|x [|y l] IH]; intros Hne Hall; [done| |].
  - inversion Hall; subst. by apply py_split_no_sep.
  - inversion Hall as [|? ? Hx Hl]; subst.
    change (py_join (String c "") (x :: y :: l))
      with (x +:+ String c (py_join (String c "") (y :: l))).
    rewrite py_split_app_sep by done. f_equal. by apply IH.
Qed.

Lemma py_split_once_app c a b :
  str_has c a = false → py_split_once c (a +:+ String c b) = Some (a, b).
Proof.
  induction a as [|d a IH]; intros H; simpl in *.
  - by rewrite Ascii.eqb_refl.
  - apply orb_false_iff in H as [Hd Ha]. rewrite Hd, IH by done. done.
Qed.

Lemma str_has_str_map c f s :
  str_has c (str_map f s) = true → ∃ d, str_has d s = true ∧ f d = c.
Proof.
  induction s as [|d s IH]; simpl; [done|]. intros [H|H]%orb_true_iff.
  - apply Ascii.eqb_eq in H. exists d. by rewrite Ascii.eqb_refl.
  - destruct (IH H) as (d' & Hd' & <-). exists d'. by rewrite Hd', orb_true_r.
Qed.

(** ** Python's order on pairs of strings

    Python compares [str] by code points, which on UTF-8 is the byte order
    [String.le]; tuples compare lexicographically.  [sorted] on a list of
    [(key, value)] pairs is therefore the unique sorted permutation for this
    total order, computed here by stdpp's [merge_sort]. *)
Definition str_pair_le (p q : string * string) : Prop :=
  String.le p.1 q.1 ∧ (String.le q.1 p.1 → String.le p.2 q.2).

#[export] Instance str_pair_le_dec : RelDecision str_pair_le.
Proof. intros [k1 v1] [k2 v2]. unfold str_pair_le. simpl. apply _. Defined.

#[export] Instance str_pair_le_trans : Transitive str_pair_le.
Proof.
  intros [k1 v1] [k2 v2] [k3 v3] [H12 H12'] [H23 H23']; simpl in *.
  split; [by trans k2|]. intros H31.
  assert (k1 = k2) as <- by (apply (anti_symm String.le); [done | by trans k3]).
  assert (k1 = k3) as <- by (by apply (anti_symm String.le)).
  trans v2; auto.
Qed.

#[export] Instance str_pair_le_antisymm : AntiSymm (=) str_pair_le.
Proof.
  intros [k1 v1] [k2 v2] [H12 H12'] [H21 H21']; simpl in *.
  f_equal; apply (anti_symm String.le); auto.
Qed.

#[export] Instance str_pair_le_total : Total str_pair_le.
Proof.
  intros [k1 v1] [k2 v2]. unfold str_pair_le; simpl.
  destruct (decide (String.le k1 k2)) as [H|H];
  destruct (decide (String.le k2 k1)) as [H'|H'].
  - destruct (total String.le v1 v2); [left|right]; split; auto.
  - left. split; [done|]. by intros.
  - right. split; [done|]. by intros.
  - by destruct (total String.le k1 k2).
Qed.

(** [sorted(pairs)] *)
Definition py_sorted_pairs (l : list (string * string)) : list (string * string) :=
  merge_sort str_pair_le l.

Lemma py_sorted_pairs_perm l : py_sorted_pairs l ≡ₚ l.
Proof. apply merge_sort_Permutation. Qed.

Lemma py_sorted_pairs_sorted l : Sorted str_pair_le (py_sorted_pairs l).
Proof. apply Sorted_merge_sort. apply _. Qed.

(** Sorting forgets the order of its input. *)
Lemma py_sorted_pairs_perm_eq l1 l2 : l1 ≡ₚ l2 → py_sorted_pairs l1 = py_sorted_pairs l2.
Proof.
  intros Hp. apply (Sorted_unique str_pair_le); try apply py_sorted_pairs_sorted.
  by rewrite !py_sorted_pairs_perm.
Qed.

#[export] Hint Resolve py_sorted_pairs_sorted py_sorted_pairs_perm : volector.

(** ** [str.encode("utf-8", errors="ignore")]

    A Python [str] is represented by its UTF-8 bytes, with a lone surrogate
    (U+D800..U+DFFF, which a [str] may hold) written as its three-byte
    form [ED A0..BF xx].  Encoding with [errors="ignore"] drops exactly
    these. *)
Definition is_surrogate_lead (a b : ascii) : bool :=
  (nat_of_ascii a =? 237)%nat && (160 <=? nat_of_ascii b)%nat && (nat_of_ascii b <=? 191)%nat.

Fixpoint encode_utf8_ignore (s : string) : list Z :=
  match s with
  | String a (String b (String _ rest) as tl) =>
      if is_surrogate_lead a b then encode_utf8_ignore rest
      else Z.of_nat (nat_of_ascii a) :: encode_utf8_ignore tl
  | String a rest => Z.of_nat (nat_of_ascii a) :: encode_utf8_ignore rest
  | EmptyString => []
  end.

(** ** Digits, lines and UTF-8 *)

Definition is_digit_char (c : ascii) : bool :=
  (48 <=? nat_of_ascii c)%nat && (nat_of_ascii c <=? 57)%nat.

Fixpoint str_forall (p : ascii → bool) (s : string) : bool :=
  match s with EmptyString => true | String c s' => p c && str_forall p s' end.

(** [s.isdigit()] (ASCII digits): non-empty and all digits. *)
Definition py_isdigit (s : string) : bool :=
  match s with
  | EmptyString => false
  | _ => str_forall is_digit_char s
  end.

(** [int(s)] on a string of ASCII digits. *)
Fixpoint digits_value_acc (acc : nat) (s : string) : nat :=
  match s with
  | EmptyString => acc
  | String c s' => digits_value_acc (acc * 10 + (nat_of_ascii c - 48)) s'
  end.
Definition py_int (s : string) : nat := digits_value_acc 0 s.

(** [s.splitlines()] on the UTF-8 bytes of a [str]: the boundaries are
    LF, CR, CR LF, VT, FF, 0x1C-0x1E, U+0085 (C2 85), U+2028 (E2 80 A8)
    and U+2029 (E2 80 A9); a final boundary does not open an empty line. *)
Fixpoint splitlines_acc (cur : string) (s : string) : list string :=
  match s with
  | EmptyString => match cur with EmptyString => [] | _ => [String.rev cur] end
  | String c rest =>
      let n := nat_of_ascii c in
      if (n =? 13)%nat then
        match rest with
        | String d rest' => if (nat_of_ascii d =? 10)%nat
                            then String.rev cur :: splitlines_acc EmptyString rest'
                            else String.rev cur :: splitlines_acc EmptyString rest
        | EmptyString => [String.rev cur]
        end
      else if (n =? 10)%nat || (n =? 11)%nat || (n =? 12)%nat || ((28 <=? n) && (n <=? 30))%nat
      then String.rev cur :: splitlines_acc EmptyString rest
      else if (n =? 194)%nat then
        match rest with
        | String d rest' => if (nat_of_ascii d =? 133)%nat
                            then String.rev cur :: splitlines_acc EmptyString rest'
                            else splitlines_acc (String c cur) rest
        | EmptyString => splitlines_acc (String c cur) rest
        end
      else if (n =? 226)%nat then
        match rest with
        | String d (String e rest') =>
            if (nat_of_ascii d =? 128)%nat && ((nat_of_ascii e =? 168)%nat || (nat_of_ascii e =? 169)%nat)
            then String.rev cur :: splitlines_acc EmptyString rest'
            else splitlines_acc (String c cur) rest
        | _ => splitlines_acc (String c cur) rest
        end
      else splitlines_acc (String c cur) rest
  end.
Definition py_splitlines (s : string) : list string := splitlines_acc EmptyString s.

(** [bytes.decode("utf-8")] succeeds: the strict UTF-8 grammar (no
    overlong forms, no surrogates, nothing above U+10FFFF). *)
Definition in_range (lo hi : nat) (c : ascii) : bool :=
  (lo <=? nat_of_ascii c)%nat && (nat_of_ascii c <=? hi)%nat.

Fixpoint utf8_valid (s : string) : bool :=
  match s with
  | EmptyString => true
  | String a r =>
      if in_range 0 127 a then utf8_valid r
      else if in_range 194 223 a then
        match r with String b r' => in_range 128 191 b && utf8_valid r' | _ => false end
      else if in_range 224 239 a then
        match r with
        | String b (String c r') =>
            (if (nat_of_ascii a =? 224)%nat then in_range 160 191 b
             else if (nat_of_ascii a =? 237)%nat then in_range 128 159 b
             else in_range 128 191 b) && in_range 128 191 c && utf8_valid r'
        | _ => false
        end
      else if in_range 240 244 a then
        match r with
        | String b (String c (String d r')) =>
            (if (nat_of_ascii a =? 240)%nat then in_range 144 191 b
             else if (nat_of_ascii a =? 244)%nat then in_range 128 143 b
             else in_range 128 191 b) && in_range 128 191 c && in_range 128 191 d && utf8_valid r'
        | _ => false
        end
      else false
  end.

(** ** Integer formatting *)

Definition digit_char (d : nat) : ascii := ascii_of_nat (48 + d).

(** The decimal digits of [n] put in front of [acc]; [fuel] bounds the
    number of digits. *)
Fixpoint decimal_go (fuel n : nat) (acc : string) : string :=
  match fuel with
  | O => acc
  | S f => let acc' := String (digit_char (n mod 10)) acc in
           if (n <? 10)%nat then acc' else decimal_go f (n / 10) acc'
  end.

(** [str(n)] for a non-negative integer: [n] has at most [n + 1] digits. *)
Definition decimal (n : nat) : string := decimal_go (S n) n EmptyString.

Fixpoint zeros (k : nat) : string :=
  match k with O => EmptyString | S k' => String "0" (zeros k') end.

(** [f"{n:0wd}"]: left-padded with zeros to width [w], never truncated. *)
Definition py_format_zpad (w n : nat) : string :=
  let s := decimal n in zeros (w - String.length s) +:+ s.

Lemma str_app_assoc (s t u : string) : (s +:+ t) +:+ u = s +:+ (t +:+ u).
Proof. induction s as [|c s IH]; [done|]. exact (f_equal (String c) IH). Qed.

Lemma digits_value_acc_app a s t :
  digits_value_acc a (s +:+ t) = digits_value_acc (digits_value_acc a s) t.
Proof. revert a. induction s as [|c s IH]; intros a; [done|]. apply IH. Qed.

Lemma decimal_go_acc f n acc : decimal_go f n acc = decimal_go f n EmptyString +:+ acc.
Proof.
  revert n acc. induction f as [|f IH]; intros n acc; [done|]. simpl.
  destruct (n <? 10)%nat; [done|]. rewrite IH, (IH _ (String _ EmptyString)).
  by rewrite str_app_assoc.
Qed.

Lemma digit_char_value d : (d < 10)%nat → (nat_of_ascii (digit_char d) - 48)%nat = d.
Proof.
  intros Hd. unfold digit_char. rewrite nat_ascii_embedding; lia.
Qed.

Lemma decimal_go_value f n : (n < 10 ^ f)%nat → digits_value_acc 0 (decimal_go f n EmptyString) = n.
Proof.
  revert n. induction f as [|f IH]; intros n Hn.
  - rewrite Nat.pow_0_r in Hn. by assert (n = 0)%nat as -> by lia.
  - cbn [decimal_go]. destruct (n <? 10)%nat eqn:H10.
    + apply Nat.ltb_lt in H10. cbn [digits_value_acc].
      rewrite Nat.mod_small, digit_char_value by lia. lia.
    + apply Nat.ltb_ge in H10. rewrite decimal_go_acc, digits_value_acc_app.
      rewrite IH by (apply Nat.Div0.div_lt_upper_bound; rewrite <- Nat.pow_succ_r'; lia).
      cbn [digits_value_acc]. rewrite digit_char_value by (apply Nat.mod_upper_bound; lia).
      pose proof (Nat.div_mod_eq n 10). lia.
Qed.

Lemma digits_value_zeros k s : digits_value_acc 0 (zeros k +:+ s) = digits_value_acc 0 s.
Proof. induction k as [|k IH]; [done|]. exact IH. Qed.

(** [int(f"{n:0wd}") == n]: the padded rendering reads back as [n]. *)
Lemma py_int_format_zpad w n : py_int (py_format_zpad w n) = n.
Proof.
  unfold py_int, py_format_zpad. rewrite digits_value_zeros. apply decimal_go_value.
  pose proof (Nat.pow_gt_lin_r 10 n ltac:(lia)). rewrite Nat.pow_succ_r'. lia.
Qed.

Lemma py_format_zpad_inj w n m : py_format_zpad w n = py_format_zpad w m → n = m.
Proof. intros H. rewrite <- (py_int_format_zpad w n), <- (py_int_format_zpad w m). by rewrite H. Qed.

Lemma str_app_length (s t : string) : String.length (s +:+ t) = (String.length s + String.length t)%nat.
Proof. induction s as [|c s IH]; [done|]. exact (f_equal S IH). Qed.

Lemma str_app_inv_l (p s t : string) : p +:+ s = p +:+ t → s = t.
Proof. induction p as [|c p IH]; [done|]. intros [= H]. by apply IH. Qed.

Lemma str_app_inv_r (s t x : string) : s +:+ x = t +:+ x → s = t.
Proof.
  revert t. induction s as [|c s IH]; intros t H; destruct t as [|d t]; [done| | |].
  - apply (f_equal String.length) in H. rewrite !str_app_length in H. simpl in H. lia.
  - apply (f_equal String.length) in H. rewrite !str_app_length in H. simpl in H. lia.
  - injection H as -> H. f_equal. by apply IH.
Qed.

(** [s.split()] without a separator: the maximal runs of non-whitespace
    bytes ([cur] holds the current word reversed). *)
Fixpoint py_split_ws_acc (cur : string) (s : string) : list string :=
  match s with
  | EmptyString => if bool_decide (cur = EmptyString) then [] else [String.rev cur]
  | String c s' =>
      if is_py_space c then
        (if bool_decide (cur = EmptyString) then [] else [String.rev cur]) ++ py_split_ws_acc EmptyString s'
      else py_split_ws_acc (String c cur) s'
  end.

Definition py_split_ws (s : string) : list string := py_split_ws_acc EmptyString s.

(** ** [int(s)] and [str(z)] on integers *)

Definition digit_val (c : ascii) : Z := Z.of_nat (nat_of_ascii c - 48).

(** The digits after the first one, an underscore being allowed between
    two digits (PEP 515). *)
Fixpoint int_digits_go (s : string) (acc : Z) : option Z :=
  match s with
  | EmptyString => Some acc
  | String c s' =>
      if is_digit_char c then int_digits_go s' (acc * 10 + digit_val c)
      else if Ascii.eqb c "_" then
        match s' with
        | String d s'' => if is_digit_char d then int_digits_go s'' (acc * 10 + digit_val d) else None
        | EmptyString => None
        end
      else None
  end.

Definition int_digits (s : string) : option Z :=
  match s with
  | String c s' => if is_digit_char c then int_digits_go s' (digit_val c) else None
  | EmptyString => None
  end.

(** [int(s)] in base 10 on ASCII text: whitespace around, an optional
    sign, then the digits; [None] for the [ValueError]. *)
Definition py_int_of_str (s : string) : option Z :=
  match py_strip s with
  | String c r =>
      if Ascii.eqb c "-" then Z.opp <$> int_digits r
      else if Ascii.eqb c "+" then int_digits r
      else int_digits (String c r)
  | EmptyString => None
  end.

(** [str(z)] *)
Definition py_str_Z (z : Z) : string :=
  if (z <? 0)%Z then String "-" (decimal (Z.to_nat (- z))) else decimal (Z.to_nat z).

Lemma digit_char_is_digit d : (d < 10)%nat → is_digit_char (digit_char d) = true.
Proof.
  intros Hd. unfold is_digit_char, digit_char. rewrite nat_ascii_embedding by lia.
  apply andb_true_intro. split; apply Nat.leb_le; lia.
Qed.

Lemma decimal_go_digits f n acc :
  str_forall is_digit_char acc = true → str_forall is_digit_char (decimal_go f n acc) = true.
Proof.
  revert n acc. induction f as [|f IH]; intros n acc Hacc; [done|]. cbn [decimal_go].
  assert (str_forall is_digit_char (String (digit_char (n mod 10)) acc) = true).
  { cbn [str_forall]. rewrite digit_char_is_digit, Hacc; [done|]. apply Nat.mod_upper_bound. lia. }
  destruct (n <? 10)%nat; auto.
Qed.

Lemma decimal_cons n : ∃ d t, decimal n = String d t.
Proof.
  unfold decimal. cbn [decimal_go]. destruct (n <? 10)%nat; [eauto|].
  rewrite decimal_go_acc. destruct (decimal_go n (n / 10) EmptyString); simpl; eauto.
Qed.

Lemma int_digits_go_value s a :
  str_forall is_digit_char s = true → int_digits_go s (Z.of_nat a) = Some (Z.of_nat (digits_value_acc a s)).
Proof.
  revert a. induction s as [|c s IH]; intros a Hs; [done|]. simpl in Hs. apply andb_prop in Hs as [Hc Hs].
  simpl. rewrite Hc. unfold digit_val. rewrite <- (IH _ Hs). f_equal. lia.
Qed.

Lemma int_digits_decimal n : int_digits (decimal n) = Some (Z.of_nat n).
Proof.
  pose proof (decimal_go_digits (S n) n EmptyString eq_refl) as Hall. fold (decimal n) in Hall.
  pose proof (decimal_go_value (S n) n) as Hv. fold (decimal n) in Hv.
  destruct (decimal_cons n) as (d & t & Hd). rewrite Hd in *. simpl in Hall.
  apply andb_prop in Hall as [Hc Ht]. simpl. rewrite Hc. unfold digit_val.
  rewrite int_digits_go_value by done.
  replace (digits_value_acc (nat_of_ascii d - 48) t) with (digits_value_acc 0 (String d t)) by reflexivity.
  rewrite Hv; [done|].
  pose proof (Nat.pow_gt_lin_r 10 n ltac:(lia)). rewrite Nat.pow_succ_r'. lia.
Qed.

Lemma py_rstrip_forall strip s : str_forall (negb ∘ strip) s = true → py_rstrip strip s = s.
Proof.
  induction s as [|c s IH]; [done|]. simpl. intros [Hc Hs]%andb_prop. rewrite IH by done.
  destruct s; [|done]. by destruct (strip c).
Qed.

Lemma py_strip_forall s : str_forall (negb ∘ is_py_space) s = true → py_strip s = s.
Proof.
  intros Hs. unfold py_strip. rewrite py_rstrip_forall by done.
  destruct s as [|c s]; [done|]. simpl in *. apply andb_prop in Hs as [Hc _]. by destruct (is_py_space c).
Qed.

Lemma str_forall_impl p q s : (∀ c, p c = true → q c = true) → str_forall p s = true → str_forall q s = true.
Proof. intros Hpq. induction s as [|c s IH]; [done|]. simpl. intros [? ?]%andb_prop. rewrite Hpq, IH; auto. Qed.

Lemma digit_not_space c : is_digit_char c = true → (negb ∘ is_py_space) c = true.
Proof.
  unfold is_digit_char, is_py_space, ascii_code, compose. intros [H1 H2]%andb_prop.
  apply Nat.leb_le in H1, H2. apply negb_true_iff, orb_false_intro; apply andb_false_intro2 || apply andb_false_intro1;
    apply Nat.leb_gt; lia.
Qed.

(** [int(str(z)) == z] *)
Lemma py_int_of_str_str z : py_int_of_str (py_str_Z z) = Some z.
Proof.
  pose proof (λ n, decimal_go_digits (S n) n EmptyString eq_refl) as Hall.
  unfold py_int_of_str, py_str_Z. destruct (z <? 0)%Z eqn:Hz.
  - rewrite py_strip_forall.
    + cbn -[decimal int_digits]. rewrite int_digits_decimal. cbn -[decimal]. f_equal. lia.
    + cbn -[decimal]. eapply str_forall_impl; [apply digit_not_space|apply Hall].
  - rewrite py_strip_forall by (eapply str_forall_impl; [apply digit_not_space|apply Hall]).
    pose proof (Hall (Z.to_nat z)) as Hd. fold (decimal (Z.to_nat z)) in Hd.
    destruct (decimal_cons (Z.to_nat z)) as (d & t & Ht). rewrite Ht.
    rewrite Ht in Hd. simpl in Hd. apply andb_prop in Hd as [Hc _].
    destruct (Ascii.eqb_spec d "-") as [->|]; [discriminate|].
    destruct (Ascii.eqb_spec d "+") as [->|]; [discriminate|].
    rewrite <- Ht, int_digits_decimal. f_equal. lia.
Qed.
