(* ===== verification/UrlLib.v ===== *)
(** * UrlLib: the parts of CPython 3.11's [urllib.parse] the crawler calls

    [core/dedup.py] calls [urlsplit], [parse_qsl(keep_blank_values=True)],
    [urlencode] and [urlunsplit]; [urllib.robotparser] calls [unquote] and
    [quote].  These are library functions, modelled here from the CPython
    3.11 source ([Lib/urllib/parse.py]) so that the crawler's own code can
    be modelled on top of them.  What is left abstract: the [ipaddress]
    grammar behind [_check_bracketed_host] and the NFKC test of
    [_checknetloc] on non-ASCII netlocs (the class [UrlEnv]).

    The main result is the round trip [parse_qsl_urlencode]: decoding an
    encoded query gives back the pairs. *)

From S2P Require Import Prelude PyStr.
From Stdlib Require Import Ascii.

Inductive url_error :=
  | ValueError (msg : string).

(** The two checks of [urlsplit] that depend on Unicode tables and the IP
    address grammar. *)
Class UrlEnv := {
  bracketed_host_ok : string → bool;  (** [_check_bracketed_host] does not raise *)
  nfkc_netloc_ok : string → bool      (** [_checknetloc] on a non-ASCII netloc *)
}.

(** An environment in which both checks reject: on URLs whose netloc is
    ASCII and has no brackets neither check is reached, so examples on such
    URLs evaluate with it to what every environment gives. *)
Definition ascii_url_env : UrlEnv :=
  {| bracketed_host_ok := λ _, false; nfkc_netloc_ok := λ _, false |}.

(** [SplitResult(scheme, netloc, path, query, fragment)] *)
Record split_result := SplitResult {
  sr_scheme : string;
  sr_netloc : string;
  sr_path : string;
  sr_query : string;
  sr_fragment : string
}.

(** ** Character classes *)

Definition ch (n : nat) : ascii := ascii_of_nat n.

Definition is_ascii_alpha (c : ascii) : bool :=
  let n := ascii_code c in ((65 <=? n) && (n <=? 90)) || ((97 <=? n) && (n <=? 122)).

Definition is_ascii_digit (c : ascii) : bool :=
  let n := ascii_code c in (48 <=? n) && (n <=? 57).

(** [scheme_chars]: letters, digits and [+-.] *)
Definition is_scheme_char (c : ascii) : bool :=
  is_ascii_alpha c || is_ascii_digit c ||
  Ascii.eqb c "+"%char || Ascii.eqb c "-"%char || Ascii.eqb c "."%char.

(** [_WHATWG_C0_CONTROL_OR_SPACE]: code points 0x00..0x20 *)
Definition is_c0_or_space (c : ascii) : bool := ascii_code c <=? 32.

(** [_UNSAFE_URL_BYTES_TO_REMOVE]: tab, CR, LF *)
Definition is_unsafe_url_byte (c : ascii) : bool :=
  Ascii.eqb c (ch 9) || Ascii.eqb c (ch 13) || Ascii.eqb c (ch 10).

Definition is_ascii_char (c : ascii) : bool := ascii_code c <? 128.

Fixpoint str_forallb (p : ascii → bool) (s : string) : bool :=
  match s with EmptyString => true | String c s' => p c && str_forallb p s' end.

Fixpoint str_filter (p : ascii → bool) (s : string) : string :=
  match s with
  | EmptyString => EmptyString
  | String c s' => if p c then String c (str_filter p s') else str_filter p s'
  end.

(** [uses_netloc] *)
Definition uses_netloc : list string :=
  [""; "ftp"; "http"; "gopher"; "nntp"; "telnet"; "imap"; "wais"; "file";
   "mms"; "https"; "shttp"; "snews"; "prospero"; "rtsp"; "rtspu"; "rsync";
   "svn"; "svn+ssh"; "sftp"; "nfs"; "git"; "git+ssh"; "ws"; "wss"].

(** ** [urlsplit] *)

(** [_splitnetloc(url, 2)] on the text after the leading [//]: the netloc
    ends at the first of [/?#]. *)
Fixpoint split_netloc (s : string) : string * string :=
  match s with
  | EmptyString => (EmptyString, EmptyString)
  | String c s' =>
      if Ascii.eqb c "/"%char || Ascii.eqb c "?"%char || Ascii.eqb c "#"%char
      then (EmptyString, s)
      else let '(n, r) := split_netloc s' in (String c n, r)
  end.

(** [s.partition(c)] as (before, found, after). *)
Definition py_partition (c : ascii) (s : string) : string * bool * string :=
  match py_split_once c s with
  | Some (a, b) => (a, true, b)
  | None => (s, false, EmptyString)
  end.

(** [s.rpartition(c)[2]]: the text after the last [c], or [s]. *)
Definition py_rpartition_tail (c : ascii) (s : string) : string :=
  default s (last (py_split c s)).

(** [_check_bracketed_netloc] *)
Definition check_bracketed_netloc {env : UrlEnv} (netloc : string) : exc url_error unit :=
  let hostname_and_port := py_rpartition_tail "@"%char netloc in
  match py_partition "["%char hostname_and_port with
  | (before, true, bracketed) =>
      if bool_decide (before ≠ EmptyString) then Raise (ValueError "Invalid IPv6 URL")
      else
        let '(hostname, _, port) := py_partition "]"%char bracketed in
        if bool_decide (port ≠ EmptyString) && negb (py_startswith ":" port)
        then Raise (ValueError "Invalid IPv6 URL")
        else if bracketed_host_ok hostname then Ok tt
        else Raise (ValueError "Invalid IPv6 URL")
  | (_, false, _) =>
      let '(hostname, _, _) := py_partition ":"%char hostname_and_port in
      if bracketed_host_ok hostname then Ok tt
      else Raise (ValueError "Invalid IPv6 URL")
  end.

(** [_checknetloc] *)
Definition check_netloc {env : UrlEnv} (netloc : string) : exc url_error unit :=
  if str_forallb is_ascii_char netloc then Ok tt
  else if nfkc_netloc_ok netloc then Ok tt
  else Raise (ValueError "netloc contains invalid characters under NFKC normalization").

(** The scheme test of [urlsplit]: the text before the first [:] is a
    scheme when it is non-empty, starts with an ASCII letter and consists
    of scheme characters. *)
Definition split_scheme (url : string) : string * string :=
  match py_split_once ":"%char url with
  | Some (String c0 rest as sch, after) =>
      if is_ascii_alpha c0 && str_forallb is_scheme_char sch
      then (py_lower sch, after) else (EmptyString, url)
  | _ => (EmptyString, url)
  end.

(** [urlsplit(url)] with the default [scheme=''] and [allow_fragments]. *)
Definition urlsplit {env : UrlEnv} (url0 : string) : exc url_error split_result :=
  let url1 := str_filter (negb ∘ is_unsafe_url_byte) (py_lstrip is_c0_or_space url0) in
  let '(scheme, url2) := split_scheme url1 in
  netloc_rest ←
    (if py_startswith "//" url2 then
       let '(netloc, rest) := split_netloc (str_drop 2 url2) in
       let has_open := str_has "["%char netloc in
       let has_close := str_has "]"%char netloc in
       if (has_open && negb has_close) || (has_close && negb has_open)
       then Raise (ValueError "Invalid IPv6 URL")
       else if has_open && has_close
       then (check_bracketed_netloc netloc ≫= λ _, Ok (netloc, rest))
       else Ok (netloc, rest)
     else Ok (EmptyString, url2));
  let '(netloc, url3) := netloc_rest in
  let '(url4, fragment) :=
    match py_split_once "#"%char url3 with Some p => p | None => (url3, EmptyString) end in
  let '(path, query) :=
    match py_split_once "?"%char url4 with Some p => p | None => (url4, EmptyString) end in
  check_netloc netloc ≫= λ _, Ok (SplitResult scheme netloc path query fragment).

(** ** [urlunsplit] *)
Definition urlunsplit (p : split_result) : string :=
  let '(SplitResult scheme netloc url query fragment) := p in
  let url1 :=
    if bool_decide (netloc ≠ EmptyString) ||
       (bool_decide (scheme ≠ EmptyString) && bool_decide (scheme ∈ uses_netloc) &&
        negb (py_startswith "//" url))
    then let url' := if bool_decide (url ≠ EmptyString) && negb (py_startswith "/" url)
                     then "/" +:+ url else url in
         "//" +:+ netloc +:+ url'
    else url in
  let url2 := if bool_decide (scheme ≠ EmptyString) then scheme +:+ ":" +:+ url1 else url1 in
  let url3 := if bool_decide (query ≠ EmptyString) then url2 +:+ "?" +:+ query else url2 in
  if bool_decide (fragment ≠ EmptyString) then url3 +:+ "#" +:+ fragment else url3.

(** ** Percent-encoding *)

Definition hex_digit_upper (n : nat) : ascii :=
  if n <? 10 then ch (48 + n) else ch (55 + n).

(** The value of a hexadecimal digit, either case. *)
Definition hex_value (c : ascii) : option nat :=
  let n := ascii_code c in
  if (48 <=? n) && (n <=? 57) then Some (n - 48)
  else if (65 <=? n) && (n <=? 70) then Some (n - 55)
  else if (97 <=? n) && (n <=? 102) then Some (n - 87)
  else None.

(** [_ALWAYS_SAFE]: letters, digits and [_.-~] *)
Definition is_always_safe (c : ascii) : bool :=
  is_ascii_alpha c || is_ascii_digit c ||
  Ascii.eqb c "_"%char || Ascii.eqb c "."%char || Ascii.eqb c "-"%char || Ascii.eqb c "~"%char.

Definition percent_escape (c : ascii) : string :=
  String "%"%char (String (hex_digit_upper (ascii_code c / 16))
                           (String (hex_digit_upper (ascii_code c mod 16)) EmptyString)).

(** [quote(s, safe)] with the extra safe characters given as a class. *)
Fixpoint quote_with (safe : ascii → bool) (s : string) : string :=
  match s with
  | EmptyString => EmptyString
  | String c s' =>
      (if is_always_safe c || safe c then String c EmptyString else percent_escape c)
      +:+ quote_with safe s'
  end.

(** [quote(s)]: the default [safe='/'] *)
Definition quote (s : string) : string := quote_with (λ c, Ascii.eqb c "/"%char) s.

(** [quote_plus(s)] with [safe='']: [quote(s, ' ')] then spaces become [+]. *)
Definition quote_plus (s : string) : string :=
  py_replace_char " "%char "+"%char (quote_with (λ c, Ascii.eqb c " "%char) s).

(** [unquote(s)]: every [%XX] with two hexadecimal digits becomes the byte
    [XX]; any other [%] is kept. *)
Fixpoint unquote (s : string) : string :=
  match s with
  | EmptyString => EmptyString
  | String c rest =>
      if Ascii.eqb c "%"%char then
        match rest with
        | String h1 (String h2 rest') =>
            match hex_value h1, hex_value h2 with
            | Some v1, Some v2 => String (ch (v1 * 16 + v2)) (unquote rest')
            | _, _ => String c (unquote rest)
            end
        | _ => String c (unquote rest)
        end
      else String c (unquote rest)
  end.

(** [unquote_plus(s)] *)
Definition unquote_plus (s : string) : string :=
  unquote (py_replace_char "+"%char " "%char s).

(** ** Query strings *)

(** One field of [parse_qsl]: [None] when the field is dropped. *)
Definition parse_qsl_field (keep_blank_values : bool) (name_value : string)
    : option (string * string) :=
  if bool_decide (name_value = EmptyString) then None
  else
    let nv := match py_split_once "="%char name_value with
              | Some (n, v) => Some (n, v)
              | None => if keep_blank_values then Some (name_value, EmptyString) else None
              end in
    match nv with
    | Some (n, v) =>
        if bool_decide (v ≠ EmptyString) || keep_blank_values
        then Some (unquote_plus n, unquote_plus v) else None
    | None => None
    end.

(** [parse_qsl(qs, keep_blank_values)] *)
Definition parse_qsl (keep_blank_values : bool) (qs : string) : list (string * string) :=
  let query_args := if bool_decide (qs = EmptyString) then [] else py_split "&"%char qs in
  omap (parse_qsl_field keep_blank_values) query_args.

(** [urlencode(pairs)] with [doseq=False] and [quote_via=quote_plus] *)
Definition urlencode (query : list (string * string)) : string :=
  py_join "&" (map (λ '(k, v), quote_plus k +:+ "=" +:+ quote_plus v) query).

(** ** Percent-encoding round trip *)

Lemma ascii_code_lt c : ascii_code c < 256.
Proof. unfold ascii_code. apply nat_ascii_bounded. Qed.

Lemma hex_value_digit n : n < 16 → hex_value (hex_digit_upper n) = Some n.
Proof. intros H. do 16 (destruct n as [|n]; [reflexivity|]). lia. Qed.

Lemma hex_digit_safe n : n < 16 → is_always_safe (hex_digit_upper n) = true.
Proof. intros H. do 16 (destruct n as [|n]; [reflexivity|]). lia. Qed.

Lemma ch_code_split c : ch (ascii_code c / 16 * 16 + ascii_code c mod 16) = c.
Proof.
  unfold ch, ascii_code. rewrite (Nat.mul_comm _ 16), <- Nat.div_mod_eq.
  apply ascii_nat_embedding.
Qed.

Lemma unquote_hex h1 h2 v1 v2 r :
  hex_value h1 = Some v1 → hex_value h2 = Some v2 →
  unquote (String "%"%char (String h1 (String h2 r))) = String (ch (v1 * 16 + v2)) (unquote r).
Proof. intros H1 H2. simpl. by rewrite H1, H2. Qed.

Lemma unquote_escape c r : unquote (percent_escape c +:+ r) = String c (unquote r).
Proof.
  pose proof (ascii_code_lt c).
  change (percent_escape c +:+ r) with
    (String "%"%char (String (hex_digit_upper (ascii_code c / 16))
                             (String (hex_digit_upper (ascii_code c mod 16)) r))).
  rewrite (unquote_hex _ _ (ascii_code c / 16) (ascii_code c mod 16)).
  - by rewrite ch_code_split.
  - apply hex_value_digit, Nat.Div0.div_lt_upper_bound. lia.
  - apply hex_value_digit, Nat.mod_upper_bound. lia.
Qed.

Lemma unquote_plain c r : Ascii.eqb c "%"%char = false → unquote (String c r) = String c (unquote r).
Proof. intros H. simpl. by rewrite H. Qed.

(** Every character [quote_with safe] emits is always-safe, extra-safe, or
    the [%] of an escape. *)
Lemma quote_with_chars safe s d :
  str_has d (quote_with safe s) = true →
  is_always_safe d || safe d || Ascii.eqb d "%"%char = true.
Proof.
  induction s as [|c s IH]; [done|]. cbn [quote_with]. rewrite str_has_app.
  intros [H|H]%orb_true_iff; [|by apply IH].
  pose proof (ascii_code_lt c).
  destruct (is_always_safe c || safe c) eqn:Hc.
  - rewrite str_has_cons, orb_false_r in H. apply Ascii.eqb_eq in H as <-. by rewrite Hc.
  - unfold percent_escape in H. rewrite !str_has_cons, orb_false_r in H.
    apply orb_true_iff in H as [H|H].
    { apply Ascii.eqb_eq in H as <-. by rewrite orb_true_r. }
    apply orb_true_iff in H as [H|H]; apply Ascii.eqb_eq in H as <-;
      rewrite hex_digit_safe; try done.
    + apply Nat.Div0.div_lt_upper_bound; lia.
    + apply Nat.mod_upper_bound; lia.
Qed.

Lemma unquote_quote_with safe s :
  safe "%"%char = false → unquote (quote_with safe s) = s.
Proof.
  intros Hpct. induction s as [|c s IH]; [done|]. cbn [quote_with].
  destruct (is_always_safe c || safe c) eqn:Hc.
  - change (String c "" +:+ quote_with safe s) with (String c (quote_with safe s)).
    rewrite unquote_plain, IH; [done|].
    apply Ascii.eqb_neq. intros ->. by rewrite Hpct, orb_false_r in Hc.
  - by rewrite unquote_escape, IH.
Qed.

Lemma str_map_id_on f s : (∀ c, str_has c s = true → f c = c) → str_map f s = s.
Proof.
  induction s as [|c s IH]; intros H; simpl; [done|]. f_equal.
  - apply H. simpl. by rewrite Ascii.eqb_refl.
  - apply IH. intros d Hd. apply H. simpl. by rewrite Hd, orb_true_r.
Qed.

Lemma quote_plus_chars s d :
  str_has d (quote_plus s) = true →
  is_always_safe d || Ascii.eqb d "+"%char || Ascii.eqb d "%"%char = true.
Proof.
  unfold quote_plus, py_replace_char. intros (e & He & <-)%str_has_str_map.
  apply quote_with_chars in He. cbv beta in He |- *.
  destruct (Ascii.eqb e " "%char) eqn:Hsp; [done|].
  rewrite orb_false_r in He. apply orb_true_iff in He as [He|He]; rewrite He; [done|].
  by rewrite orb_true_r.
Qed.

(** [unquote_plus(quote_plus(s)) == s] *)
Lemma unquote_plus_quote_plus s : unquote_plus (quote_plus s) = s.
Proof.
  unfold unquote_plus, quote_plus, py_replace_char.
  rewrite str_map_compose, str_map_id_on.
  - by apply unquote_quote_with.
  - intros c Hc. simpl. destruct (Ascii.eqb c " "%char) eqn:Hsp.
    + apply Ascii.eqb_eq in Hsp as ->. done.
    + apply quote_with_chars in Hc. rewrite Hsp, orb_false_r in Hc.
      destruct (Ascii.eqb c "+"%char) eqn:Hplus; [|done].
      apply Ascii.eqb_eq in Hplus as ->. done.
Qed.

Lemma quote_plus_no_amp s : str_has "&"%char (quote_plus s) = false.
Proof. destruct (str_has _ _) eqn:E; [|done]. by apply quote_plus_chars in E. Qed.

Lemma quote_plus_no_eq s : str_has "="%char (quote_plus s) = false.
Proof. destruct (str_has _ _) eqn:E; [|done]. by apply quote_plus_chars in E. Qed.

Definition encode_pair (kv : string * string) : string :=
  quote_plus kv.1 +:+ "=" +:+ quote_plus kv.2.

Lemma urlencode_pieces q : urlencode q = py_join "&" (map encode_pair q).
Proof. unfold urlencode. f_equal. apply map_ext. by intros []. Qed.

Lemma encode_pair_ne kv : encode_pair kv ≠ EmptyString.
Proof. unfold encode_pair. by destruct (quote_plus kv.1). Qed.

Lemma parse_qsl_field_encode kv : parse_qsl_field true (encode_pair kv) = Some kv.
Proof.
  unfold parse_qsl_field. rewrite bool_decide_false by apply encode_pair_ne.
  destruct kv as [k v]. unfold encode_pair; cbn [fst snd].
  change ("=" +:+ quote_plus v) with (String "="%char (quote_plus v)).
  rewrite py_split_once_app by apply quote_plus_no_eq.
  rewrite orb_true_r, !unquote_plus_quote_plus. done.
Qed.

(** [parse_qsl(urlencode(q), keep_blank_values=True) == q]: the encoded
    query decodes to exactly the pairs it was built from. *)
Lemma parse_qsl_urlencode q : parse_qsl true (urlencode q) = q.
Proof.
  rewrite urlencode_pieces. unfold parse_qsl.
  destruct q as [|kv q]; [done|].
  rewrite bool_decide_false by (apply py_join_cons_ne, encode_pair_ne).
  rewrite py_split_join.
  - generalize (kv :: q). intros l. induction l as [|kv' l IH]; [done|].
    cbn -[parse_qsl_field encode_pair]. by rewrite parse_qsl_field_encode, IH.
  - done.
  - apply Forall_forall. intros x (kv' & -> & _)%list_elem_of_fmap.
    unfold encode_pair. rewrite !str_has_app, str_has_cons.
    by rewrite !quote_plus_no_amp.
Qed.

(** ** [urlparse] and [urlunparse] *)

(** [uses_params] *)
Definition uses_params : list string :=
  [""; "ftp"; "hdl"; "prospero"; "http"; "imap"; "https"; "shttp"; "rtsp";
   "rtspu"; "sip"; "sips"; "mms"; "sftp"; "tel"].

(** [_splitparams(url)]: with a [/], the first [;] of the last segment; else
    the first [;] ([find] returning -1 gives [url[:-1], url]). *)
Definition split_params (url : string) : string * string :=
  if str_has "/"%char url then
    let segs := py_split "/"%char url in
    let dir := py_join "/" (removelast segs) +:+ "/" in
    match py_split_once ";"%char (default EmptyString (last segs)) with
    | Some (a, b) => (dir +:+ a, b)
    | None => (url, EmptyString)
    end
  else
    match py_split_once ";"%char url with
    | Some (a, b) => (a, b)
    | None => (String.substring 0 (String.length url - 1) url, url)
    end.

(** [ParseResult(scheme, netloc, path, params, query, fragment)] *)
Record parse_result := ParseResult {
  pr_scheme : string;
  pr_netloc : string;
  pr_path : string;
  pr_params : string;
  pr_query : string;
  pr_fragment : string
}.

(** [urlparse(url)] *)
Definition urlparse {env : UrlEnv} (url : string) : exc url_error parse_result :=
  s ← urlsplit url;
  let '(SplitResult scheme netloc path query fragment) := s in
  let '(path', params) :=
    if bool_decide (scheme ∈ uses_params) && str_has ";"%char path
    then split_params path else (path, EmptyString) in
  Ok (ParseResult scheme netloc path' params query fragment).

(** [urlunparse(parts)] *)
Definition urlunparse (p : parse_result) : string :=
  let '(ParseResult scheme netloc path params query fragment) := p in
  let path' := if bool_decide (params ≠ EmptyString) then path +:+ ";" +:+ params else path in
  urlunsplit (SplitResult scheme netloc path' query fragment).

(** ** [urlsplit] on an unbalanced bracket *)

(** What may follow the netloc: nothing, or a path, query or fragment. *)
Definition netloc_end (r : string) : Prop :=
  match r with EmptyString => True | String d _ => d = "/"%char ∨ d = "?"%char ∨ d = "#"%char end.

Lemma str_filter_app p s t : str_filter p (s +:+ t) = str_filter p s +:+ str_filter p t.
Proof. induction s as [|c s IH]; simpl; [done|]. destruct (p c); simpl; by rewrite IH. Qed.

Lemma str_has_filter p c s : p c = true → str_has c (str_filter p s) = str_has c s.
Proof.
  intros Hc. induction s as [|d s IH]; simpl; [done|].
  destruct (p d) eqn:Hd; simpl; rewrite IH; [done|].
  destruct (Ascii.eqb d c) eqn:E; [|done]. apply Ascii.eqb_eq in E. subst. congruence.
Qed.

Lemma split_netloc_app n r :
  str_has "/"%char n = false → str_has "?"%char n = false → str_has "#"%char n = false →
  netloc_end r → split_netloc (n +:+ r) = (n, r).
Proof.
  intros H1 H2 H3 Hr. induction n as [|c n IH]; simpl in *.
  - destruct r as [|d r]; [done|]. by destruct Hr as [->|[->| ->]].
  - apply orb_false_iff in H1 as [H1c H1], H2 as [H2c H2], H3 as [H3c H3].
    rewrite H1c, H2c, H3c. simpl. by rewrite IH.
Qed.

Lemma netloc_end_filter r : netloc_end r → netloc_end (str_filter (negb ∘ is_unsafe_url_byte) r).
Proof. destruct r as [|d r]; [done|]. intros [->|[->| ->]]; simpl; auto. Qed.

Lemma urlsplit_unbalanced_bracket {env : UrlEnv} h r :
  str_has "["%char h = true → str_has "]"%char h = false →
  str_has "/"%char h = false → str_has "?"%char h = false → str_has "#"%char h = false →
  netloc_end r →
  urlsplit ("https://" +:+ h +:+ r) = Raise (ValueError "Invalid IPv6 URL").
Proof.
  intros Ho Hc Hs Hq Hf Hr. unfold urlsplit.
  change (py_lstrip is_c0_or_space ("https://" +:+ h +:+ r)) with ("https://" +:+ h +:+ r).
  change (str_filter (negb ∘ is_unsafe_url_byte) ("https://" +:+ h +:+ r))
    with ("https://" +:+ str_filter (negb ∘ is_unsafe_url_byte) (h +:+ r)).
  set (X := str_filter (negb ∘ is_unsafe_url_byte) (h +:+ r)).
  change (split_scheme ("https://" +:+ X)) with ("https", "//" +:+ X).
  cbv beta iota. rewrite py_startswith_app. change (str_drop 2 ("//" +:+ X)) with X.
  subst X. rewrite str_filter_app, split_netloc_app.
  - rewrite !str_has_filter by reflexivity. rewrite Ho, Hc. reflexivity.
  - by rewrite str_has_filter.
  - by rewrite str_has_filter.
  - by rewrite str_has_filter.
  - by apply netloc_end_filter.
Qed.
