(* ===== verification/Sha256.v ===== *)
(** * Sha256: [hashlib.sha256(...).hexdigest()]

    The library function [core/dedup.py] calls for content fingerprints,
    modelled from FIPS 180-4 on 32-bit words kept as [Z] values in
    [0, 2^32), with every addition reduced modulo 2^32.  [hexdigest] renders
    the 32 digest bytes as 64 lower-case hexadecimal characters.

    Results: the bound lemmas ([be_bytes_range], [digest_bytes_range]), the
    digest length ([length_sha256]) and the shape of the hex digest
    ([hexdigest_shape]). The model is checked against the FIPS test value
    for "abc" ([sha256_abc]). *)

From S2P Require Import Prelude.
From Stdlib Require Import Ascii.

Local Open Scope Z_scope.

(** ** 32-bit words *)

Definition w32 (x : Z) : Z := x mod 2 ^ 32.

Definition add32 (x y : Z) : Z := w32 (x + y).

Definition rotr (x : Z) (n : Z) : Z :=
  w32 (Z.lor (Z.shiftr x n) (Z.shiftl x (32 - n))).

Definition shr (x : Z) (n : Z) : Z := Z.shiftr x n.

Definition not32 (x : Z) : Z := Z.lxor x (2 ^ 32 - 1).

Definition Ch (e f g : Z) : Z := Z.lxor (Z.land e f) (Z.land (not32 e) g).
Definition Maj (a b c : Z) : Z := Z.lxor (Z.lxor (Z.land a b) (Z.land a c)) (Z.land b c).
Definition Sigma0 (a : Z) : Z := Z.lxor (Z.lxor (rotr a 2) (rotr a 13)) (rotr a 22).
Definition Sigma1 (e : Z) : Z := Z.lxor (Z.lxor (rotr e 6) (rotr e 11)) (rotr e 25).
Definition sigma0 (w : Z) : Z := Z.lxor (Z.lxor (rotr w 7) (rotr w 18)) (shr w 3).
Definition sigma1 (w : Z) : Z := Z.lxor (Z.lxor (rotr w 17) (rotr w 19)) (shr w 10).

(** The round constants of FIPS 180-4, section 4.2.2, in decimal. *)
Definition K256 : list Z :=
  [1116352408; 1899447441; 3049323471; 3921009573; 961987163; 1508970993;
   2453635748; 2870763221; 3624381080; 310598401; 607225278; 1426881987;
   1925078388; 2162078206; 2614888103; 3248222580; 3835390401; 4022224774;
   264347078; 604807628; 770255983; 1249150122; 1555081692; 1996064986;
   2554220882; 2821834349; 2952996808; 3210313671; 3336571891; 3584528711;
   113926993; 338241895; 666307205; 773529912; 1294757372; 1396182291;
   1695183700; 1986661051; 2177026350; 2456956037; 2730485921; 2820302411;
   3259730800; 3345764771; 3516065817; 3600352804; 4094571909; 275423344;
   430227734; 506948616; 659060556; 883997877; 958139571; 1322822218;
   1537002063; 1747873779; 1955562222; 2024104815; 2227730452; 2361852424;
   2428436474; 2756734187; 3204031479; 3329325298].

(** The eight working variables / chaining values; [H0] is the initial
    value of section 5.3.3, in decimal. *)
Record hstate := HState { ha : Z; hb : Z; hc : Z; hd : Z; he : Z; hf : Z; hg : Z; hh : Z }.

Definition H0 : hstate :=
  HState 1779033703 3144134277 1013904242 2773480762
         1359893119 2600822924 528734635 1541459225.

(** ** Padding and blocks *)

(** The big-endian bytes of [x] on [n] bytes. *)
Fixpoint be_bytes (n : nat) (x : Z) : list Z :=
  match n with
  | O => []
  | S n' => be_bytes n' (Z.shiftr x 8) ++ [x mod 256]
  end.

Definition pad (msg : list Z) : list Z :=
  let len := Z.of_nat (length msg) in
  let zeros := (119 - len mod 64) mod 64 in
  msg ++ [0x80] ++ replicate (Z.to_nat zeros) 0 ++ be_bytes 8 (len * 8).

Fixpoint chunks (n : nat) (l : list Z) : list (list Z) :=
  match n with
  | O => []
  | S n' => take 64 l :: chunks n' (drop 64 l)
  end.

(** The 16 big-endian words of a block. *)
Fixpoint block_words (n : nat) (b : list Z) : list Z :=
  match n, b with
  | S n', x0 :: x1 :: x2 :: x3 :: rest =>
      (x0 * 2 ^ 24 + x1 * 2 ^ 16 + x2 * 2 ^ 8 + x3) :: block_words n' rest
  | _, _ => []
  end.

(** Extend the schedule, kept newest first, by [n] words. *)
Fixpoint schedule_extend (n : nat) (w : list Z) : list Z :=
  match n with
  | O => w
  | S n' =>
      let nw := add32 (add32 (sigma1 (nth 1 w 0)) (nth 6 w 0))
                      (add32 (sigma0 (nth 14 w 0)) (nth 15 w 0)) in
      schedule_extend n' (nw :: w)
  end.

Definition schedule (blk : list Z) : list Z :=
  reverse (schedule_extend 48 (reverse (block_words 16 blk))).

Definition round (s : hstate) (kw : Z * Z) : hstate :=
  let '(HState a b c d e f g h) := s in
  let t1 := add32 (add32 (add32 h (Sigma1 e)) (add32 (Ch e f g) kw.1)) kw.2 in
  let t2 := add32 (Sigma0 a) (Maj a b c) in
  HState (add32 t1 t2) a b c (add32 d t1) e f g.

Definition compress (s : hstate) (blk : list Z) : hstate :=
  let '(HState a b c d e f g h) := fold_left round (zip K256 (schedule blk)) s in
  HState (add32 (ha s) a) (add32 (hb s) b) (add32 (hc s) c) (add32 (hd s) d)
         (add32 (he s) e) (add32 (hf s) f) (add32 (hg s) g) (add32 (hh s) h).

Definition digest_of (s : hstate) : list Z :=
  let '(HState a b c d e f g h) := s in
  be_bytes 4 a ++ be_bytes 4 b ++ be_bytes 4 c ++ be_bytes 4 d ++
  be_bytes 4 e ++ be_bytes 4 f ++ be_bytes 4 g ++ be_bytes 4 h.

(** [hashlib.sha256(msg).digest()] *)
Definition sha256 (msg : list Z) : list Z :=
  let p := pad msg in
  digest_of (fold_left compress (chunks (length p / 64) p) H0).

(** ** [hexdigest] *)

Definition hex_lower (n : Z) : ascii :=
  if n <? 10 then ascii_of_nat (Z.to_nat (48 + n)) else ascii_of_nat (Z.to_nat (87 + n)).

Fixpoint hex_string (bs : list Z) : string :=
  match bs with
  | [] => EmptyString
  | b :: bs' => String (hex_lower (b / 16)) (String (hex_lower (b mod 16)) (hex_string bs'))
  end.

Definition is_lower_hex (c : ascii) : bool :=
  let n := nat_of_ascii c in ((48 <=? n) && (n <=? 57))%nat || ((97 <=? n) && (n <=? 102))%nat.

Fixpoint str_all (p : ascii → bool) (s : string) : bool :=
  match s with EmptyString => true | String c s' => p c && str_all p s' end.

(** ** Bounds *)

Lemma length_be_bytes n x : length (be_bytes n x) = n.
Proof. revert x. induction n; intros x; simpl; [done|]. rewrite length_app, IHn. simpl. lia. Qed.

Lemma length_digest_of s : length (digest_of s) = 32%nat.
Proof. destruct s. reflexivity. Qed.

(** The digest has 32 bytes, whatever the message. *)
Lemma length_sha256 msg : length (sha256 msg) = 32%nat.
Proof. apply length_digest_of. Qed.

Lemma be_bytes_range n x : Forall (λ b, 0 ≤ b < 256) (be_bytes n x).
Proof.
  revert x. induction n; intros x; simpl; [constructor|].
  apply Forall_app. split; [apply IHn|]. constructor; [|constructor].
  apply Z.mod_pos_bound. lia.
Qed.

(** Every digest byte is in [0, 256). *)
Lemma digest_bytes_range msg : Forall (λ b, 0 ≤ b < 256) (sha256 msg).
Proof.
  unfold sha256. destruct (fold_left _ _ _). unfold digest_of.
  repeat (apply Forall_app; split; [apply be_bytes_range|]); apply be_bytes_range.
Qed.

Lemma hex_lower_digit n : 0 ≤ n < 16 → is_lower_hex (hex_lower n) = true.
Proof.
  intros H. assert (n = 0 ∨ n = 1 ∨ n = 2 ∨ n = 3 ∨ n = 4 ∨ n = 5 ∨ n = 6 ∨ n = 7 ∨
    n = 8 ∨ n = 9 ∨ n = 10 ∨ n = 11 ∨ n = 12 ∨ n = 13 ∨ n = 14 ∨ n = 15) as Hn by lia.
  repeat (destruct Hn as [->|Hn]; [reflexivity|]). subst. reflexivity.
Qed.

(** The hex rendering of bytes has two lower-case hex digits per byte. *)
Lemma hexdigest_shape bs :
  Forall (λ b, 0 ≤ b < 256) bs →
  String.length (hex_string bs) = (2 * length bs)%nat ∧ str_all is_lower_hex (hex_string bs) = true.
Proof.
  induction 1 as [|b bs Hb _ [IHl IHa]]; [done|]. simpl. split; [lia|].
  rewrite IHa, !hex_lower_digit; [done| |].
  - apply Z.mod_pos_bound. lia.
  - split; [apply Z.div_pos; lia|]. apply Z.div_lt_upper_bound; lia.
Qed.

(** FIPS 180-4, example "abc". *)
Example sha256_abc :
  hex_string (sha256 [97; 98; 99]) =
  "ba7816bf8f01cfea414140de5dae2223b00361a396177a9cb410ff61f20015ad"%string.
Proof. vm_compute. reflexivity. Qed.
