(* ===== verification/Dedup.v ===== *)
(** * Dedup: [core/dedup.py], URL canonicalisation

    [canonical(url)] splits the URL with [urlsplit], drops the query pairs
    whose key is a tracking parameter, re-encodes the others in sorted
    order, strips the trailing slashes of the path, lower-cases the netloc
    and reassembles the URL without fragment.

    Theorems: the functional specification of the query of the result
    ([canonical_query_spec]); invariance under parameter order, tracking
    parameters and netloc case ([canonical_equiv]); the repository's test
    ([canonical_test_example]); and the two places where the code departs
    from the spec's "never fails, immutable normal form":
    [canonical_raises_unbalanced_bracket] and [canonical_not_idempotent]. *)

From S2P Require Import Prelude PyStr UrlLib Sha256.
From Stdlib Require Import Ascii.

Section Dedup.
Context {env : UrlEnv}.

(** [TRACKING_PARAMS] *)
Definition TRACKING_PARAMS : list string :=
  ["utm_source"; "utm_medium"; "utm_campaign"; "gclid"; "fbclid"].

(** The comprehension's guard [k not in TRACKING_PARAMS]. *)
Definition not_tracking (kv : string * string) : Prop := kv.1 ∉ TRACKING_PARAMS.

#[global] Instance not_tracking_dec kv : Decision (not_tracking kv).
Proof. unfold not_tracking. apply _. Defined.

(** [canonical(url)] *)
Definition canonical (url : string) : exc url_error string :=
  parts ← urlsplit url;
  let q := filter not_tracking (parse_qsl true (sr_query parts)) in
  let query := urlencode (py_sorted_pairs q) in
  let path := py_rstrip (λ c, Ascii.eqb c "/"%char) (sr_path parts) in
  let netloc := py_lower (sr_netloc parts) in
  Ok (urlunsplit (SplitResult (sr_scheme parts) netloc path query EmptyString)).

(** [content_hash(text)]: the SHA-256 hex digest of the UTF-8 bytes. *)
Definition content_hash (text : string) : string :=
  hex_string (sha256 (encode_utf8_ignore text)).

(** The components [canonical] keeps from a split URL: everything but the
    fragment, with the netloc lower-cased, the path right-stripped and
    only the non-tracking query pairs. *)
Definition canonical_key (p : split_result) :
    string * string * string * list (string * string) :=
  (sr_scheme p, py_lower (sr_netloc p),
   py_rstrip (λ c, Ascii.eqb c "/"%char) (sr_path p),
   filter not_tracking (parse_qsl true (sr_query p))).

Lemma canonical_unfold url p :
  urlsplit url = Ok p →
  canonical url =
    Ok (urlunsplit (SplitResult (sr_scheme p) (py_lower (sr_netloc p))
          (py_rstrip (λ c, Ascii.eqb c "/"%char) (sr_path p))
          (urlencode (py_sorted_pairs (filter not_tracking (parse_qsl true (sr_query p)))))
          EmptyString)).
Proof. intros Hs. unfold canonical. by rewrite Hs. Qed.

Lemma canonical_raise url e : urlsplit url = Raise e → canonical url = Raise e.
Proof. intros Hs. unfold canonical. by rewrite Hs. Qed.

(** ** Properties *)

(** C1. Two URLs whose splits agree on the scheme, on the lower-cased
    netloc and on the right-stripped path, and whose non-tracking query
    pairs are the same up to order, have the same canonical form: the
    canonical form does not depend on parameter order, tracking
    parameters, netloc letter case, trailing slashes or the fragment. *)
Theorem canonical_equiv u1 u2 p1 p2 :
  urlsplit u1 = Ok p1 → urlsplit u2 = Ok p2 →
  (canonical_key p1).1.1.1 = (canonical_key p2).1.1.1 →
  (canonical_key p1).1.1.2 = (canonical_key p2).1.1.2 →
  (canonical_key p1).1.2 = (canonical_key p2).1.2 →
  (canonical_key p1).2 ≡ₚ (canonical_key p2).2 →
  canonical u1 = canonical u2.
Proof.
  unfold canonical_key; simpl. intros H1 H2 Hs Hn Hp Hq.
  rewrite (canonical_unfold _ _ H1), (canonical_unfold _ _ H2).
  rewrite Hs, Hn, Hp, (py_sorted_pairs_perm_eq _ _ Hq). done.
Qed.

(** C10. The query of the canonical form decodes ([parse_qsl]) to a sorted
    list without tracking parameters which is a permutation of the
    non-tracking pairs of the input's query. *)
Theorem canonical_query_spec url c :
  canonical url = Ok c →
  ∃ p q, urlsplit url = Ok p ∧
    c = urlunsplit (SplitResult (sr_scheme p) (py_lower (sr_netloc p))
          (py_rstrip (λ c, Ascii.eqb c "/"%char) (sr_path p)) (urlencode q) EmptyString) ∧
    parse_qsl true (urlencode q) = q ∧
    Sorted str_pair_le q ∧
    Forall not_tracking q ∧
    q ≡ₚ filter not_tracking (parse_qsl true (sr_query p)).
Proof.
  unfold canonical. destruct (urlsplit url) as [p|e] eqn:Hs; [|done].
  cbn. intros [= <-].
  eexists p, _. split; [done|]. split; [reflexivity|].
  split; [apply parse_qsl_urlencode|]. split; [apply py_sorted_pairs_sorted|].
  split; [|apply py_sorted_pairs_perm].
  rewrite py_sorted_pairs_perm. apply Forall_filter_holds.
Qed.

(** The repository's test [test_canonical_strips_tracking_and_lowercases_host]. *)
Example canonical_test_example :
  canonical "https://Example.COM/Path/?utm_source=x&a=1&fbclid=zzz"
  = Ok "https://example.com/Path?a=1".
Proof. reflexivity. Qed.

(** C32. Every [https] URL whose netloc opens an IPv6 bracket [\[] and
    never closes it -- whatever path, query or fragment follows -- makes
    [canonical] raise [ValueError("Invalid IPv6 URL")] from [urlsplit],
    although the spec says canonicalisation never fails. *)
Theorem canonical_raises_unbalanced_bracket h r :
  str_has "["%char h = true → str_has "]"%char h = false →
  str_has "/"%char h = false → str_has "?"%char h = false → str_has "#"%char h = false →
  netloc_end r →
  canonical ("https://" +:+ h +:+ r) = Raise (ValueError "Invalid IPv6 URL").
Proof. intros. unfold canonical. by rewrite urlsplit_unbalanced_bracket. Qed.

(** [canonical] is not idempotent: an empty netloc followed by a path
    that starts with [//] is printed as a netloc, which the second pass
    lower-cases. *)
Example canonical_not_idempotent :
  canonical "////Host" = Ok "//Host" ∧ canonical "//Host" = Ok "//host".
Proof. split; reflexivity. Qed.

(** C29. The fingerprint is always 64 lower-case hexadecimal characters. *)
Theorem content_hash_shape text :
  String.length (content_hash text) = 64%nat ∧ str_all is_lower_hex (content_hash text) = true.
Proof.
  unfold content_hash.
  destruct (hexdigest_shape _ (digest_bytes_range (encode_utf8_ignore text))) as [Hl Ha].
  rewrite Hl, length_sha256. done.
Qed.

(** The repository's test input: [content_hash("hello")] is the SHA-256
    digest of the five bytes [hello]. *)
Example content_hash_hello :
  content_hash "hello" = "2cf24dba5fb0a30e26e83b2ac5b9e29e1b161e5c1fa7425e73043362938b9824".
Proof. vm_compute. reflexivity. Qed.

End Dedup.

(** Witness for [canonical_raises_unbalanced_bracket]: the host [\[::1]
    left open, followed by a path. *)
Lemma canonical_raises_unbalanced_bracket_witness :
  canonical (env := ascii_url_env) ("https://" +:+ "[::1" +:+ "/index.html")
  = Raise (ValueError "Invalid IPv6 URL").
Proof.
  apply canonical_raises_unbalanced_bracket; try reflexivity. simpl. auto.
Defined.

(** Witness for [canonical_equiv]: reordered parameters, an added tracking
    parameter, a fragment, a trailing slash and host case. *)
Lemma canonical_equiv_witness :
  canonical (env := ascii_url_env) "https://News.Example.org/a/?b=2&a=1&gclid=9#top" =
  canonical (env := ascii_url_env) "https://news.example.org/a?a=1&b=2".
Proof.
  eapply (canonical_equiv (env := ascii_url_env)
            "https://News.Example.org/a/?b=2&a=1&gclid=9#top"
            "https://news.example.org/a?a=1&b=2"); try reflexivity.
  vm_compute. apply Permutation_swap.
Defined.

(** Witness for [canonical_query_spec] on the repository's test URL. *)
Lemma canonical_query_spec_witness :
  ∃ p q,
    urlsplit (env := ascii_url_env) "https://Example.COM/Path/?utm_source=x&a=1&fbclid=zzz" = Ok p ∧
    "https://example.com/Path?a=1" =
      urlunsplit (SplitResult (sr_scheme p) (py_lower (sr_netloc p))
        (py_rstrip (λ c, Ascii.eqb c "/"%char) (sr_path p)) (urlencode q) EmptyString) ∧
    parse_qsl true (urlencode q) = q ∧ Sorted str_pair_le q ∧ Forall not_tracking q ∧
    q ≡ₚ filter not_tracking (parse_qsl true (sr_query p)).
Proof.
  apply (canonical_query_spec (env := ascii_url_env)). reflexivity.
Defined.
