(* ===== verification/RobotParser.v ===== *)
(** * RobotParser: CPython 3.11's [urllib.robotparser]

    [core/robots.py] builds one [RobotFileParser] per host and asks its
    [can_fetch].  This file models that library class from its source:
    [RuleLine], [Entry], [_add_entry], the line-by-line [parse] state machine
    (states 0 start, 1 after a user-agent line, 2 after a rule line),
    [read] with its handling of HTTP errors, and [can_fetch].

    The network answer for robots.txt is an input ([robots_response]); the
    clock value stored by [modified()] is the parameter [now].  Exceptions
    that escape [read] are returned with the parser in the state it had
    when they were raised, since the caller keeps that object. *)

From S2P Require Import Prelude PyStr UrlLib.
From Stdlib Require Import Ascii.

(** The answer to [urlopen(robots_url).read()]. *)
Inductive robots_response :=
  | RobotsBody (raw : string)          (** 2xx, the body bytes *)
  | RobotsHTTPError (code : Z)          (** [urllib.error.HTTPError] *)
  | RobotsURLError.                     (** [URLError], timeout, reset *)

(** The exceptions [read] lets escape. *)
Inductive read_error :=
  | ReadURLError
  | ReadUnicodeDecodeError
  | ReadValueError (e : url_error).

Record rule_line := RuleLine { rl_path : string; rl_allowance : bool }.

Record entry := Entry {
  e_useragents : list string;
  e_rulelines : list rule_line;
  e_delay : option nat;
  e_req_rate : option (nat * nat)
}.

Definition empty_entry : entry := Entry [] [] None None.

Record robot_file_parser := RFP {
  rp_entries : list entry;
  rp_sitemaps : list string;
  rp_default_entry : option entry;
  rp_disallow_all : bool;
  rp_allow_all : bool;
  rp_url : string;
  rp_last_checked : Z
}.

(** [RobotFileParser(url)]: [set_url] stores the URL (its host and path
    fields are not read by [can_fetch]). *)
Definition new_parser (url : string) : robot_file_parser :=
  RFP [] [] None false false url 0.

Section RobotParser.
Context {env : UrlEnv}.

(** [RuleLine(path, allowance)] *)
Definition make_rule_line (path : string) (allowance : bool) : exc url_error rule_line :=
  let allowance' := if bool_decide (path = EmptyString) && negb allowance then true else allowance in
  p ← urlparse path;
  Ok (RuleLine (quote (urlunparse p)) allowance').

(** [RuleLine.applies_to(filename)] *)
Definition rule_applies (r : rule_line) (filename : string) : bool :=
  bool_decide (rl_path r = "*") || String.prefix (rl_path r) filename.

(** [Entry.applies_to(useragent)] *)
Definition entry_applies (e : entry) (useragent : string) : bool :=
  let ua := py_lower (default EmptyString (head (py_split "/"%char useragent))) in
  existsb (λ agent, bool_decide (agent = "*") || py_contains (py_lower agent) ua) (e_useragents e).

(** [Entry.allowance(filename)]: the first rule that applies decides. *)
Definition entry_allowance (e : entry) (filename : string) : bool :=
  match find (λ r, rule_applies r filename) (e_rulelines e) with
  | Some r => rl_allowance r
  | None => true
  end.

(** [_add_entry(entry)] *)
Definition add_entry (e : entry) (rp : robot_file_parser) : robot_file_parser :=
  if bool_decide ("*" ∈ e_useragents e) then
    match rp_default_entry rp with
    | None => RFP (rp_entries rp) (rp_sitemaps rp) (Some e) (rp_disallow_all rp)
                  (rp_allow_all rp) (rp_url rp) (rp_last_checked rp)
    | Some _ => rp
    end
  else RFP (rp_entries rp ++ [e]) (rp_sitemaps rp) (rp_default_entry rp) (rp_disallow_all rp)
           (rp_allow_all rp) (rp_url rp) (rp_last_checked rp).

Definition add_sitemap (s : string) (rp : robot_file_parser) : robot_file_parser :=
  RFP (rp_entries rp) (rp_sitemaps rp ++ [s]) (rp_default_entry rp) (rp_disallow_all rp)
      (rp_allow_all rp) (rp_url rp) (rp_last_checked rp).

(** The local variables of [parse]'s loop. *)
Record parse_state := PState { ps_state : nat; ps_entry : entry; ps_rp : robot_file_parser }.

Definition entry_add_agent (a : string) (e : entry) : entry :=
  Entry (e_useragents e ++ [a]) (e_rulelines e) (e_delay e) (e_req_rate e).
Definition entry_add_rule (r : rule_line) (e : entry) : entry :=
  Entry (e_useragents e) (e_rulelines e ++ [r]) (e_delay e) (e_req_rate e).
Definition entry_set_delay (d : option nat) (e : entry) : entry :=
  Entry (e_useragents e) (e_rulelines e) d (e_req_rate e).
Definition entry_set_rate (r : option (nat * nat)) (e : entry) : entry :=
  Entry (e_useragents e) (e_rulelines e) (e_delay e) r.

(** A rule line ([Disallow]/[Allow]) in state 1 or 2. *)
Definition parse_rule (v : string) (allowance : bool) (ps : parse_state) : exc url_error parse_state :=
  if (ps_state ps =? 0)%nat then Ok ps
  else r ← make_rule_line v allowance;
       Ok (PState 2 (entry_add_rule r (ps_entry ps)) (ps_rp ps)).

(** One iteration of [for line in lines] in [parse]. *)
Definition parse_line (line : string) (ps0 : parse_state) : exc url_error parse_state :=
  let ps :=
    if bool_decide (line = EmptyString) then
      match ps_state ps0 with
      | 1 => PState 0 empty_entry (ps_rp ps0)
      | 2 => PState 0 empty_entry (add_entry (ps_entry ps0) (ps_rp ps0))
      | _ => ps0
      end
    else ps0 in
  let line1 := match py_find "#"%char line with
               | Some i => String.substring 0 i line | None => line end in
  let line2 := py_strip line1 in
  if bool_decide (line2 = EmptyString) then Ok ps else
  match py_split_once ":"%char line2 with
  | None => Ok ps
  | Some (k0, v0) =>
      let k := py_lower (py_strip k0) in
      let v := unquote (py_strip v0) in
      if bool_decide (k = "user-agent") then
        let ps' := if (ps_state ps =? 2)%nat
                   then PState (ps_state ps) empty_entry (add_entry (ps_entry ps) (ps_rp ps))
                   else ps in
        Ok (PState 1 (entry_add_agent v (ps_entry ps')) (ps_rp ps'))
      else if bool_decide (k = "disallow") then parse_rule v false ps
      else if bool_decide (k = "allow") then parse_rule v true ps
      else if bool_decide (k = "crawl-delay") then
        if (ps_state ps =? 0)%nat then Ok ps
        else Ok (PState 2 (if py_isdigit (py_strip v)
                           then entry_set_delay (Some (py_int v)) (ps_entry ps)
                           else ps_entry ps) (ps_rp ps))
      else if bool_decide (k = "request-rate") then
        if (ps_state ps =? 0)%nat then Ok ps
        else
          let numbers := py_split "/"%char v in
          Ok (PState 2 (match numbers with
                        | [n0; n1] => if py_isdigit (py_strip n0) && py_isdigit (py_strip n1)
                                      then entry_set_rate (Some (py_int (py_strip n0), py_int (py_strip n1)))
                                             (ps_entry ps)
                                      else ps_entry ps
                        | _ => ps_entry ps
                        end) (ps_rp ps))
      else if bool_decide (k = "sitemap") then
        Ok (PState (ps_state ps) (ps_entry ps) (add_sitemap v (ps_rp ps)))
      else Ok ps
  end.

Fixpoint parse_lines (lines : list string) (ps : parse_state)
    : robot_file_parser * option url_error :=
  match lines with
  | [] => ((if (ps_state ps =? 2)%nat then add_entry (ps_entry ps) (ps_rp ps) else ps_rp ps), None)
  | l :: ls =>
      match parse_line l ps with
      | Ok ps' => parse_lines ls ps'
      | Raise e => (ps_rp ps, Some e)
      end
  end.

(** [modified()] *)
Definition set_last_checked (now : Z) (rp : robot_file_parser) : robot_file_parser :=
  RFP (rp_entries rp) (rp_sitemaps rp) (rp_default_entry rp) (rp_disallow_all rp)
      (rp_allow_all rp) (rp_url rp) now.

(** [parse(lines)]: [modified()] first, then the loop. *)
Definition parse (now : Z) (lines : list string) (rp : robot_file_parser)
    : robot_file_parser * option url_error :=
  parse_lines lines (PState 0 empty_entry (set_last_checked now rp)).

(** [read()] *)
Definition read (now : Z) (resp : robots_response) (rp : robot_file_parser)
    : robot_file_parser * option read_error :=
  match resp with
  | RobotsHTTPError code =>
      if bool_decide (code = 401 ∨ code = 403)%Z then
        (RFP (rp_entries rp) (rp_sitemaps rp) (rp_default_entry rp) true
             (rp_allow_all rp) (rp_url rp) (rp_last_checked rp), None)
      else if bool_decide (400 ≤ code < 500)%Z then
        (RFP (rp_entries rp) (rp_sitemaps rp) (rp_default_entry rp) (rp_disallow_all rp)
             true (rp_url rp) (rp_last_checked rp), None)
      else (rp, None)
  | RobotsURLError => (rp, Some ReadURLError)
  | RobotsBody raw =>
      if utf8_valid raw then
        let '(rp', err) := parse now (py_splitlines raw) rp in
        (rp', ReadValueError <$> err)
      else (rp, Some ReadUnicodeDecodeError)
  end.

(** [can_fetch(useragent, url)] *)
Definition can_fetch (rp : robot_file_parser) (useragent url : string) : exc url_error bool :=
  if rp_disallow_all rp then Ok false
  else if rp_allow_all rp then Ok true
  else if bool_decide (rp_last_checked rp = 0%Z) then Ok false
  else
    p ← urlparse (unquote url);
    let u0 := quote (urlunparse (ParseResult EmptyString EmptyString (pr_path p)
                                             (pr_params p) (pr_query p) (pr_fragment p))) in
    let u := if bool_decide (u0 = EmptyString) then "/" else u0 in
    match find (λ e, entry_applies e useragent) (rp_entries rp) with
    | Some e => Ok (entry_allowance e u)
    | None =>
        match rp_default_entry rp with
        | Some e => Ok (entry_allowance e u)
        | None => Ok true
        end
    end.

End RobotParser.
