(* ===== verification/Robots.v ===== *)
(** * Robots: [core/robots.py], the politeness gate

    [robots_for(netloc)] builds a [RobotFileParser] for
    [https://{netloc}/robots.txt], reads it inside [try/except: pass], and
    is memoised by [functools.lru_cache(maxsize=1024)].  [allowed(url,
    agent)] takes the netloc of [urlparse(url)], gets the cached parser and
    returns [rp.can_fetch(agent, url)], or [True] if that raises.

    State.  The LRU cache is explicit: [gs_cache] lists (netloc, parser)
    from the most to the least recently used, as the linked list of
    CPython's bounded [lru_cache] wrapper orders them; [gs_fetches] records
    the robots.txt URLs requested, in order.  The network and the clock are
    oracles indexed by the number of robots.txt requests made so far, so a
    host may answer differently at different times.

    Theorems: [allowed] fails open when the evaluator raises
    ([allowed_fail_open]); it fails closed, for as long as the entry stays
    cached, when robots.txt could not be read ([allowed_fail_closed_unreadable]);
    a cache hit makes no request ([robots_for_hit]); the cache stays within
    [maxsize] with distinct keys ([allowed_preserves_wf]); and a netloc that
    makes [allowed] raise. *)

From S2P Require Import Prelude PyStr UrlLib RobotParser.
From Stdlib Require Import Ascii.

(** ** [functools.lru_cache], bounded *)
Section Lru.
Context {K V : Type} `{EqDecision K}.

(** A hit moves the entry to the front. *)
Definition lru_hit (k : K) (c : list (K * V)) : option (V * list (K * V)) :=
  match list_find (λ kv, kv.1 = k) c with
  | Some (i, kv) => Some (kv.2, kv :: delete i c)
  | None => None
  end.

(** A miss inserts at the front; a full cache first drops its least
    recently used entry (the last). *)
Definition lru_insert (maxsize : nat) (k : K) (v : V) (c : list (K * V)) : list (K * V) :=
  if bool_decide (maxsize ≤ length c) then (k, v) :: removelast c else (k, v) :: c.

Definition lru_wf (maxsize : nat) (c : list (K * V)) : Prop :=
  length c ≤ maxsize ∧ NoDup c.*1.

End Lru.

(** [AGENT] *)
Definition AGENT : string := "*".

(** [maxsize=1024] *)
Definition ROBOTS_CACHE_SIZE : nat := 1024.

Definition robots_url (netloc : string) : string := "https://" +:+ netloc +:+ "/robots.txt".

Record gate_state := Gate {
  gs_cache : list (string * robot_file_parser);
  gs_fetches : list string
}.

Definition empty_gate : gate_state := Gate [] [].

Section Robots.
Context {env : UrlEnv}.
(** The network's answer to the [n]-th robots.txt request, and the clock
    ([time.time()]) at that request. *)
Variable net : nat → string → robots_response.
Variable clock : nat → Z.

(** The body of [robots_for]: [rp = RobotFileParser(); rp.set_url(...);
    try: rp.read() except Exception: pass; return rp]. *)
Definition robots_for_body (now : Z) (resp : robots_response) (netloc : string) : robot_file_parser :=
  let rp := new_parser (robots_url netloc) in
  let '(rp', _) := read now resp rp in
  rp'.

(** [robots_for(netloc)] through its [lru_cache]. *)
Definition robots_for (netloc : string) (g : gate_state) : robot_file_parser * gate_state :=
  match lru_hit netloc (gs_cache g) with
  | Some (rp, c') => (rp, Gate c' (gs_fetches g))
  | None =>
      let n := length (gs_fetches g) in
      let rp := robots_for_body (clock n) (net n (robots_url netloc)) netloc in
      (rp, Gate (lru_insert ROBOTS_CACHE_SIZE netloc rp (gs_cache g))
                (gs_fetches g ++ [robots_url netloc]))
  end.

End Robots.

(** [allowed(url, agent)], over any memoised parser factory and any
    evaluator: the repository's tests replace [robots_for] by a stub whose
    [can_fetch] returns or raises. *)
Section Allowed.
Context {env : UrlEnv} {P S : Type}.
Variable get_parser : string → S → P * S.
Variable eval_can_fetch : P → string → string → exc url_error bool.

Definition allowed_with (url agent : string) (s : S) : exc url_error (bool * S) :=
  p ← urlparse url;
  let '(rp, s') := get_parser (pr_netloc p) s in
  Ok (py_except (eval_can_fetch rp agent url) (λ _, true), s').

End Allowed.

(** [allowed(url, agent)] of the module. *)
Definition allowed {env : UrlEnv} (net : nat → string → robots_response) (clock : nat → Z)
    (url agent : string) (g : gate_state) : exc url_error (bool * gate_state) :=
  allowed_with (robots_for net clock) can_fetch url agent g.

(** ** The cache *)

Section LruLemmas.
Context {K V : Type} `{EqDecision K}.
Implicit Types (c : list (K * V)) (k : K) (v : V).

Lemma lru_hit_Some k c v c' :
  lru_hit k c = Some (v, c') → (k, v) ∈ c ∧ c' ≡ₚ c ∧ head c' = Some (k, v).
Proof.
  unfold lru_hit. destruct (list_find _ c) as [[i [k' v']]|] eqn:Hf; [|done].
  intros [= <- <-]. apply list_find_Some in Hf as (Hi & Hk & _). simpl in Hk. subst k'.
  split; [by eapply list_elem_of_lookup_2|]. split; [|done].
  symmetry. by apply delete_Permutation.
Qed.

Lemma lru_hit_None k c : lru_hit k c = None ↔ k ∉ c.*1.
Proof.
  unfold lru_hit. rewrite list_elem_of_fmap.
  destruct (list_find _ c) as [[i [k' v']]|] eqn:Hf.
  - split; [done|]. intros Hn. apply list_find_Some in Hf as (Hi & Hk & _).
    exfalso. apply Hn. exists (k', v'). split; [done|]. by eapply list_elem_of_lookup_2.
  - split; [|done]. intros _ ([k' v'] & -> & Hin). apply list_find_None in Hf.
    rewrite Forall_forall in Hf. by apply (Hf (k', v')).
Qed.

(** With distinct keys, the entry a hit returns is the one stored for the key. *)
Lemma lru_hit_elem k v c : NoDup c.*1 → (k, v) ∈ c → ∃ c', lru_hit k c = Some (v, c').
Proof.
  intros Hnd Hin. destruct (lru_hit k c) as [[v' c']|] eqn:Hh.
  - apply lru_hit_Some in Hh as (Hin' & _ & _). exists c'. do 2 f_equal.
    by apply (NoDup_fst_unique c k).
  - apply lru_hit_None in Hh. exfalso. apply Hh. apply list_elem_of_fmap. by exists (k, v).
Qed.

Lemma lru_hit_wf m k c v c' : lru_wf m c → lru_hit k c = Some (v, c') → lru_wf m c'.
Proof.
  intros [Hl Hnd] (_ & Hp & _)%lru_hit_Some. split.
  - by rewrite Hp.
  - by rewrite Hp.
Qed.

Lemma lru_insert_wf m k v c :
  0 < m → lru_wf m c → k ∉ c.*1 → lru_wf m (lru_insert m k v c).
Proof.
  intros Hm [Hl Hnd] Hk. unfold lru_insert. case_bool_decide as Hfull.
  - destruct c as [|kv0 c0] using rev_ind; [simpl in *; lia|].
    rewrite removelast_last. rewrite fmap_app, NoDup_app in Hnd.
    rewrite length_app in Hl, Hfull. simpl in Hl, Hfull. unfold lru_wf. simpl. split; [lia|].
    constructor; [|by destruct Hnd as (? & _ & _)].
    intros Hin. apply Hk. rewrite fmap_app. by apply elem_of_app; left.
  - unfold lru_wf. simpl. split; [lia|]. by constructor.
Qed.

Lemma lru_insert_hit m k v c : ∃ c', lru_hit k (lru_insert m k v c) = Some (v, c').
Proof.
  unfold lru_insert, lru_hit. case_bool_decide; simpl; rewrite decide_True by done; eauto.
Qed.

End LruLemmas.

Definition gate_wf (g : gate_state) : Prop := lru_wf ROBOTS_CACHE_SIZE (gs_cache g).

(** [robots_for] keeps the cache well formed. *)
Lemma robots_for_wf {env : UrlEnv} net clock netloc g rp g' :
  gate_wf g → robots_for net clock netloc g = (rp, g') → gate_wf g'.
Proof.
  unfold robots_for, gate_wf. intros Hwf.
  destruct (lru_hit netloc (gs_cache g)) as [[rp0 c']|] eqn:Hh.
  - intros [= <- <-]. simpl. by eapply lru_hit_wf.
  - intros [= <- <-]. simpl. apply lru_insert_wf; [unfold ROBOTS_CACHE_SIZE; lia|done|].
    by apply lru_hit_None.
Qed.

(** After [robots_for netloc] the netloc is cached with the parser returned. *)
Lemma robots_for_cached {env : UrlEnv} net clock netloc g rp g' :
  robots_for net clock netloc g = (rp, g') → ∃ c', lru_hit netloc (gs_cache g') = Some (rp, c').
Proof.
  unfold robots_for. destruct (lru_hit netloc (gs_cache g)) as [[rp0 c']|] eqn:Hh.
  - intros [= <- <-]. simpl. apply lru_hit_Some in Hh as (_ & _ & Hhd).
    destruct c' as [|kv c'']; [done|]. simpl in Hhd. injection Hhd as ->.
    unfold lru_hit. simpl. rewrite decide_True by done. eauto.
  - intros [= <- <-]. apply lru_insert_hit.
Qed.

(** A parser whose robots.txt could not be read ([last_checked] still 0,
    neither flag set) denies every URL to every agent. *)
Lemma can_fetch_unread {env : UrlEnv} rp agent url :
  rp_disallow_all rp = false → rp_allow_all rp = false → rp_last_checked rp = 0%Z →
  can_fetch rp agent url = Ok false.
Proof.
  intros Hd Ha Hl. unfold can_fetch. rewrite Hd, Ha, bool_decide_true by done. done.
Qed.

(** What [read] leaves when robots.txt cannot be read: a network error, an
    HTTP error outside 4xx, or a body that is not UTF-8. *)
Definition robots_unreadable (resp : robots_response) : Prop :=
  resp = RobotsURLError ∨
  (∃ code, resp = RobotsHTTPError code ∧ (code < 400 ∨ 500 ≤ code)%Z) ∨
  (∃ raw, resp = RobotsBody raw ∧ utf8_valid raw = false).

Lemma robots_for_body_unreadable {env : UrlEnv} now resp netloc :
  robots_unreadable resp →
  let rp := robots_for_body now resp netloc in
  rp_disallow_all rp = false ∧ rp_allow_all rp = false ∧ rp_last_checked rp = 0%Z.
Proof.
  intros [->|[(code & -> & Hc)|(raw & -> & Hr)]]; unfold robots_for_body; simpl.
  - done.
  - rewrite bool_decide_false by lia. rewrite bool_decide_false by lia. done.
  - by rewrite Hr.
Qed.

(** ** Properties *)

(** C20. [allowed] fails open: whatever the parser factory and the
    evaluator, when [can_fetch] raises, [allowed] returns [True]
    ([test_allowed_on_exception_is_true]). *)
Theorem allowed_fail_open {env : UrlEnv} {P S : Type}
    (get_parser : string → S → P * S) (eval_can_fetch : P → string → string → exc url_error bool)
    url agent s p rp s' e :
  urlparse url = Ok p →
  get_parser (pr_netloc p) s = (rp, s') →
  eval_can_fetch rp agent url = Raise e →
  allowed_with get_parser eval_can_fetch url agent s = Ok (true, s').
Proof. intros Hp Hg He. unfold allowed_with. rewrite Hp. cbn. by rewrite Hg, He. Qed.

(** C6. [allowed] fails closed when robots.txt cannot be read (network
    error, an HTTP error outside 4xx, or a body that is not UTF-8): the
    [except: pass] of [robots_for] keeps a parser that was never
    [modified()], whose [can_fetch] answers [False] to every agent and URL;
    the cache keeps that parser for the host.  The comment on the handler
    says the opposite ("Fail-open"). *)
Theorem allowed_fail_closed_unreadable {env : UrlEnv} net clock url agent g p :
  urlparse url = Ok p →
  pr_netloc p ∉ (gs_cache g).*1 →
  robots_unreadable (net (length (gs_fetches g)) (robots_url (pr_netloc p))) →
  ∃ g' rp c, allowed net clock url agent g = Ok (false, g') ∧
    lru_hit (pr_netloc p) (gs_cache g') = Some (rp, c) ∧
    ∀ agent' url', can_fetch rp agent' url' = Ok false.
Proof.
  intros Hp Hnot Hun. unfold allowed, allowed_with. rewrite Hp. cbn.
  destruct (robots_for net clock (pr_netloc p) g) as [rp g'] eqn:Hrf.
  pose proof (robots_for_cached _ _ _ _ _ _ Hrf) as [c Hc].
  unfold robots_for in Hrf. rewrite (proj2 (lru_hit_None _ _) Hnot) in Hrf.
  injection Hrf as <- <-.
  destruct (robots_for_body_unreadable (clock (length (gs_fetches g))) _ (pr_netloc p) Hun)
    as (Hd & Ha & Hl).
  eexists _, _, c. split; [|split; [exact Hc|]].
  - by rewrite can_fetch_unread.
  - intros. by apply can_fetch_unread.
Qed.

(** A host in the cache is answered by its cached parser, and no
    robots.txt request is made. *)
Theorem allowed_cached_hit {env : UrlEnv} net clock url agent g p rp :
  gate_wf g →
  urlparse url = Ok p →
  (pr_netloc p, rp) ∈ gs_cache g →
  ∃ g', allowed net clock url agent g = Ok (py_except (can_fetch rp agent url) (λ _, true), g') ∧
        gs_fetches g' = gs_fetches g.
Proof.
  intros [_ Hnd] Hp Hin. destruct (lru_hit_elem _ _ _ Hnd Hin) as [c' Hh].
  unfold allowed, allowed_with. rewrite Hp. cbn. unfold robots_for. rewrite Hh.
  by eexists.
Qed.

(** Every call of [allowed] keeps the cache within [maxsize=1024]
    entries with distinct hosts. *)
Theorem allowed_preserves_wf {env : UrlEnv} net clock url agent g b g' :
  gate_wf g → allowed net clock url agent g = Ok (b, g') → gate_wf g'.
Proof.
  intros Hwf. unfold allowed, allowed_with.
  destruct (urlparse url) as [p|e]; [|done]. cbn.
  destruct (robots_for net clock (pr_netloc p) g) as [rp g''] eqn:Hrf.
  intros [= _ <-]. by eapply robots_for_wf.
Qed.

(** The HTTP status of a failed robots.txt request decides the
    parser's answer for every URL: 401 and 403 deny everything, the other
    4xx codes allow everything, and any other code (5xx, or a redirect
    error) denies everything. *)
Theorem robots_http_error_answer {env : UrlEnv} now code netloc agent url :
  can_fetch (robots_for_body now (RobotsHTTPError code) netloc) agent url =
    Ok (bool_decide (code ≠ 401 ∧ code ≠ 403 ∧ 400 ≤ code < 500)%Z).
Proof.
  unfold robots_for_body, read. cbn.
  case_bool_decide as H1; [|case_bool_decide as H2].
  - rewrite bool_decide_false by lia. done.
  - rewrite bool_decide_true by lia. done.
  - rewrite bool_decide_false by lia. reflexivity.
Qed.

(** A URL whose netloc has an unmatched bracket makes [allowed] raise
    [ValueError]: the [urlparse] call is outside the [try]. *)
Theorem allowed_raises_bad_netloc {env : UrlEnv} net clock agent g :
  allowed net clock "http://[::1/x" agent g = Raise (ValueError "Invalid IPv6 URL").
Proof. reflexivity. Qed.

(** ** Witnesses *)

Lemma allowed_fail_open_witness :
  allowed_with (env := ascii_url_env) (λ _ s, (tt, s)) (λ _ _ _, Raise (ValueError "boom"))
    "https://example.com/x" "bot" tt = Ok (true, tt).
Proof.
  apply (allowed_fail_open (env := ascii_url_env) (λ _ s, (tt, s)) (λ _ _ _, Raise (ValueError "boom"))
           "https://example.com/x" "bot" tt
           (ParseResult "https" "example.com" "/x" "" "" "") tt tt (ValueError "boom"));
    reflexivity.
Defined.

Lemma allowed_fail_closed_unreadable_witness :
  ∃ g' rp c,
    allowed (env := ascii_url_env) (λ _ _, RobotsURLError) (λ _, 1%Z)
      "https://example.com/page" "AdvancedCrawler/1.0" empty_gate = Ok (false, g') ∧
    lru_hit "example.com" (gs_cache g') = Some (rp, c) ∧
    ∀ agent' url', can_fetch (env := ascii_url_env) rp agent' url' = Ok false.
Proof.
  apply (allowed_fail_closed_unreadable (env := ascii_url_env) (λ _ _, RobotsURLError) (λ _, 1%Z)
           "https://example.com/page" "AdvancedCrawler/1.0" empty_gate
           (ParseResult "https" "example.com" "/page" "" "" "")).
  - reflexivity.
  - simpl. apply not_elem_of_nil.
  - left. reflexivity.
Defined.

Definition gate_after_example : gate_state :=
  snd (robots_for (env := ascii_url_env) (λ _ _, RobotsURLError) (λ _, 1%Z) "example.com" empty_gate).

Lemma allowed_cached_hit_witness :
  ∃ g', allowed (env := ascii_url_env) (λ _ _, RobotsBody "") (λ _, 1%Z)
          "https://example.com/page" "bot" gate_after_example =
        Ok (py_except (can_fetch (env := ascii_url_env) (new_parser (robots_url "example.com")) "bot"
                         "https://example.com/page") (λ _, true), g') ∧
        gs_fetches g' = gs_fetches gate_after_example.
Proof.
  apply (allowed_cached_hit (env := ascii_url_env) _ _ _ _ gate_after_example
           (ParseResult "https" "example.com" "/page" "" "" "")).
  - split; vm_compute; [lia|]. repeat constructor. apply not_elem_of_nil.
  - reflexivity.
  - vm_compute. left.
Defined.

