(* ===== verification/Fetch.v ===== *)
(** * Fetch: [core/fetch.py], the fetch engine

    [_get(client, url)] awaits [client.get(url)], calls
    [r.raise_for_status()] (httpx raises [HTTPStatusError] for any status
    outside 200..299), sleeps [_polite_delay()] = [random.uniform(0.15, 0.6)]
    and returns the response.  It is wrapped in
    [backoff.on_exception(expo, (ConnectError, ReadTimeout,
    RemoteProtocolError), max_tries=5, jitter=None)]; [fetch(url, client)]
    calls it with the given client or a fresh [http_client()].

    The decorator is modelled from backoff 2.x's [retry_exception] loop:
    [while True], [tries += 1], call the target; an exception outside the
    tuple propagates; one inside it is re-raised when [tries == max_tries],
    otherwise the loop sleeps the next value of [expo()] (1, 2, 4, ...
    seconds; [jitter=None] leaves them unchanged) and tries again.  The loop
    is a [Fixpoint] on fuel: [fetch_terminates] shows that fuel
    [max_tries] is always enough, so the fuel-out result never occurs.

    Effects: the transport ([client.get]) and [random.random()] are oracles
    indexed by the number of requests and draws made so far; the world
    records the requests, the sleeps and the draws.  Times are exact
    rationals ([Q]); the binary64 rounding of [random.uniform] is not
    modelled.

    The abstract contract [fetch_contract] says which attempt decides the
    result; [fetch_refines_contract] proves the engine implements it, and the
    other theorems are the spec's retry, no-retry and give-up cases, the
    delay bounds and the termination bound. *)

From S2P Require Import Prelude.
From Stdlib Require Import QArith Lqa.
Local Open Scope nat_scope.

(** ** Data *)

(** The [httpx.TransportError] subclasses [client.get] can raise. *)
Inductive transport_error :=
  | ConnectError | ReadTimeout | RemoteProtocolError
  | ConnectTimeout | WriteTimeout | PoolTimeout | ReadError | WriteError
  | TooManyRedirects.

(** What one [client.get(url)] does: a final response (after redirects),
    or a transport exception. *)
Inductive get_outcome :=
  | Response (status : Z) (text : string)
  | TransportFail (e : transport_error).

(** The exceptions [fetch] lets escape. *)
Inductive fetch_error :=
  | HTTPStatusError (status : Z)
  | Transport (e : transport_error).

Record response := Resp { status_code : Z; resp_text : string }.

(** The client a request went through: [http_client()]'s settings. *)
Record client := Client {
  cl_timeout : Q;
  cl_user_agent : string;
  cl_max_connections : Z;
  cl_proxy : option string;
  cl_follow_redirects : bool
}.

(** Everything the engine does to the outside world, in order. *)
Record world := World {
  w_requests : list (client * string);   (** [client.get(url)] calls *)
  w_sleeps : list Q;                     (** [asyncio.sleep] durations *)
  w_draws : nat                          (** [random.random()] calls *)
}.

Definition w_sleep (d : Q) (w : world) : world :=
  World (w_requests w) (w_sleeps w ++ [d]) (w_draws w).

(** ** Configuration *)

(** [DEFAULT_TIMEOUT], [USER_AGENT], [PROXY_URL], [MAX_CONCURRENCY] with
    their defaults, as read at import time when the variables are unset. *)
Definition DEFAULT_TIMEOUT : Q := 30.
Definition USER_AGENT : string := "AdvancedCrawler/1.0 (+contact@example.org)".
Definition PROXY_URL : option string := None.
Definition MAX_CONCURRENCY : Z := 8.

(** [http_client()] *)
Definition http_client : client :=
  Client DEFAULT_TIMEOUT USER_AGENT MAX_CONCURRENCY PROXY_URL true.

(** ** The decorator *)

(** [expo()] after its priming [send(None)]: [factor * base ** n]. *)
Definition expo (n : nat) : Q := inject_Z (2 ^ Z.of_nat n).

Section Backoff.
Context {W E A : Type}.
Variable retry_on : E → bool.             (** the exception tuple *)
Variable sleep : Q → W → W.               (** [await asyncio.sleep(seconds)] *)
Variable max_tries : nat.
Variable target : W → exc E A * W.

(** The [while True] loop; [tries] counts the calls made so far.  [None]
    means the fuel ran out, which [fetch_terminates] rules out for [fetch]. *)
Fixpoint backoff_retry (fuel : nat) (tries : nat) (w : W) : option (exc E A * W) :=
  match fuel with
  | O => None
  | S fuel' =>
      let tries' := S tries in
      let '(r, w1) := target w in
      match r with
      | Ok a => Some (Ok a, w1)
      | Raise e =>
          if negb (retry_on e) then Some (Raise e, w1)
          else if (tries' =? max_tries)%nat then Some (Raise e, w1)
          else backoff_retry fuel' tries' (sleep (expo tries) w1)
      end
  end.

End Backoff.

(** [_polite_delay()] = [random.uniform(0.15, 0.6)] = [a + (b - a) * r]. *)
Definition polite_delay (r : Q) : Q := (0.15 + (0.6 - 0.15) * r)%Q.

(** The exception tuple of the decorator. *)
Definition retried (e : fetch_error) : bool :=
  match e with
  | Transport ConnectError | Transport ReadTimeout | Transport RemoteProtocolError => true
  | _ => false
  end.

(** [_get]'s [max_tries=5] *)
Definition MAX_TRIES : nat := 5.

Section Engine.
Variable transport : nat → string → get_outcome.
Variable rand : nat → Q.

(** [_get(client, url)] without its decorator. *)
Definition get_once (c : client) (url : string) (w : world) : exc fetch_error response * world :=
  let n := length (w_requests w) in
  let w1 := World (w_requests w ++ [(c, url)]) (w_sleeps w) (w_draws w) in
  match transport n url with
  | TransportFail e => (Raise (Transport e), w1)
  | Response code text =>
      if bool_decide (200 ≤ code < 300)%Z then
        let d := polite_delay (rand (w_draws w1)) in
        (Ok (Resp code text), World (w_requests w1) (w_sleeps w1 ++ [d]) (S (w_draws w1)))
      else (Raise (HTTPStatusError code), w1)
  end.

(** [_get] with its decorator. *)
Definition get (c : client) (url : string) (w : world) : option (exc fetch_error response * world) :=
  backoff_retry retried w_sleep MAX_TRIES (get_once c url) MAX_TRIES 0 w.

(** [fetch(url, client=None)] *)
Definition fetch (url : string) (c : option client) (w : world) : option (exc fetch_error response * world) :=
  match c with
  | Some cl => get cl url w
  | None => get http_client url w
  end.

End Engine.

(** ** The contract *)

(** The result one attempt stands for. *)
Definition outcome_result (o : get_outcome) : exc fetch_error response :=
  match o with
  | TransportFail e => Raise (Transport e)
  | Response code text =>
      if bool_decide (200 ≤ code < 300)%Z then Ok (Resp code text) else Raise (HTTPStatusError code)
  end.

(** An attempt is decisive unless it failed with a retried exception. *)
Definition decisive (o : get_outcome) : bool :=
  match outcome_result o with Raise e => negb (retried e) | Ok _ => true end.

(** [fetch_contract os j]: attempt [j] decides the call when it is one of
    the first [MAX_TRIES], every earlier attempt failed with a retried
    exception, and it is decisive or the last allowed one. *)
Definition fetch_contract (os : nat → get_outcome) (j : nat) : Prop :=
  (j < MAX_TRIES)%nat ∧ (∀ i, (i < j)%nat → decisive (os i) = false) ∧
  (decisive (os j) = true ∨ j = pred MAX_TRIES).

(** The world after attempts [0..j] of a call started with [t] tries done,
    the last attempt having outcome [o]. *)
Definition after_attempts (rand : nat → Q) (w : world) (c : client) (url : string) (t j : nat)
    (o : get_outcome) : world :=
  let reqs := w_requests w ++ replicate (S j) (c, url) in
  let sleeps := w_sleeps w ++ map (λ i, expo (t + i)) (seq 0 j) in
  match outcome_result o with
  | Ok _ => World reqs (sleeps ++ [polite_delay (rand (w_draws w))]) (S (w_draws w))
  | Raise _ => World reqs sleeps (w_draws w)
  end.

Lemma contract_exists (os : nat → get_outcome) : ∃ j, fetch_contract os j.
Proof.
  unfold fetch_contract, MAX_TRIES.
  destruct (decisive (os 0)) eqn:H0; [exists 0; split; [lia|]; split; [lia|]; by left|].
  destruct (decisive (os 1)) eqn:H1;
    [exists 1; split; [lia|]; split; [intros [|] ?; [done|lia]|]; by left|].
  destruct (decisive (os 2)) eqn:H2;
    [exists 2; split; [lia|]; split; [intros [|[|]] ?; [done|done|lia]|]; by left|].
  destruct (decisive (os 3)) eqn:H3;
    [exists 3; split; [lia|]; split; [intros [|[|[|]]] ?; [done|done|done|lia]|]; by left|].
  exists 4. split; [lia|]. split; [intros [|[|[|[|]]]] ?; [done|done|done|done|lia]|]. by right.
Qed.

Section EngineLemmas.
Variable transport : nat → string → get_outcome.
Variable rand : nat → Q.

Lemma get_once_result c url w :
  (get_once transport rand c url w).1 = outcome_result (transport (length (w_requests w)) url) ∧
  (get_once transport rand c url w).2 =
    after_attempts rand w c url 0 0 (transport (length (w_requests w)) url).
Proof.
  unfold get_once, after_attempts, outcome_result. simpl.
  destruct (transport _ url) as [code text|e]; [case_bool_decide|];
    split; try done; simpl; rewrite ?app_nil_r; done.
Qed.

Lemma map_expo_shift t j :
  map (λ i, expo (t + i)) (seq 0 (S j)) = expo t :: map (λ i, expo (S t + i)) (seq 0 j).
Proof.
  simpl. rewrite Nat.add_0_r. f_equal. rewrite <- seq_shift, map_map.
  apply map_ext. intros i. f_equal. lia.
Qed.

Lemma after_attempts_step w c url t j o o0 e :
  outcome_result o0 = Raise e →
  after_attempts rand (w_sleep (expo t) (after_attempts rand w c url 0 0 o0)) c url (S t) j o =
  after_attempts rand w c url t (S j) o.
Proof.
  intros H0. unfold after_attempts at 2. rewrite H0. unfold after_attempts, w_sleep.
  rewrite map_expo_shift. cbn [seq map w_requests w_sleeps w_draws].
  rewrite app_nil_r, <- !app_assoc.
  destruct (outcome_result o); reflexivity.
Qed.

(** The loop, from [t] tries done, decided by the [j]-th next attempt. *)
Lemma get_loop c url w t j f :
  (t + j < MAX_TRIES)%nat → (j < f)%nat →
  (∀ i, (i < j)%nat → decisive (transport (length (w_requests w) + i) url) = false) →
  decisive (transport (length (w_requests w) + j) url) = true ∨ t + j = pred MAX_TRIES →
  backoff_retry retried w_sleep MAX_TRIES (get_once transport rand c url) f t w =
    Some (outcome_result (transport (length (w_requests w) + j) url),
          after_attempts rand w c url t j (transport (length (w_requests w) + j) url)).
Proof.
  unfold MAX_TRIES in *.
  revert t w f. induction j as [|j IH]; intros t w f Ht Hf Hpre Hdec;
    destruct f as [|f]; [lia| |lia|]; cbn [backoff_retry].
  - rewrite Nat.add_0_r in Hdec |- *.
    destruct (get_once_result c url w) as [Hr Hw].
    destruct (get_once _ _ _ _ _) as [r w1]. simpl in Hr, Hw. subst r w1.
    unfold decisive in Hdec.
    destruct (outcome_result _) as [a|e] eqn:Ho; [done|].
    destruct (retried e) eqn:Hre; simpl; [|by unfold after_attempts; rewrite Ho].
    destruct Hdec as [Hdec|Hdec]; [done|].
    rewrite (proj2 (Nat.eqb_eq _ _)) by lia.
    unfold after_attempts. rewrite Ho. done.
  - pose proof (Hpre 0 ltac:(lia)) as H0. rewrite Nat.add_0_r in H0.
    destruct (get_once_result c url w) as [Hr Hw].
    destruct (get_once _ _ _ _ _) as [r w1]. simpl in Hr, Hw. subst r w1.
    unfold decisive in H0. destruct (outcome_result _) as [a|e] eqn:Ho; [done|].
    apply negb_false_iff in H0. rewrite H0. simpl.
    rewrite (proj2 (Nat.eqb_neq _ _)) by lia.
    set (w' := w_sleep (expo t) (after_attempts rand w c url 0 0 _)).
    assert (Hlen : length (w_requests w') = S (length (w_requests w))).
    { subst w'. unfold after_attempts. rewrite Ho. simpl. rewrite length_app. simpl. lia. }
    rewrite IH; [| lia | lia | |].
    + rewrite Hlen, Nat.add_succ_comm. subst w'. by erewrite after_attempts_step by exact Ho.
    + intros i Hi. rewrite Hlen, Nat.add_succ_comm. apply Hpre. lia.
    + rewrite Hlen, Nat.add_succ_comm. destruct Hdec; [by left|right; lia].
Qed.

(** [_get] implements the contract from a fresh retry count. *)
Lemma get_contract c url w j :
  fetch_contract (λ i, transport (length (w_requests w) + i) url) j →
  get transport rand c url w =
    Some (outcome_result (transport (length (w_requests w) + j) url),
          after_attempts rand w c url 0 j (transport (length (w_requests w) + j) url)).
Proof.
  intros (Hj & Hpre & Hdec). apply get_loop; [done|done|done|].
  destruct Hdec; [by left|right; lia].
Qed.

Lemma fetch_get url c w : fetch transport rand url c w = get transport rand (default http_client c) url w.
Proof. by destruct c. Qed.

End EngineLemmas.

Lemma decisive_retried_fail e : retried (Transport e) = true → decisive (TransportFail e) = false.
Proof. unfold decisive. simpl. by intros ->. Qed.

Lemma decisive_response code text : decisive (Response code text) = true.
Proof. unfold decisive, outcome_result. by case_bool_decide. Qed.

#[export] Hint Resolve decisive_retried_fail decisive_response : volector.

(** ** Properties *)

Section FetchProperties.
Variable transport : nat → string → get_outcome.
Variable rand : nat → Q.

(** C5. Refinement: when attempt [j] decides the call in the sense of
    [fetch_contract], [fetch] returns that attempt's result after exactly
    [j+1] requests through the chosen client, having slept the backoff
    waits [1, 2, ..., 2^(j-1)] and, after a success, one politeness delay. *)
Theorem fetch_refines_contract url c w j :
  fetch_contract (λ i, transport (length (w_requests w) + i) url) j →
  fetch transport rand url c w =
    Some (outcome_result (transport (length (w_requests w) + j) url),
          after_attempts rand w (default http_client c) url 0 j
            (transport (length (w_requests w) + j) url)).
Proof. intros Hc. unfold fetch. destruct c; by apply get_contract. Qed.

(** Transient transport failures are retried transparently: after
    [k < 5] failures with [ConnectError], [ReadTimeout] or
    [RemoteProtocolError], a 2xx response is returned, after [k+1]
    requests, the waits [2^0 .. 2^(k-1)] and one politeness delay. *)
Theorem fetch_retry_then_success url c w k code text :
  (k < MAX_TRIES)%nat →
  (∀ i, (i < k)%nat → ∃ e, transport (length (w_requests w) + i) url = TransportFail e ∧
                         retried (Transport e) = true) →
  transport (length (w_requests w) + k) url = Response code text →
  (200 ≤ code < 300)%Z →
  fetch transport rand url c w =
    Some (Ok (Resp code text),
          World (w_requests w ++ replicate (S k) (default http_client c, url))
                (w_sleeps w ++ map expo (seq 0 k) ++ [polite_delay (rand (w_draws w))])
                (S (w_draws w))).
Proof.
  intros Hk Hpre Hk' Hcode.
  rewrite fetch_get, (get_contract transport rand _ _ _ k).
  - rewrite Hk'. unfold after_attempts, outcome_result.
    rewrite bool_decide_true by done. simpl. by rewrite <- app_assoc.
  - split; [done|]. split; [|left; rewrite Hk'; apply decisive_response].
    intros i Hi. destruct (Hpre i Hi) as (e & -> & He). by apply decisive_retried_fail.
Qed.

(** C23. A response outside 2xx (including 3xx and 5xx) raises
    [HTTPStatusError] on the first attempt: one request, no sleep. *)
Theorem fetch_http_error_no_retry url c w code text :
  transport (length (w_requests w)) url = Response code text →
  ¬ (200 ≤ code < 300)%Z →
  fetch transport rand url c w =
    Some (Raise (HTTPStatusError code),
          World (w_requests w ++ [(default http_client c, url)]) (w_sleeps w) (w_draws w)).
Proof.
  intros Ho Hcode. rewrite fetch_get, (get_contract transport rand _ _ _ 0).
  - rewrite Nat.add_0_r, Ho. unfold after_attempts, outcome_result.
    rewrite bool_decide_false by done. simpl. by rewrite app_nil_r.
  - split; [unfold MAX_TRIES; lia|]. split; [lia|].
    left. rewrite Nat.add_0_r, Ho. apply decisive_response.
Qed.

(** After five retried transport failures the fifth exception is
    raised: five requests, and the waits 1, 2, 4 and 8 seconds. *)
Theorem fetch_gives_up url c w e :
  (∀ i, (i < MAX_TRIES)%nat → ∃ e', transport (length (w_requests w) + i) url = TransportFail e' ∧
                                retried (Transport e') = true) →
  transport (length (w_requests w) + 4) url = TransportFail e →
  fetch transport rand url c w =
    Some (Raise (Transport e),
          World (w_requests w ++ replicate 5 (default http_client c, url))
                (w_sleeps w ++ [1; 2; 4; 8]%Q) (w_draws w)).
Proof.
  intros Hall H4. rewrite fetch_get, (get_contract transport rand _ _ _ 4).
  - rewrite H4. reflexivity.
  - split; [unfold MAX_TRIES; lia|]. split; [|by right].
    intros i Hi. destruct (Hall i ltac:(unfold MAX_TRIES; lia)) as (e' & -> & He).
    by apply decisive_retried_fail.
Qed.

(** C24. [fetch] always returns: the loop ends within its [MAX_TRIES]
    fuel, after between one and five requests. *)
Theorem fetch_terminates url c w :
  ∃ r w', fetch transport rand url c w = Some (r, w') ∧
    (length (w_requests w) < length (w_requests w') ≤ length (w_requests w) + MAX_TRIES)%nat.
Proof.
  destruct (contract_exists (λ i, transport (length (w_requests w) + i) url)) as [j Hj].
  rewrite fetch_get, (get_contract transport rand _ _ _ j Hj). eexists _, _. split; [done|].
  destruct Hj as [Hj _]. unfold after_attempts.
  destruct (outcome_result _); cbn [w_requests]; rewrite length_app, length_replicate; unfold MAX_TRIES in *; lia.
Qed.

End FetchProperties.

(** C28. [_polite_delay()] lies in [0.15, 0.6] for every draw of
    [random.random()] in [0, 1]. *)
Theorem polite_delay_bounds r : (0 <= r <= 1)%Q → (0.15 <= polite_delay r <= 0.6)%Q.
Proof. intros [H0 H1]. unfold polite_delay. split; lra. Qed.

(** C31. Transport errors outside the decorator's tuple are not retried:
    a connect timeout, a pool or write timeout, a read or write error, or
    too many redirects is raised after a single request. *)
Theorem fetch_unretried_transport transport rand url c w e :
  e ∈ [ConnectTimeout; WriteTimeout; PoolTimeout; ReadError; WriteError; TooManyRedirects] →
  transport (length (w_requests w)) url = TransportFail e →
  fetch transport rand url c w =
    Some (Raise (Transport e),
          World (w_requests w ++ [(default http_client c, url)]) (w_sleeps w) (w_draws w)).
Proof.
  intros He Ho. rewrite fetch_get, (get_contract _ _ _ _ _ 0).
  - rewrite Nat.add_0_r, Ho. unfold after_attempts. simpl. by rewrite app_nil_r.
  - split; [unfold MAX_TRIES; lia|]. split; [lia|]. left. rewrite Nat.add_0_r, Ho.
    unfold decisive. simpl. repeat (apply elem_of_cons in He as [->|He]; [done|]).
    by apply not_elem_of_nil in He.
Qed.

(** ** Witnesses *)

(** The spec's mock transport: a connect error twice, then a 200. *)
Definition flaky_transport (n : nat) (_ : string) : get_outcome :=
  if (n <? 2)%nat then TransportFail ConnectError else Response 200 "ok".
Definition half : nat → Q := λ _, (1 # 2)%Q.
Definition fresh_world : world := World [] [] 0.

Lemma fetch_refines_contract_witness :
  fetch flaky_transport half "https://example.com" None fresh_world =
    Some (Ok (Resp 200 "ok"),
          after_attempts half fresh_world http_client "https://example.com" 0 2 (Response 200 "ok")).
Proof.
  apply (fetch_refines_contract flaky_transport half "https://example.com" None fresh_world 2).
  split; [unfold MAX_TRIES; lia|]. split; [|left; reflexivity].
  intros [|[|]] Hi; [reflexivity|reflexivity|lia].
Defined.

Lemma fetch_retry_then_success_witness :
  fetch flaky_transport half "https://example.com" None fresh_world =
    Some (Ok (Resp 200 "ok"),
          World ([] ++ replicate 3 (http_client, "https://example.com"))
                ([] ++ map expo (seq 0 2) ++ [polite_delay (1 # 2)]) 1).
Proof.
  apply (fetch_retry_then_success flaky_transport half "https://example.com" None fresh_world 2 200 "ok").
  - unfold MAX_TRIES; lia.
  - intros [|[|]] Hi; [by eexists|by eexists|lia].
  - reflexivity.
  - lia.
Defined.

Definition status500 (_ : nat) (_ : string) : get_outcome := Response 500 "error".

Lemma fetch_http_error_no_retry_witness :
  fetch status500 half "https://example.com" None fresh_world =
    Some (Raise (HTTPStatusError 500), World ([] ++ [(http_client, "https://example.com")]) [] 0).
Proof.
  apply (fetch_http_error_no_retry status500 half "https://example.com" None fresh_world 500 "error").
  - reflexivity.
  - lia.
Defined.

Definition always_refused (_ : nat) (_ : string) : get_outcome := TransportFail ConnectError.

Lemma fetch_gives_up_witness :
  fetch always_refused half "https://example.com" None fresh_world =
    Some (Raise (Transport ConnectError),
          World ([] ++ replicate 5 (http_client, "https://example.com")) ([] ++ [1; 2; 4; 8]%Q) 0).
Proof.
  apply (fetch_gives_up always_refused half "https://example.com" None fresh_world ConnectError).
  - intros i _. by eexists.
  - reflexivity.
Defined.

Lemma polite_delay_bounds_witness : (0.15 <= polite_delay (1 # 2) <= 0.6)%Q.
Proof. apply polite_delay_bounds. split; unfold Qle; simpl; lia. Defined.

Definition connect_timeout (_ : nat) (_ : string) : get_outcome := TransportFail ConnectTimeout.

Lemma fetch_unretried_transport_witness :
  fetch connect_timeout half "https://example.com" None fresh_world =
    Some (Raise (Transport ConnectTimeout), World ([] ++ [(http_client, "https://example.com")]) [] 0).
Proof.
  apply (fetch_unretried_transport connect_timeout half "https://example.com" None fresh_world ConnectTimeout).
  - left.
  - reflexivity.
Defined.
