(* ===== verification/Article.v ===== *)
(** * Article: [core/parse.py], [pipelines/article.py], [models/schemas.py]

    [_TitleTextParser] is an [html.parser.HTMLParser] whose handlers keep
    three fields: [_in_title], [title] and [text_parts].  Its handlers are
    modelled as a step function over the parser's callback events, and
    [result()] as a function of the final state.  [parse_article] tries the
    optional readability/BeautifulSoup path and falls back to the basic
    parser on any exception; [to_article] builds the [Article] record with a
    fingerprint over [title + "\n" + text].

    Library parts: the tokenizer of [html.parser] is modelled for documents
    made of start tags, end tags, self-closing tags and text (comments,
    declarations, character references and the raw-text elements script
    and style are not); readability is an optional input; pydantic's
    [HttpUrl] validation is the abstract [http_url_validate].

    Theorems: [title_text_parser_monotone] (the first title is kept and
    the text parts only grow) and the spec's end-to-end example
    [to_article_title_only]. *)

From S2P Require Import Prelude PyStr Sha256 UrlLib Dedup.
From Stdlib Require Import Ascii.

(** ** The parser's callbacks *)

Inductive html_event :=
  | StartTag (tag : string)        (** [handle_starttag] *)
  | EndTag (tag : string)          (** [handle_endtag] *)
  | StartEndTag (tag : string)     (** [handle_startendtag]: start then end *)
  | Data (data : string).          (** [handle_data] *)

(** [_TitleTextParser]'s fields. *)
Record title_text_state := TTS {
  in_title : bool;
  tts_title : option string;
  text_parts : list string
}.

Definition tts_init : title_text_state := TTS false None [].

(** [handle_starttag] *)
Definition handle_starttag (tag : string) (s : title_text_state) : title_text_state :=
  if bool_decide (py_lower tag = "title") then TTS true (tts_title s) (text_parts s) else s.

(** [handle_endtag] *)
Definition handle_endtag (tag : string) (s : title_text_state) : title_text_state :=
  if bool_decide (py_lower tag = "title") then TTS false (tts_title s) (text_parts s) else s.

(** [handle_data]: inside the title the first non-empty stripped chunk is
    kept ([self.title or data]); outside, non-empty stripped chunks are
    appended to [text_parts]. *)
Definition handle_data (data : string) (s : title_text_state) : title_text_state :=
  let d := py_strip data in
  if in_title s then
    if bool_decide (d ≠ EmptyString) then
      TTS (in_title s) (match tts_title s with Some t => Some t | None => Some d end) (text_parts s)
    else s
  else
    if bool_decide (d ≠ EmptyString) then TTS (in_title s) (tts_title s) (text_parts s ++ [d])
    else s.

Definition handle_event (s : title_text_state) (ev : html_event) : title_text_state :=
  match ev with
  | StartTag t => handle_starttag t s
  | EndTag t => handle_endtag t s
  | StartEndTag t => handle_endtag t (handle_starttag t s)
  | Data d => handle_data d s
  end.

(** [{"title": ..., "text": ...}] *)
Record parsed := Parsed { p_title : option string; p_text : option string }.

(** [result()]: [" ".join(text_parts).strip() or None] *)
Definition tts_result (s : title_text_state) : parsed :=
  let text := py_strip (py_join " " (text_parts s)) in
  Parsed (tts_title s) (if bool_decide (text = EmptyString) then None else Some text).

(** ** The tokenizer, for tags and text *)

Definition is_tag_name_end (c : ascii) : bool :=
  is_py_space c || Ascii.eqb c "/"%char || Ascii.eqb c ">"%char.

Fixpoint take_until_gt (s : string) : option (string * string) :=
  match s with
  | EmptyString => None
  | String c r => if Ascii.eqb c ">"%char then Some (EmptyString, r)
                  else (λ '(a, b), (String c a, b)) <$> take_until_gt r
  end.

Fixpoint tag_name (s : string) : string :=
  match s with
  | EmptyString => EmptyString
  | String c r => if is_tag_name_end c then EmptyString else String c (tag_name r)
  end.

Fixpoint str_last (s : string) : option ascii :=
  match s with
  | EmptyString => None
  | String c EmptyString => Some c
  | String _ r => str_last r
  end.

(** The callback events for a document of tags and text; [fuel] bounds the
    number of tags (the length of the document is enough). *)
Fixpoint html_events (fuel : nat) (text : string) (s : string) : list html_event :=
  match fuel with
  | O => []
  | S fuel' =>
      match s with
      | EmptyString => if bool_decide (text = EmptyString) then [] else [Data (String.rev text)]
      | String "<"%char r =>
          match take_until_gt r with
          | Some (inside, rest) =>
              let flush := if bool_decide (text = EmptyString) then [] else [Data (String.rev text)] in
              let ev :=
                match inside with
                | String "/"%char nm => EndTag (py_lower (tag_name nm))
                | _ => if bool_decide (str_last inside = Some "/"%char)
                       then StartEndTag (py_lower (tag_name inside))
                       else StartTag (py_lower (tag_name inside))
                end in
              flush ++ ev :: html_events fuel' EmptyString rest
          | None => html_events fuel' (String "<"%char text) r
          end
      | String c r => html_events fuel' (String c text) r
      end
  end.

Definition feed (html : string) : list html_event := html_events (S (String.length html)) EmptyString html.

(** [parse_article_basic(html)] *)
Definition parse_article_basic (html : string) : parsed :=
  tts_result (foldl handle_event tts_init (feed html)).

(** [parse_article(html)]: the readability path when it is installed and
    succeeds, else the basic parser. [readability] is [None] when the
    import fails, and returns [None] when the library raises. *)
Definition parse_article (readability : option (string → option parsed)) (html : string) : parsed :=
  match readability with
  | Some rd => match rd html with Some p => p | None => parse_article_basic html end
  | None => parse_article_basic html
  end.

(** ** [Article] and [to_article] *)

(** [models/schemas.py:Article] *)
Record article := Article {
  a_url : string;
  a_title : option string;
  a_text : option string;
  a_authors : list string;
  a_published_at : option Z;
  a_country : string;
  a_language : option string;
  a_source : string;
  a_content_hash : string
}.

(** [CrawlJob] of [models/schemas.py], with its field defaults
    ([max_pages = 1000], [render = False], [filters = {}]); [dt] is a
    timestamp.  No module of the code builds one. *)
Record crawl_job := CrawlJob {
  cjob_job_id : string;
  cjob_source : string;
  cjob_country : string;
  cjob_dt : Z;
  cjob_max_pages : Z;
  cjob_render : bool;
  cjob_filters : gmap string string
}.

(** [CrawlJob(job_id=..., source=..., country=..., dt=...)] *)
Definition crawl_job_defaults (job_id source country : string) (dt : Z) : crawl_job :=
  CrawlJob job_id source country dt 1000 false ∅.

(** [PageRaw] of [models/schemas.py]: a fetched page as stored, with its
    validated URL; no module of the code builds one. *)
Record page_raw := PageRaw {
  pr_url : string;
  pr_fetched_at : Z;
  pr_status : Z;
  pr_headers : gmap string string;
  pr_content_hash : string;
  pr_storage_key : string
}.

(** pydantic's [ValidationError]. *)
Inductive validation_error := ValidationError (field : string).

Section ToArticle.
(** pydantic's [HttpUrl]: [None] for a rejected URL, else its normal form. *)
Variable http_url_validate : string → option string.
Variable readability : option (string → option parsed).

(** [to_article(url, html, *, country, language, source)]; [country] and
    [source] are [None] when the caller passes a non-string. *)
Definition to_article (url html : string) (country : option string) (language : option string)
    (source : option string) : exc validation_error article :=
  let p := parse_article readability html in
  let h := content_hash (default EmptyString (p_title p) +:+ "
" +:+ default EmptyString (p_text p)) in
  match http_url_validate url, country, source with
  | Some u, Some c, Some s => Ok (Article u (p_title p) (p_text p) [] None c language s h)
  | None, _, _ => Raise (ValidationError "url")
  | _, None, _ => Raise (ValidationError "country")
  | _, _, None => Raise (ValidationError "source")
  end.

End ToArticle.

(** ** Properties *)

Lemma handle_event_title s ev t : tts_title s = Some t → tts_title (handle_event s ev) = Some t.
Proof.
  intros Ht. destruct ev; simpl;
    unfold handle_starttag, handle_endtag, handle_data; destruct_ifs; simpl; rewrite ?Ht; done.
Qed.

Lemma handle_event_parts s ev : text_parts s `prefix_of` text_parts (handle_event s ev).
Proof.
  destruct ev; simpl; unfold handle_starttag, handle_endtag, handle_data; destruct_ifs; simpl;
    try done; by apply prefix_app_r.
Qed.

(** The basic parser keeps the first title: once a non-empty title
    chunk has been seen, no later callback changes it, and the collected
    text parts only grow. *)
Theorem title_text_parser_monotone evs s t :
  tts_title s = Some t →
  tts_title (foldl handle_event s evs) = Some t ∧
  text_parts s `prefix_of` text_parts (foldl handle_event s evs).
Proof.
  revert s. induction evs as [|ev evs IH]; intros s Ht; simpl; [done|].
  destruct (IH (handle_event s ev)) as [IH1 IH2]; [by apply handle_event_title|].
  split; [done|]. trans (text_parts (handle_event s ev)); [apply handle_event_parts|done].
Qed.

Section ToArticleProperties.
Variable http_url_validate : string → option string.
Variable readability : option (string → option parsed).

End ToArticleProperties.

(** The spec's end-to-end example: without readability, the page
    [<html><title>X</title></html>] gives an article titled [X], with no
    text, whose fingerprint is [content_hash("X\n")]. *)
Theorem to_article_title_only http_url_validate url u country language source :
  http_url_validate url = Some u →
  to_article http_url_validate None url "<html><title>X</title></html>" (Some country) language (Some source)
  = Ok (Article u (Some "X") None [] None country language source (content_hash "X
")).
Proof. intros Hu. unfold to_article. rewrite Hu. reflexivity. Qed.

(** ** Witnesses *)

Lemma title_text_parser_monotone_witness :
  tts_title (foldl handle_event (TTS false (Some "A") []) (feed "<title>B</title><p>c</p>")) = Some "A" ∧
  [] `prefix_of` text_parts (foldl handle_event (TTS false (Some "A") []) (feed "<title>B</title><p>c</p>")).
Proof. apply (title_text_parser_monotone _ (TTS false (Some "A") []) "A"). reflexivity. Defined.

Lemma to_article_title_only_witness :
  to_article Some None "https://example.com" "<html><title>X</title></html>" (Some "") None (Some "cli")
  = Ok (Article "https://example.com" (Some "X") None [] None "" None "cli" (content_hash "X
")).
Proof. apply (to_article_title_only Some "https://example.com" "https://example.com"). reflexivity. Defined.
