(* ===== verification/Ops.v ===== *)
(** * Ops: [ops/logging.py], [ops/metrics.py] and the [logging] calls

    [configure_logging] replaces the root handler by one [StreamHandler]
    with the [JsonFormatter] and sets the root level through
    [logging.basicConfig].  The crawler logs through
    [logging.getLogger("crawler")], whose level is NOTSET, so a call is
    emitted when its level is at least the root level.  CPython 3.11's
    [Logger.makeRecord] refuses an [extra] key that would overwrite
    ["message"], ["asctime"] or an attribute of the [LogRecord]: it raises
    [KeyError] before anything is emitted.

    State: the root level and the records emitted, in order.  The
    formatter is modelled up to the dictionary it passes to [json.dumps]
    (the JSON text itself is not modelled).  The counters of
    [ops/metrics.py] are a map from (metric name, label values) to the
    count; [labels(...).inc(n)] adds [n] ([Metrics] shows this is what
    [prometheus_client] does at the code's calls). *)

From S2P Require Import Prelude PyStr.
From stdpp Require Import pretty.

(** ** Levels *)

Definition CRITICAL : Z := 50.
Definition ERROR : Z := 40.
Definition WARNING : Z := 30.
Definition INFO : Z := 20.
Definition DEBUG : Z := 10.
Definition NOTSET : Z := 0.

(** [_nameToLevel] *)
Definition name_to_level (s : string) : option Z :=
  if bool_decide (s = "CRITICAL") then Some CRITICAL
  else if bool_decide (s = "FATAL") then Some CRITICAL
  else if bool_decide (s = "ERROR") then Some ERROR
  else if bool_decide (s = "WARN") then Some WARNING
  else if bool_decide (s = "WARNING") then Some WARNING
  else if bool_decide (s = "INFO") then Some INFO
  else if bool_decide (s = "DEBUG") then Some DEBUG
  else if bool_decide (s = "NOTSET") then Some NOTSET
  else None.

(** [getLevelName] on the levels the crawler uses. *)
Definition level_name (l : Z) : string :=
  if bool_decide (l = CRITICAL) then "CRITICAL"
  else if bool_decide (l = ERROR) then "ERROR"
  else if bool_decide (l = WARNING) then "WARNING"
  else if bool_decide (l = INFO) then "INFO"
  else if bool_decide (l = DEBUG) then "DEBUG"
  else if bool_decide (l = NOTSET) then "NOTSET"
  else "Level " +:+ pretty l.

(** ** Records *)

(** The exceptions the logging calls raise. *)
Inductive log_error :=
  | KeyError (msg : string)           (** [makeRecord] *)
  | LevelValueError (level : string). (** [_checkLevel] *)

(** The attributes [LogRecord.__init__] sets. *)
Definition LOGRECORD_ATTRS : list string :=
  ["name"; "msg"; "args"; "levelname"; "levelno"; "pathname"; "filename"; "module";
   "exc_info"; "exc_text"; "stack_info"; "lineno"; "funcName"; "created"; "msecs";
   "relativeCreated"; "thread"; "threadName"; "processName"; "process"].

Record log_record := LogRecord {
  lr_name : string;
  lr_levelno : Z;
  lr_msg : string;
  lr_extra : list (string * string);   (** the attributes set from [extra] *)
  lr_exc_info : bool
}.

Definition reserved_key (k : string) : bool :=
  bool_decide (k ∈ ["message"; "asctime"] ∨ k ∈ LOGRECORD_ATTRS).

(** [Logger.makeRecord]: the keys of [extra] are checked in order. *)
Definition make_record (name : string) (level : Z) (msg : string)
    (extra : list (string * string)) (exc_info : bool) : exc log_error log_record :=
  match find reserved_key extra.*1 with
  | Some k => Raise (KeyError ("Attempt to overwrite '" +:+ k +:+ "' in LogRecord"))
  | None => Ok (LogRecord name level msg extra exc_info)
  end.

(** ** The logging state *)

Record logger_state := LogState {
  ls_level : Z;                  (** [logging.root.level] *)
  ls_records : list log_record   (** the records handed to the handler *)
}.

(** The root logger before any configuration: level WARNING. *)
Definition logging_init : logger_state := LogState WARNING [].

(** [Logger.isEnabledFor] for a logger of level NOTSET. *)
Definition is_enabled_for (level : Z) (st : logger_state) : bool := bool_decide (ls_level st ≤ level)%Z.

(** [log.<level>(msg, extra=..., exc_info=...)] on the logger [name]. *)
Definition log_call (name : string) (level : Z) (msg : string) (extra : list (string * string))
    (exc_info : bool) : st_exc logger_state log_error unit :=
  λ st,
    if is_enabled_for level st then
      match make_record name level msg extra exc_info with
      | Ok r => (Ok (), LogState (ls_level st) (ls_records st ++ [r]))
      | Raise e => (Raise e, st)
      end
    else (Ok (), st).

(** [configure_logging(level)]: [level or os.getenv("LOG_LEVEL", "INFO")];
    the handlers are replaced before [setLevel] checks the level. *)
Definition configure_logging (level : option string) (env_log_level : option string)
    : st_exc logger_state log_error unit :=
  λ st,
    let lvl := match level with
               | Some l => if bool_decide (l = EmptyString) then default "INFO" env_log_level else l
               | None => default "INFO" env_log_level
               end in
    match name_to_level lvl with
    | Some n => (Ok (), LogState n (ls_records st))
    | None => (Raise (LevelValueError lvl), st)
    end.

(** [JsonFormatter.format], up to [json.dumps]; [exc_text] is the text of
    [formatException]. *)
Definition json_format (exc_text : string) (r : log_record) : list (string * string) :=
  [("level", level_name (lr_levelno r)); ("message", lr_msg r); ("logger", lr_name r)] ++
  omap (λ key, (λ kv, (key, kv.2)) <$> find (λ kv, bool_decide (kv.1 = key)) (lr_extra r))
       ["job_id"; "source"; "country"] ++
  (if lr_exc_info r then [("exc_info", exc_text)] else []).

(** ** Counters *)

Notation metrics := (gmap (string * list string) nat).

(** [counter.labels(labels...).inc(n)] *)
Definition counter_inc (name : string) (labels : list string) (n : nat) (m : metrics) : metrics :=
  <[(name, labels) := default 0 (m !! (name, labels)) + n]> m.

Definition counter_value (name : string) (labels : list string) (m : metrics) : nat :=
  default 0 (m !! (name, labels)).

Definition crawled_pages_total : string := "crawled_pages_total".
Definition fetch_errors_total : string := "fetch_errors_total".
Definition bytes_written_total : string := "bytes_written_total".

(** ** Properties *)

Lemma find_reserved_Some (extra : list (string * string)) v :
  ("message", v) ∈ extra → ∃ k, find reserved_key extra.*1 = Some k.
Proof.
  intros Hin. destruct (find reserved_key extra.*1) as [k|] eqn:Hf; [by eauto|].
  exfalso. assert (Hm : "message" ∈ extra.*1) by (apply list_elem_of_fmap; by exists ("message", v)).
  apply list_elem_of_In in Hm. by pose proof (find_none _ _ Hf _ Hm).
Qed.

(** [makeRecord] raises [KeyError] on an [extra] dictionary with the key
    ["message"], whatever the other keys. *)
Lemma make_record_message_raises name level msg extra exc_info v :
  ("message", v) ∈ extra →
  ∃ m, make_record name level msg extra exc_info = Raise (KeyError m).
Proof.
  intros Hin. destruct (find_reserved_Some extra v Hin) as [k Hk].
  unfold make_record. rewrite Hk. eauto.
Qed.

Lemma make_record_no_extra name level msg exc_info :
  make_record name level msg [] exc_info = Ok (LogRecord name level msg [] exc_info).
Proof. reflexivity. Qed.

(** A call below the root level does nothing. *)
Lemma log_call_disabled name level msg extra exc_info st :
  (level < ls_level st)%Z → log_call name level msg extra exc_info st = (Ok (), st).
Proof. intros Hl. unfold log_call, is_enabled_for. rewrite bool_decide_false; [done|lia]. Qed.

(** An enabled call with ["message"] in [extra] raises and emits nothing. *)
Lemma log_call_message_raises name level msg extra exc_info st v :
  (ls_level st ≤ level)%Z → ("message", v) ∈ extra →
  ∃ m, log_call name level msg extra exc_info st = (Raise (KeyError m), st).
Proof.
  intros Hl Hin. destruct (make_record_message_raises name level msg extra exc_info v Hin) as [m Hm].
  exists m. unfold log_call, is_enabled_for. rewrite bool_decide_true by lia. by rewrite Hm.
Qed.

(** A call without [extra] never raises. *)
Lemma log_call_no_extra name level msg exc_info st :
  log_call name level msg [] exc_info st =
    (Ok (), if is_enabled_for level st
            then LogState (ls_level st) (ls_records st ++ [LogRecord name level msg [] exc_info])
            else st).
Proof. unfold log_call. by destruct (is_enabled_for level st). Qed.

Lemma configure_logging_env level env st n :
  name_to_level (match level with
                 | Some l => if bool_decide (l = EmptyString) then default "INFO" env else l
                 | None => default "INFO" env end) = Some n →
  configure_logging level env st = (Ok (), LogState n (ls_records st)).
Proof. intros Hn. unfold configure_logging. by rewrite Hn. Qed.

Lemma counter_value_inc_same name labels n m :
  counter_value name labels (counter_inc name labels n m) = counter_value name labels m + n.
Proof. unfold counter_value, counter_inc. by rewrite lookup_insert_eq. Qed.

Lemma counter_value_inc_other name labels name' labels' n m :
  (name', labels') ≠ (name, labels) →
  counter_value name' labels' (counter_inc name labels n m) = counter_value name' labels' m.
Proof. intros Hne. unfold counter_value, counter_inc. by rewrite lookup_insert_ne. Qed.

#[export] Hint Rewrite counter_value_inc_same : volector_rw.
