(* ===== verification/Metrics.v ===== *)
(** * Metrics: the counters of [ops/metrics.py] and their two backends

    [ops/metrics.py] imports [Counter] and [start_http_server] from
    [prometheus_client] and, when the import fails, defines [_NoopCounter]
    (whose [labels] returns the counter itself and whose [inc] does
    nothing) and a [Counter] factory returning one.  The module then
    builds the three counters the batch controller increments, each with
    its label names.

    [Ops] models the counters as one map from (metric name, label values)
    to a count, and [Crawl] and [RunSource] increment it with
    [counter_inc].  This file models the call [c.labels( **kw).inc(n)] of
    [cli.py] against both backends: [prometheus_client]'s [labels] checks
    the keyword names against the counter's label names and orders the
    values by the label names, and [inc] refuses a negative amount.  The
    theorems show that [counter_inc] is what the Prometheus backend does at
    the code's calls, and that the fallback leaves the counts alone. *)

From S2P Require Import Prelude Ops.

Inductive counter :=
  | PromCounter (name : string) (labelnames : list string)   (** [prometheus_client.Counter] *)
  | NoopCounter.                                               (** [_NoopCounter()] *)

(** [Counter(name, documentation, labelnames)]; [prometheus_available]
    is the success of the guarded import. *)
Definition Counter (prometheus_available : bool) (name documentation : string) (labelnames : list string)
    : counter :=
  if prometheus_available then PromCounter name labelnames else NoopCounter.

(** What [labels] returns: a labelled child, or the [_NoopCounter]. *)
Inductive counter_child :=
  | PromChild (name : string) (labelvalues : list string)
  | NoopChild.

Inductive metrics_error :=
  | NoLabelNames          (** [labels] on a counter built without label names *)
  | IncorrectLabelNames   (** keyword names other than the label names *)
  | NegativeAmount.       (** [inc] with an amount below zero *)

(** The value of keyword [l] in [kw]. *)
Definition kw_value (kw : list (string * string)) (l : string) : string :=
  default "" (snd <$> find (λ kv, bool_decide (kv.1 = l)) kw).

(** [counter.labels( **kw)]: Prometheus compares [sorted(kw)] with
    [sorted(labelnames)] and takes the values in the order of
    [labelnames]; [_NoopCounter.labels] returns [self]. *)
Definition labels (c : counter) (kw : list (string * string)) : exc metrics_error counter_child :=
  match c with
  | NoopCounter => Ok NoopChild
  | PromCounter n lns =>
      if bool_decide (lns = []) then Raise NoLabelNames
      else if bool_decide (kw.*1 ≡ₚ lns) then Ok (PromChild n (kw_value kw <$> lns))
      else Raise IncorrectLabelNames
  end.

(** [child.inc(amount)] on the counts. *)
Definition inc (c : counter_child) (amount : Z) : st_exc metrics metrics_error unit :=
  λ m, match c with
       | NoopChild => (Ok (), m)
       | PromChild n vs =>
           if bool_decide (amount < 0)%Z then (Raise NegativeAmount, m)
           else (Ok (), counter_inc n vs (Z.to_nat amount) m)
       end.

(** [counter.labels( **kw).inc(amount)] *)
Definition labels_inc (c : counter) (kw : list (string * string)) (amount : Z) : st_exc metrics metrics_error unit :=
  λ m, match labels c kw with Ok ch => inc ch amount m | Raise e => (Raise e, m) end.

(** The module-level counters, lines 37-39. *)
Definition crawled_pages_counter (p : bool) : counter :=
  Counter p crawled_pages_total "Total pages successfully crawled" ["source"; "country"].
Definition fetch_errors_counter (p : bool) : counter :=
  Counter p fetch_errors_total "Total fetch errors" ["source"; "country"].
Definition bytes_written_counter (p : bool) : counter :=
  Counter p bytes_written_total "Total bytes written to storage" ["layer"; "source"; "country"].

(** ** Properties *)

Lemma kw_value_lookup kw :
  NoDup kw.*1 → kw_value kw <$> kw.*1 = kw.*2.
Proof.
  induction kw as [|[k v] kw IH]; intros Hnd; [done|].
  rewrite fmap_cons, NoDup_cons in Hnd. destruct Hnd as [Hk Hnd]. cbn [fmap list_fmap fst snd].
  f_equal; [by unfold kw_value; cbn; rewrite bool_decide_true|].
  rewrite <-IH by done. apply list_fmap_ext. intros i l Hi.
  unfold kw_value. cbn. rewrite bool_decide_false; [done|].
  intros ->. apply Hk. eapply list_elem_of_lookup_2; eauto.
Qed.

(** [labels( **kw).inc(n)] on a Prometheus counter whose label names are
    the keywords, in their order. *)
Lemma labels_inc_ordered name doc kw (amount : Z) m :
  kw.*1 ≠ [] → NoDup kw.*1 → (0 ≤ amount)%Z →
  labels_inc (Counter true name doc kw.*1) kw amount m =
    (Ok (), counter_inc name kw.*2 (Z.to_nat amount) m).
Proof.
  intros Hne Hnd Ha. unfold labels_inc, labels, Counter, inc.
  rewrite bool_decide_false, bool_decide_true by done.
  rewrite kw_value_lookup by done. by rewrite bool_decide_false by lia.
Qed.

(** Without [prometheus_client], every counter of the module is a
    [_NoopCounter]: any [labels(...).inc(...)] call, whatever its keywords
    and amount, returns normally and leaves every count unchanged. *)
Theorem labels_inc_noop name doc lns kw amount m :
  labels_inc (Counter false name doc lns) kw amount m = (Ok (), m).
Proof. done. Qed.

(** C16. The three calls [cli.py] makes on the module's counters --
    [crawled_pages_total.labels(source=s, country=c).inc()],
    [fetch_errors_total.labels(source=s, country=c).inc()] and
    [bytes_written_total.labels(layer="raw", source=s, country=c).inc(n)]
    -- never raise, whichever backend the guarded import selected, and
    with [prometheus_client] they add to the count under exactly the key
    the batch model increments ([[s; c]], [["raw"; s; c]]), which holds
    because the label names [metrics.py] declares are these keywords in
    this order; without it they change no count. *)
Theorem metrics_calls_refine (p : bool) s c (n : nat) m :
  labels_inc (crawled_pages_counter p) [("source", s); ("country", c)] 1 m =
    (Ok (), if p then counter_inc crawled_pages_total [s; c] 1 m else m) ∧
  labels_inc (fetch_errors_counter p) [("source", s); ("country", c)] 1 m =
    (Ok (), if p then counter_inc fetch_errors_total [s; c] 1 m else m) ∧
  labels_inc (bytes_written_counter p) [("layer", "raw"); ("source", s); ("country", c)] (Z.of_nat n) m =
    (Ok (), if p then counter_inc bytes_written_total ["raw"; s; c] n m else m).
Proof.
  destruct p; [|done]. unfold crawled_pages_counter, fetch_errors_counter, bytes_written_counter.
  split; [|split].
  - apply (labels_inc_ordered _ _ [("source", s); ("country", c)]); [done|repeat constructor; set_solver|lia].
  - apply (labels_inc_ordered _ _ [("source", s); ("country", c)]); [done|repeat constructor; set_solver|lia].
  - rewrite <- (Nat2Z.id n) at 2.
    apply (labels_inc_ordered _ _ [("layer", "raw"); ("source", s); ("country", c)]);
      [done|repeat constructor; set_solver|lia].
Qed.


