(* ===== verification/Tracing.v ===== *)
(** * Tracing: [ops/tracing.py]

    [span(name)] is a [contextmanager] that wraps a block in a span: the
    [_NoopSpan] of the shim when OpenTelemetry is not installed, otherwise
    [get_tracer().start_as_current_span(name)].  No other module calls it.

    A context manager is modelled by what [__enter__] and [__exit__] ask of
    the tracing API (span events appended to a trace) and by the flag
    [__exit__] returns, which suppresses the block's exception when true.
    The generator of [span] re-raises what is thrown in at its [yield]
    unless its own [with] suppresses it, so [span] behaves as the context
    manager it enters.  The block is a statement sequence: a computation of
    the state/exception monad whose state does not hold the trace. *)

From S2P Require Import Prelude.

Inductive span_event :=
  | SpanStart (tracer name : string)
  | SpanRecordException (name : string)   (** [span.record_exception(e)] and status ERROR *)
  | SpanEnd (name : string).

(** A context manager: the events of [__enter__], and those of
    [__exit__(exc_type, ...)] for a block that raised or not, with the
    flag [__exit__] returns. *)
Record span_cm := SpanCM {
  cm_enter : list span_event;
  cm_exit : bool → list span_event * bool
}.

(** [_NoopSpan]: [__enter__] returns [self], [__exit__] returns [False]. *)
Definition noop_span : span_cm := SpanCM [] (λ _, ([], false)).

(** [Tracer.start_as_current_span(name)] with OpenTelemetry's defaults
    ([record_exception=True], [set_status_on_exception=True],
    [end_on_exit=True]); its [__exit__] does not suppress. *)
Definition otel_span (tracer name : string) : span_cm :=
  SpanCM [SpanStart tracer name]
         (λ raised, ((if raised then [SpanRecordException name] else []) ++ [SpanEnd name], false)).

Inductive tracer := NoopTracer | OtelTracer (name : string).

(** [get_tracer(name="crawler")]; [trace_available] is [trace is not None]
    after the guarded import of [opentelemetry]. *)
Definition get_tracer (trace_available : bool) (name : string) : tracer :=
  if trace_available then OtelTracer name else NoopTracer.

(** [tracer.start_as_current_span(name)] for both tracers. *)
Definition start_as_current_span (t : tracer) (name : string) : span_cm :=
  match t with NoopTracer => noop_span | OtelTracer tn => otel_span tn name end.

(** [with cm: block] *)
Definition with_cm {S E} (cm : span_cm) (block : st_exc S E unit) : st_exc (list span_event * S) E unit :=
  λ '(ev, s),
    let '(r, s') := block s in
    match r with
    | Ok _ => (Ok (), (ev ++ cm_enter cm ++ (cm_exit cm false).1, s'))
    | Raise e => let '(ex, suppress) := cm_exit cm true in
                 (if suppress then Ok () else Raise e, (ev ++ cm_enter cm ++ ex, s'))
    end.

(** [with span(name): block] *)
Definition span {S E} (trace_available : bool) (name : string) (block : st_exc S E unit)
    : st_exc (list span_event * S) E unit :=
  let t := get_tracer trace_available "crawler" in
  match t with
  | NoopTracer => with_cm noop_span block
  | OtelTracer _ => with_cm (start_as_current_span t name) block
  end.

(** ** Properties *)

Section Span.
Context {S E : Type}.
Variable block : st_exc S E unit.

Lemma with_cm_transparent cm ev s :
  (∀ raised, (cm_exit cm raised).2 = false) →
  let '(r, (_, s')) := with_cm cm block (ev, s) in (r, s') = block s.
Proof.
  intros Hns. unfold with_cm. destruct (block s) as [[[]|e] s'']; [done|].
  specialize (Hns true). destruct (cm_exit cm true) as [ex []]; simpl in *; congruence.
Qed.

(** Whether or not OpenTelemetry is installed, [with span(name): block]
    runs the block once and neither hides nor changes its outcome: the
    result (an exception included) and the state are the block's own. *)
Theorem span_transparent trace_available name ev s :
  let '(r, (_, s')) := span trace_available name block (ev, s) in (r, s') = block s.
Proof.
  unfold span, get_tracer. destruct trace_available; cbn -[with_cm]; by apply with_cm_transparent.
Qed.

(** Without OpenTelemetry the trace is untouched; with it, the block is
    bracketed by one start of the span ["crawler"]/[name] and one end,
    with the exception recorded in between when the block raised. *)
Theorem span_trace trace_available name ev s :
  (span trace_available name block (ev, s)).2.1 =
    if trace_available then
      ev ++ [SpanStart "crawler" name] ++
      (match (block s).1 with Ok _ => [] | Raise _ => [SpanRecordException name] end) ++ [SpanEnd name]
    else ev.
Proof.
  unfold span, get_tracer, with_cm. destruct trace_available; simpl;
    destruct (block s) as [[[]|e] s']; simpl; by rewrite ?app_nil_r.
Qed.

End Span.
