(* ===== verification/Storage.v ===== *)
(** * Storage: [core/storage.py] and [pipelines/article.py:write_curated_articles]

    [S3Config] reads its fields from the environment, with defaults, when
    the class is defined.  [_client()] raises [RuntimeError] when boto3 is
    missing; [put_gz(key, data, content_type, metadata)] gzips [data] and
    puts one object in the configured bucket.  [write_parquet(path,
    records)] raises [RuntimeError] when s3fs or pyarrow is missing and
    otherwise writes one table whose columns are the keys that occur in the
    records, each column holding [row.get(k)] for every row.

    State: the bucket's objects, a map from (bucket, key) to the object, so
    that a second [put_object] on a key replaces the first; and the parquet
    files written, a map from path to table.  A table is a map from column
    name to column: the column order of [pa.Table.from_pydict] follows the
    iteration order of a Python set, which the model leaves out.  gzip
    compression is the abstract [gzip_compress]; the libraries' network
    failures are not modelled. *)

From S2P Require Import Prelude PyStr Article.
From stdpp Require Import pretty.

Record s3_config := S3Config {
  endpoint_url : string;
  access_key : string;
  secret_key : string;
  bucket : string;
  region : string;
  force_path_style : bool
}.

(** [S3Config()]: each field's default reads [os.getenv] once. *)
Definition s3_config_of_env (getenv : string → option string) : s3_config :=
  S3Config (default "http://localhost:9000" (getenv "MINIO_ENDPOINT"))
           (default "minio" (getenv "MINIO_ACCESS_KEY"))
           (default "minio123" (getenv "MINIO_SECRET_KEY"))
           (default "crawler" (getenv "MINIO_BUCKET"))
           (default "us-east-1" (getenv "MINIO_REGION"))
           (bool_decide (py_lower (default "true" (getenv "S3_FORCE_PATH_STYLE")) = "true")).

Inductive storage_error := StorageRuntimeError (msg : string).

(** The arguments of [boto3.client("s3", ...)]. *)
Record s3_client := S3Client {
  sc_endpoint : string;
  sc_access_key : string;
  sc_secret_key : string;
  sc_signature_version : string;
  sc_addressing_style : string;
  sc_region : string
}.

Record s3_object := S3Object {
  obj_body : list Z;
  obj_content_encoding : string;
  obj_content_type : string;
  obj_metadata : list (string * string)
}.

(** The values a record holds, as [model_dump()] returns them. *)
Inductive pyval :=
  | PyStr (s : string)
  | PyNone
  | PyStrList (l : list string).

Notation table := (gmap string (list pyval)).

Record store := Store {
  st_objects : gmap (string * string) s3_object;
  st_parquet : gmap string table
}.

Definition empty_store : store := Store ∅ ∅.

Definition DEFAULT_CONTENT_TYPE : string := "text/html; charset=utf-8".

(** Which of the five modules of the guarded import block are installed. *)
Record storage_imports := StorageImports {
  imp_boto3 : bool; imp_s3fs : bool; imp_pandas : bool; imp_pyarrow : bool; imp_pyarrow_parquet : bool
}.

(** The module-level [try: import boto3, s3fs, pandas, pyarrow,
    pyarrow.parquet / except: boto3 = s3fs = pd = pa = pq = None]: the
    names are bound only when all five imports succeed.  The result is both
    [boto3 is not None] and [s3fs is not None and pa is not None]. *)
Definition storage_loaded (i : storage_imports) : bool :=
  imp_boto3 i && imp_s3fs i && imp_pandas i && imp_pyarrow i && imp_pyarrow_parquet i.

Section Storage.
Variable cfg : s3_config.
Variable boto3_available : bool.
Variable parquet_deps_available : bool.   (** [s3fs] and [pyarrow] *)
Variable gzip_compress : list Z → list Z.

(** [_client()] *)
Definition make_client : exc storage_error s3_client :=
  if boto3_available then
    Ok (S3Client (endpoint_url cfg) (access_key cfg) (secret_key cfg) "s3v4"
                 (if force_path_style cfg then "path" else "auto") (region cfg))
  else Raise (StorageRuntimeError "boto3 not available. Install dependencies to use storage features.").

(** [put_gz(key, data, content_type, metadata)] *)
Definition put_gz (key : string) (data : list Z) (content_type : string)
    (metadata : option (list (string * string))) : st_exc store storage_error unit :=
  λ st, match make_client with
        | Raise e => (Raise e, st)
        | Ok _ =>
            (Ok (), Store (<[(bucket cfg, key) :=
                              S3Object (gzip_compress data) "gzip" content_type (default [] metadata)]>
                             (st_objects st))
                          (st_parquet st))
        end.

(** [row.get(k)] *)
Definition row_get (k : string) (row : list (string * pyval)) : pyval :=
  match find (λ kv, bool_decide (kv.1 = k)) row with Some kv => kv.2 | None => PyNone end.

(** [{k for r in records for k in r.keys()}] *)
Definition parquet_columns (records : list (list (string * pyval))) : list string :=
  remove_dups (concat (map (fmap fst) records)).

(** [pa.Table.from_pydict({k: [row.get(k) for row in records] for k in ...})] *)
Definition parquet_table (records : list (list (string * pyval))) : table :=
  list_to_map ((λ k, (k, map (row_get k) records)) <$> parquet_columns records).

(** [write_parquet(path, records)] *)
Definition write_parquet (path : string) (records : list (list (string * pyval)))
    : st_exc store storage_error unit :=
  λ st, if parquet_deps_available then
          (Ok (), Store (st_objects st) (<[path := parquet_table records]> (st_parquet st)))
        else (Raise (StorageRuntimeError "Parquet write dependencies not available (s3fs/pyarrow)."), st).

End Storage.

(** ** Curated articles *)

(** A calendar date, for [f"{dt:%Y-%m-%d}"]. *)
Record date := Date { year : nat; month : nat; day : nat }.

(** [%Y-%m-%d]: the year in decimal, month and day on two digits. *)
Definition format_ymd (d : date) : string :=
  decimal (year d) +:+ "-" +:+ py_format_zpad 2 (month d) +:+ "-" +:+ py_format_zpad 2 (day d).

Definition opt_str (x : option string) : pyval := match x with Some s => PyStr s | None => PyNone end.

(** [Article.model_dump()], [published_at] being [None] for every article
    [to_article] builds. *)
Definition article_dump (a : article) : list (string * pyval) :=
  [("url", PyStr (a_url a)); ("title", opt_str (a_title a)); ("text", opt_str (a_text a));
   ("authors", PyStrList (a_authors a)); ("published_at", PyNone);
   ("country", PyStr (a_country a)); ("language", opt_str (a_language a));
   ("source", PyStr (a_source a)); ("content_hash", PyStr (a_content_hash a))].

Definition curated_path (cfg : s3_config) (entity country : string) (dt : date) : string :=
  bucket cfg +:+ "/curated/" +:+ entity +:+ "/" +:+ country +:+ "/dt=" +:+ format_ymd dt +:+ "/data.parquet".

(** [write_curated_articles(records, country=..., dt=..., entity=...)] *)
Definition write_curated_articles (cfg : s3_config) (parquet_deps_available : bool)
    (records : list article) (country : string) (dt : date) (entity : string)
    : st_exc store storage_error unit :=
  write_parquet parquet_deps_available (curated_path cfg entity country dt) (map article_dump records).

(** ** Properties *)

Section StorageProperties.
Variable cfg : s3_config.
Variable gzip_compress : list Z → list Z.

(** Without boto3, [put_gz] raises [RuntimeError] and writes nothing. *)
Theorem put_gz_no_boto3 key data ct md st :
  put_gz cfg false gzip_compress key data ct md st =
    (Raise (StorageRuntimeError "boto3 not available. Install dependencies to use storage features."), st).
Proof. reflexivity. Qed.

(** C22. A missing parquet library disables the raw layer too: with boto3
    installed but one of [s3fs], [pandas], [pyarrow] missing, [boto3] is
    [None] after the import block and [put_gz] raises. *)
Theorem put_gz_needs_parquet_deps (i : storage_imports) key data ct md st :
  imp_s3fs i && imp_pandas i && imp_pyarrow i && imp_pyarrow_parquet i = false →
  put_gz cfg (storage_loaded i) gzip_compress key data ct md st =
    (Raise (StorageRuntimeError "boto3 not available. Install dependencies to use storage features."), st).
Proof.
  intros Hmiss. replace (storage_loaded i) with false; [apply put_gz_no_boto3|].
  unfold storage_loaded. destruct i as [[] [] [] [] []]; simpl in *; congruence.
Qed.

End StorageProperties.

Lemma put_gz_needs_parquet_deps_witness :
  (false && true && true && true = false) ∧
  put_gz (s3_config_of_env (λ _, None)) (storage_loaded (StorageImports true false true true true)) id
    "raw/k" [] DEFAULT_CONTENT_TYPE None empty_store =
    (Raise (StorageRuntimeError "boto3 not available. Install dependencies to use storage features."),
     empty_store).
Proof.
  split; [reflexivity|]. apply (put_gz_needs_parquet_deps _ _ (StorageImports true false true true true)).
  reflexivity.
Defined.

Lemma parquet_table_lookup records k col :
  parquet_table records !! k = Some col ↔
    col = map (row_get k) records ∧ ∃ row, row ∈ records ∧ k ∈ row.*1.
Proof.
  unfold parquet_table. rewrite <- elem_of_list_to_map.
  2:{ rewrite <- list_fmap_compose. unfold compose. simpl. rewrite list_fmap_id.
      apply NoDup_remove_dups. }
  rewrite list_elem_of_fmap. unfold parquet_columns. split.
  - intros (k' & [= -> ->] & Hk). rewrite elem_of_remove_dups, list_elem_of_In, in_concat in Hk.
    destruct Hk as (l & Hl & Hkl). apply in_map_iff in Hl as (row & <- & Hrow).
    split; [done|]. exists row. split; [by apply list_elem_of_In|by apply list_elem_of_In].
  - intros [-> (row & Hrow & Hk)]. exists k. split; [done|].
    rewrite elem_of_remove_dups, list_elem_of_In, in_concat. exists row.*1.
    split; [apply in_map_iff; exists row; split; [done|by apply list_elem_of_In]|by apply list_elem_of_In].
Qed.

Lemma row_get_absent k row : k ∉ row.*1 → row_get k row = PyNone.
Proof.
  intros Hk. unfold row_get. destruct (find _ row) as [kv|] eqn:Hf; [|done].
  apply find_some in Hf as [Hin Heq]. apply bool_decide_eq_true in Heq. subst k.
  exfalso. apply Hk. apply list_elem_of_fmap. exists kv. split; [done|by apply list_elem_of_In].
Qed.

(** [write_parquet] with its dependencies writes at [path] a table with one
    column per key occurring in some record, each as long as the list of
    records, holding [None] where a record lacks the key. *)
Theorem write_parquet_table path records st :
  ∃ st', write_parquet true path records st = (Ok (), st') ∧
    st_parquet st' !! path = Some (parquet_table records) ∧
    (∀ k, is_Some (parquet_table records !! k) ↔ ∃ row, row ∈ records ∧ k ∈ row.*1) ∧
    (∀ k col, parquet_table records !! k = Some col →
       length col = length records ∧
       ∀ i row, records !! i = Some row → k ∉ row.*1 → col !! i = Some PyNone).
Proof.
  eexists. split; [reflexivity|]. split; [simpl; by rewrite lookup_insert_eq|]. split.
  - intros k. split.
    + intros [col Hcol]. by apply parquet_table_lookup in Hcol as [_ ?].
    + intros Hrow. eexists. apply parquet_table_lookup. by split.
  - intros k col Hcol. apply parquet_table_lookup in Hcol as [-> _].
    split; [apply length_map|]. intros i row Hi Hk.
    rewrite list_lookup_fmap, Hi. simpl. by rewrite row_get_absent.
Qed.

Definition ARTICLE_FIELDS : list string :=
  ["url"; "title"; "text"; "authors"; "published_at"; "country"; "language"; "source"; "content_hash"].

Lemma article_dump_keys a : (article_dump a).*1 = ARTICLE_FIELDS.
Proof. reflexivity. Qed.

(** [write_curated_articles] on a non-empty list writes at
    [{bucket}/curated/{entity}/{country}/dt={dt}/data.parquet] a table with
    exactly the nine [Article] fields as columns, one value per record. *)
Theorem write_curated_articles_columns cfg records country dt entity st :
  records ≠ [] →
  ∃ st' t, write_curated_articles cfg true records country dt entity st = (Ok (), st') ∧
    st_parquet st' !! curated_path cfg entity country dt = Some t ∧
    (∀ k, is_Some (t !! k) ↔ k ∈ ARTICLE_FIELDS) ∧
    (∀ k col, t !! k = Some col → length col = length records).
Proof.
  intros Hne. destruct (write_parquet_table (curated_path cfg entity country dt) (map article_dump records) st)
    as (st' & Hw & Ht & Hkeys & Hlen).
  exists st', (parquet_table (map article_dump records)). split; [exact Hw|]. split; [exact Ht|]. split.
  - intros k. rewrite Hkeys. split.
    + intros (row & Hrow & Hk). apply list_elem_of_fmap in Hrow as (a & -> & _).
      by rewrite article_dump_keys in Hk.
    + intros Hk. destruct records as [|a rs]; [done|]. exists (article_dump a).
      split; [by left|]. by rewrite article_dump_keys.
  - intros k col Hcol. destruct (Hlen k col Hcol) as [-> _]. apply length_map.
Qed.

Lemma write_curated_articles_columns_witness :
  ∃ st' t, write_curated_articles (s3_config_of_env (λ _, None)) true
             [Article "https://example.com/a" (Some "X") None [] None "MZ" None "cli" "h"] "MZ"
             (Date 2024 1 5) "articles" empty_store = (Ok (), st') ∧
    st_parquet st' !! curated_path (s3_config_of_env (λ _, None)) "articles" "MZ" (Date 2024 1 5) = Some t ∧
    (∀ k, is_Some (t !! k) ↔ k ∈ ARTICLE_FIELDS) ∧
    (∀ k col, t !! k = Some col →
       length col = length [Article "https://example.com/a" (Some "X") None [] None "MZ" None "cli" "h"]).
Proof. apply write_curated_articles_columns. discriminate. Defined.
