(* ===== verification/Crawl.v ===== *)
(** * Crawl: the batch controller of [cli.py]

    [crawl_once(urls)] configures logging, opens one HTTP client and, for
    each URL in order, asks the politeness gate ([core/robots.py:allowed]),
    logs and skips a disallowed URL, and otherwise fetches it, fingerprints
    and assembles the article, and counts a success or, in its
    [except Exception] handler, an error.  [run_source] does the same over
    the first [max_pages] base URLs of a catalog entry.

    The two components the loop calls are interfaces: [RobotsGate] (what
    [allowed] promises: a verdict or a [ValueError], and a new gate state)
    and [FetchEngine] (a response or a fetch error, and a new world).  The
    theorems about the loop are proved against the interfaces; the
    production instances are [Robots.allowed] and [Fetch.fetch].

    State: the gate state, the engine's world, the logging state and the
    Prometheus counters, threaded through the state-and-exception monad of
    the prelude, so that the effects made before an exception escapes the
    loop are kept.

    Politeness.  [polite_effects] is the reference for what the batch may
    do to the gate and the network: ask the gate about the URLs in order
    and fetch exactly the ones it allows.  The frame lemmas ([gw], with
    the prelude's [st_frame]) show that logging, counters and assembly
    touch neither; [polite_loop] lifts a per-iteration fact to any loop of
    that shape, and [crawl_once_polite] holds at every log level. *)

From S2P Require Import Prelude PyStr UrlLib Dedup RobotParser Robots Fetch Article Ops.
From stdpp Require Import pretty.
From Stdlib Require Import QArith.
Local Open Scope nat_scope.

(** ** Interfaces *)

(** [allowed(url, agent)]: the verdict and the gate's new state, or the
    [ValueError] of [urlparse]. *)
Class RobotsGate (G : Type) := gate_allowed : string → string → G → exc url_error (bool * G).

(** [await fetch(url, client)]: the response or the exception, and the
    world after the requests and sleeps it made. *)
Class FetchEngine (W : Type) := engine_fetch : client → string → W → exc fetch_error response * W.

(** The exceptions the loop body can see, all subclasses of [Exception]. *)
Inductive py_exn :=
  | ExnURL (e : url_error)
  | ExnFetch (e : fetch_error)
  | ExnValidation (e : validation_error)
  | ExnLog (e : log_error).

Record crawl_state (G W : Type) := CState {
  cs_gate : G;
  cs_world : W;
  cs_log : logger_state;
  cs_metrics : metrics
}.
Arguments CState {G W} _ _ _ _.
Arguments cs_gate {G W} _.
Arguments cs_world {G W} _.
Arguments cs_log {G W} _.
Arguments cs_metrics {G W} _.

(** The agent [cli.py] passes to [allowed]. *)
Definition CLI_AGENT : string := "AdvancedCrawler/1.0".

(** [str(x)] of an optional string inside an f-string. *)
Definition py_str_opt (x : option string) : string := default "None" x.

(** [repr(x)] of an optional string, for text without quotes or escapes. *)
Definition py_repr_opt (x : option string) : string :=
  match x with Some s => "'" +:+ s +:+ "'" | None => "None" end.

Section Batch.
Context {G W : Type} `{RobotsGate G} `{FetchEngine W}.
Variable http_url_validate : string → option string.
Variable readability : option (string → option parsed).
Variable env_log_level : option string.   (** [os.getenv("LOG_LEVEL")] *)

Notation M := (st_exc (crawl_state G W) py_exn).

(** ** The loop's primitive steps *)

Definition on_gate (url agent : string) : M bool :=
  λ st, match gate_allowed url agent (cs_gate st) with
        | Ok (b, g') => (Ok b, CState g' (cs_world st) (cs_log st) (cs_metrics st))
        | Raise e => (Raise (ExnURL e), st)
        end.

Definition on_fetch (c : client) (url : string) : M response :=
  λ st, let '(r, w') := engine_fetch c url (cs_world st) in
        (match r with Ok a => Ok a | Raise e => Raise (ExnFetch e) end,
         CState (cs_gate st) w' (cs_log st) (cs_metrics st)).

Definition on_log (level : Z) (msg : string) (extra : list (string * string)) (exc_info : bool) : M unit :=
  λ st, let '(r, l') := log_call "crawler" level msg extra exc_info (cs_log st) in
        (match r with Ok a => Ok a | Raise e => Raise (ExnLog e) end,
         CState (cs_gate st) (cs_world st) l' (cs_metrics st)).

Definition on_configure (level : option string) : M unit :=
  λ st, let '(r, l') := configure_logging level env_log_level (cs_log st) in
        (match r with Ok a => Ok a | Raise e => Raise (ExnLog e) end,
         CState (cs_gate st) (cs_world st) l' (cs_metrics st)).

Definition on_inc (name : string) (labels : list string) (n : nat) : M unit :=
  st_modify (λ st, CState (cs_gate st) (cs_world st) (cs_log st) (counter_inc name labels n (cs_metrics st))).

Definition on_article (url html : string) (country language source : option string) : M article :=
  st_lift (match to_article http_url_validate readability url html country language source with
           | Ok a => Ok a | Raise e => Raise (ExnValidation e) end).

(** ** [crawl_once] *)

Definition disallowed_message (url : string) : list (string * string) :=
  [("message", "Disallowed by robots: " +:+ url)].

(** The body of [for url in urls] in [crawl_once]. *)
Definition crawl_once_url (c : client) (url : string) : M unit :=
  ok ← on_gate url CLI_AGENT;
  if negb ok then on_log WARNING "robots_disallow" (disallowed_message url) false
  else
    (TRY (r ← on_fetch c url;
          let h := content_hash (resp_text r) in
          art ← on_article url (resp_text r) (Some "") None (Some "cli");
          on_inc crawled_pages_total ["cli"; ""] 1;;
          on_log INFO "fetched"
            [("message", url +:+ " status=" +:+ pretty (status_code r) +:+ " hash=" +:+ h
                         +:+ " title=" +:+ py_str_opt (a_title art))] false)
     EXCEPT (λ _, on_inc fetch_errors_total ["cli"; ""] 1;;
                  on_log ERROR "fetch_error" [] true))%py.

Fixpoint crawl_loop (c : client) (urls : list string) : M unit :=
  match urls with
  | [] => mret ()
  | u :: us => crawl_once_url c u;; crawl_loop c us
  end.

(** [crawl_once(urls)] *)
Definition crawl_once (urls : list string) : M unit :=
  on_configure None;; crawl_loop http_client urls.

End Batch.

(** ** Production instances *)

(** [core/robots.py:allowed] over the robots.txt and clock oracles. *)
Definition robots_gate {env : UrlEnv} (net : nat → string → robots_response) (clock : nat → Z)
    : RobotsGate gate_state := allowed net clock.

(** [core/fetch.py:fetch(url, client)]; the [None] branch, out of fuel, is
    never taken ([Fetch.fetch_terminates]). *)
Definition fetch_engine (transport : nat → string → get_outcome) (rand : nat → Q) : FetchEngine world :=
  λ c url w, match fetch transport rand url (Some c) w with
             | Some r => r
             | None => (Raise (Transport ConnectError), w)
             end.

(** ** Reference runs of the two components alone *)

Section Runs.
Context {G W : Type} `{RobotsGate G} `{FetchEngine W}.

(** The gate alone over the URLs: the URLs it allows, in order. *)
Fixpoint gate_run (agent : string) (urls : list string) (g : G) : exc url_error (list string * G) :=
  match urls with
  | [] => Ok ([], g)
  | u :: us =>
      match gate_allowed u agent g with
      | Raise e => Raise e
      | Ok (b, g') =>
          match gate_run agent us g' with
          | Raise e => Raise e
          | Ok (al, g'') => Ok (if b then u :: al else al, g'')
          end
      end
  end.

(** The engine alone over the URLs. *)
Fixpoint engine_run (c : client) (urls : list string) (w : W) : W :=
  match urls with
  | [] => w
  | u :: us => engine_run c us (engine_fetch c u w).2
  end.

(** What the batch may do to the gate and to the network: ask the gate
    about the URLs in order, fetch exactly the URLs it allows, once each,
    and stop at the first URL on which the gate raises. *)
Fixpoint polite_effects (c : client) (urls : list string) (g : G) (w : W) : G * W :=
  match urls with
  | [] => (g, w)
  | u :: us =>
      match gate_allowed u CLI_AGENT g with
      | Ok (true, g') => polite_effects c us g' (engine_fetch c u w).2
      | Ok (false, g') => polite_effects c us g' w
      | Raise _ => (g, w)
      end
  end.

(** The two outcome counters of [crawl_once], summed. *)
Definition cli_outcomes (m : metrics) : nat :=
  counter_value crawled_pages_total ["cli"; ""] m + counter_value fetch_errors_total ["cli"; ""] m.

End Runs.

(** ** Step lemmas *)

Section Steps.
Context {G W : Type} `{RobotsGate G} `{FetchEngine W}.
Variable http_url_validate : string → option string.
Variable readability : option (string → option parsed).

Definition with_gate (g : G) (st : crawl_state G W) : crawl_state G W :=
  CState g (cs_world st) (cs_log st) (cs_metrics st).

Lemma crawl_once_url_gate_raise c url st e :
  gate_allowed url CLI_AGENT (cs_gate st) = Raise e →
  crawl_once_url http_url_validate readability c url st = (Raise (ExnURL e), st).
Proof. intros Hg. unfold crawl_once_url, mbind, st_exc_bind, on_gate. by rewrite Hg. Qed.

Lemma crawl_once_url_disallowed c url st g' :
  gate_allowed url CLI_AGENT (cs_gate st) = Ok (false, g') →
  crawl_once_url http_url_validate readability c url st =
    on_log WARNING "robots_disallow" (disallowed_message url) false (with_gate g' st).
Proof. intros Hg. unfold crawl_once_url, mbind, st_exc_bind, on_gate. by rewrite Hg. Qed.

Lemma on_log_message_raises level msg extra v st :
  (ls_level (cs_log st) ≤ level)%Z → ("message", v) ∈ extra →
  ∃ m, on_log (G:=G) (W:=W) level msg extra false st = (Raise (ExnLog (KeyError m)), st).
Proof.
  intros Hl Hin. destruct (log_call_message_raises "crawler" level msg extra false (cs_log st) v)
    as [m Hm]; [done..|].
  exists m. unfold on_log. rewrite Hm. by destruct st.
Qed.

Lemma on_log_disabled level msg extra exc_info st :
  (level < ls_level (cs_log st))%Z →
  on_log (G:=G) (W:=W) level msg extra exc_info st = (Ok (), st).
Proof. intros Hl. unfold on_log. rewrite log_call_disabled by done. by destruct st. Qed.

(** A logging call without [extra] never raises. *)
Lemma on_log_no_extra_ok level msg exc_info st :
  ∃ st', on_log (G:=G) (W:=W) level msg [] exc_info st = (Ok (), st') ∧
    cs_gate st' = cs_gate st ∧ cs_world st' = cs_world st ∧ cs_metrics st' = cs_metrics st ∧
    ls_level (cs_log st') = ls_level (cs_log st).
Proof.
  unfold on_log. rewrite log_call_no_extra. eexists. split; [done|].
  simpl. repeat split. by destruct (is_enabled_for _ _).
Qed.

Lemma cli_outcomes_inc_crawled m :
  cli_outcomes (counter_inc crawled_pages_total ["cli"; ""] 1 m) = cli_outcomes m + 1.
Proof. unfold cli_outcomes. rewrite counter_value_inc_same, counter_value_inc_other by done. lia. Qed.

Lemma cli_outcomes_inc_errors m :
  cli_outcomes (counter_inc fetch_errors_total ["cli"; ""] 1 m) = cli_outcomes m + 1.
Proof. unfold cli_outcomes. rewrite counter_value_inc_same, counter_value_inc_other by done. lia. Qed.

End Steps.

(** The [except] branch of the loop body, once reduced: the error
    counter was incremented and [log.error] cannot raise. *)
Ltac except_branch :=
  match goal with
  | |- context [on_log ?lvl ?msg [] true ?s] =>
      let st' := fresh "st'" in let Hst := fresh "Hst" in
      destruct (on_log_no_extra_ok lvl msg true s) as (st' & Hst & ? & ? & ? & ?); rewrite Hst
  end.

Section QuietSteps.
Context {G W : Type} `{RobotsGate G} `{FetchEngine W}.
Variable http_url_validate : string → option string.
Variable readability : option (string → option parsed).

(** An allowed URL when INFO is not enabled: one fetch, one outcome
    counted, no exception. *)
Lemma crawl_once_url_quiet_allowed c url st g1 :
  (WARNING < ls_level (cs_log st))%Z →
  gate_allowed url CLI_AGENT (cs_gate st) = Ok (true, g1) →
  ∃ st', crawl_once_url http_url_validate readability c url st = (Ok (), st') ∧
    cs_gate st' = g1 ∧ cs_world st' = (engine_fetch c url (cs_world st)).2 ∧
    ls_level (cs_log st') = ls_level (cs_log st) ∧
    cli_outcomes (cs_metrics st') = cli_outcomes (cs_metrics st) + 1.
Proof.
  intros Hl Hg. unfold crawl_once_url, mbind, st_exc_bind, on_gate, st_try, on_fetch. rewrite Hg. simpl.
  destruct (engine_fetch c url (cs_world st)) as [[r|e] w'] eqn:Hf; simpl.
  - unfold on_article, st_lift.
    destruct (to_article http_url_validate readability url (resp_text r) (Some "") None (Some "cli"))
      as [a|e]; simpl.
    + rewrite on_log_disabled by (simpl; unfold INFO, WARNING in *; lia). simpl.
      eexists. split; [done|]. simpl. repeat split. apply cli_outcomes_inc_crawled.
    + except_branch. eexists. split; [done|]. simpl in *.
      repeat split; try congruence. rewrite <- cli_outcomes_inc_errors. congruence.
  - except_branch. eexists. split; [done|]. simpl in *.
    repeat split; try congruence. rewrite <- cli_outcomes_inc_errors. congruence.
Qed.


Lemma crawl_once_url_quiet c url st b g1 :
  (WARNING < ls_level (cs_log st))%Z →
  gate_allowed url CLI_AGENT (cs_gate st) = Ok (b, g1) →
  ∃ st', crawl_once_url http_url_validate readability c url st = (Ok (), st') ∧
    cs_gate st' = g1 ∧
    cs_world st' = (if b then (engine_fetch c url (cs_world st)).2 else cs_world st) ∧
    ls_level (cs_log st') = ls_level (cs_log st) ∧
    cli_outcomes (cs_metrics st') = cli_outcomes (cs_metrics st) + (if b then 1 else 0).
Proof.
  intros Hl Hg. destruct b; [by apply crawl_once_url_quiet_allowed|].
  rewrite (crawl_once_url_disallowed http_url_validate readability c url st g1 Hg), on_log_disabled by (simpl; unfold WARNING in *; lia).
  eexists. split; [done|]. simpl. repeat split. lia.
Qed.

End QuietSteps.

(** ** Frames: what the loop body does to the gate and the network *)

Section Politeness.
Context {G W : Type} `{RobotsGate G} `{FetchEngine W}.
Variable http_url_validate : string → option string.
Variable readability : option (string → option parsed).

(** The part of the state the politeness property is about. *)
Definition gw (st : crawl_state G W) : G * W := (cs_gate st, cs_world st).

Lemma on_log_frame level msg extra exc_info : st_frame gw (on_log (G:=G) (W:=W) level msg extra exc_info).
Proof. intros st. unfold on_log. by destruct (log_call _ _ _ _ _ _). Qed.

Lemma on_configure_frame env level : st_frame gw (on_configure (G:=G) (W:=W) env level).
Proof. intros st. unfold on_configure. by destruct (configure_logging _ _ _). Qed.

Lemma on_inc_frame name labels n : st_frame gw (on_inc (G:=G) (W:=W) name labels n).
Proof. by apply st_frame_modify. Qed.

Lemma on_article_frame url html co la so :
  st_frame gw (on_article (G:=G) (W:=W) http_url_validate readability url html co la so).
Proof. apply st_frame_lift. Qed.

#[local] Hint Resolve on_log_frame on_configure_frame on_inc_frame on_article_frame : volector.

(** One iteration, at any log level and whatever it raises, acts on the
    gate and the network as [polite_effects] on its URL. *)
Lemma crawl_once_url_effects c u st :
  gw (crawl_once_url http_url_validate readability c u st).2 = polite_effects c [u] (cs_gate st) (cs_world st).
Proof.
  simpl. destruct (gate_allowed u CLI_AGENT (cs_gate st)) as [[[] g1]|e] eqn:Hg.
  - unfold crawl_once_url. rewrite (st_bind_ok _ _ st true (with_gate g1 st)) by (unfold on_gate; by rewrite Hg).
    cbn -[on_fetch on_article on_inc on_log st_try].
    rewrite st_try_frame_r by (intros; auto with volector).
    rewrite st_bind_frame_r by (intros; cbv zeta; auto with volector).
    unfold on_fetch. by destruct (engine_fetch c u _).
  - rewrite (crawl_once_url_disallowed http_url_validate readability c u st g1 Hg). apply on_log_frame.
  - by rewrite (crawl_once_url_gate_raise http_url_validate readability c u st e Hg).
Qed.

(** An iteration that returns normally had an answer from the gate. *)
Lemma crawl_once_url_answered c u st st' :
  crawl_once_url http_url_validate readability c u st = (Ok (), st') →
  ∃ a, gate_allowed u CLI_AGENT (cs_gate st) = Ok a.
Proof.
  intros E. destruct (gate_allowed u CLI_AGENT (cs_gate st)) as [a|e] eqn:Hg; [by eexists|].
  by rewrite (crawl_once_url_gate_raise http_url_validate readability c u st e Hg) in E.
Qed.

(** An allowed URL never makes the iteration raise, at any log level:
    everything after the gate is inside the [try], and the handler's
    [log.error] has no [extra]. *)
Lemma crawl_once_url_allowed_ok c u st g1 :
  gate_allowed u CLI_AGENT (cs_gate st) = Ok (true, g1) →
  (crawl_once_url http_url_validate readability c u st).1 = Ok ().
Proof.
  intros Hg. unfold crawl_once_url.
  rewrite (st_bind_ok _ _ st true (with_gate g1 st)) by (unfold on_gate; by rewrite Hg).
  cbn -[on_fetch on_article on_inc on_log]. unfold st_try.
  match goal with |- (match ?m ?s0 with _ => _ end).1 = _ => destruct (m s0) as [[[]|e] s1] end; [done|].
  unfold mbind, st_exc_bind, on_inc, st_modify.
  match goal with |- (on_log ERROR "fetch_error" [] true ?s2).1 = _ =>
    destruct (on_log_no_extra_ok (G:=G) (W:=W) ERROR "fetch_error" true s2) as (s3 & -> & _) end.
  done.
Qed.

(** The gate run allows at most the URLs it is given. *)
Lemma gate_run_length agent urls g al g' :
  gate_run agent urls g = Ok (al, g') → length al ≤ length urls.
Proof.
  revert g al. induction urls as [|u us IH]; intros g al Hr; simpl in Hr; [by inv_clear Hr|].
  destruct (gate_allowed u agent g) as [[b g1]|e]; [|done].
  destruct (gate_run agent us g1) as [[al' g'']|e] eqn:Hr'; inv_clear Hr.
  apply IH in Hr'. destruct b; simpl; lia.
Qed.

(** Once the gate has answered on [u], the reference goes on from the
    state the first URL left. *)
Lemma polite_effects_cons_answered c u us g w gw' :
  (∃ a, gate_allowed u CLI_AGENT g = Ok a) → gw' = polite_effects c [u] g w →
  polite_effects c (u :: us) g w = polite_effects c us gw'.1 gw'.2.
Proof. intros [[[] g1] Hg] ->; simpl; by rewrite Hg. Qed.

Lemma polite_effects_cons_ok c u us st st' :
  crawl_once_url http_url_validate readability c u st = (Ok (), st') →
  polite_effects c (u :: us) (cs_gate st) (cs_world st) = polite_effects c us (cs_gate st') (cs_world st').
Proof.
  intros E. apply (polite_effects_cons_answered c u us _ _ (gw st')); [by eapply crawl_once_url_answered|].
  pose proof (crawl_once_url_effects c u st) as Hgw. by rewrite E in Hgw.
Qed.

(** ** Loops over URLs

    A loop [for idx, url in enumerate(urls)] whose body acts on a part
    [f] of the state as [polite_effects] on its URL acts on it as
    [polite_effects] on the URLs it reached. *)
Section PoliteLoop.
Context {St E : Type} (f : St → G * W) (c : client).
Variable body : nat → string → st_exc St E unit.
Variable loop : nat → list string → st_exc St E unit.
Hypothesis loop_nil : ∀ i s, loop i [] s = (Ok (), s).
Hypothesis loop_cons : ∀ i u us, loop i (u :: us) = (body i u ≫= λ _, loop (S i) us).
Hypothesis body_effects : ∀ i u s, f (body i u s).2 = polite_effects c [u] (f s).1 (f s).2.
Hypothesis body_answered :
  ∀ i u s s', body i u s = (Ok (), s') → ∃ a, gate_allowed u CLI_AGENT (f s).1 = Ok a.

Lemma polite_loop i urls s :
  ∃ n, n ≤ length urls ∧ ((loop i urls s).1 = Ok () → n = length urls) ∧
    f (loop i urls s).2 = polite_effects c (take n urls) (f s).1 (f s).2.
Proof.
  revert i s. induction urls as [|u us IH]; intros i s.
  - exists 0. rewrite loop_nil. split; [done|]. split; [done|]. cbn. apply surjective_pairing.
  - rewrite loop_cons. destruct (body i u s) as [[[]|e] s1] eqn:Hb.
    + rewrite (st_bind_ok _ _ _ _ _ Hb). destruct (IH (S i) s1) as (n & Hn & Hok & Hf).
      exists (S n). cbn [length take]. split; [lia|]. split; [intros; f_equal; auto|].
      rewrite Hf. symmetry. apply polite_effects_cons_answered; [exact (body_answered i u s s1 Hb)|].
      rewrite <- (body_effects i u s), Hb. reflexivity.
    + rewrite (st_bind_raise _ _ _ _ _ Hb). exists 1. split; [simpl; lia|]. split; [done|].
      change (take 1 (u :: us)) with [u]. rewrite <- (body_effects i u s), Hb. done.
Qed.

End PoliteLoop.

(** The loop of [crawl_once], at any log level. *)
Lemma crawl_loop_polite c urls st :
  ∃ n, n ≤ length urls ∧
    ((crawl_loop http_url_validate readability c urls st).1 = Ok () → n = length urls) ∧
    gw (crawl_loop http_url_validate readability c urls st).2 =
      polite_effects c (take n urls) (cs_gate st) (cs_world st).
Proof.
  apply (polite_loop gw c (λ _, crawl_once_url http_url_validate readability c)
           (λ _, crawl_loop http_url_validate readability c) (λ _ _, eq_refl) (λ _ _ _, eq_refl)
           (λ _, crawl_once_url_effects c) (λ _, crawl_once_url_answered c) 0).
Qed.

End Politeness.

(** ** The batch *)

Section BatchProperties.
Context {G W : Type} `{RobotsGate G} `{FetchEngine W}.
Variable http_url_validate : string → option string.
Variable readability : option (string → option parsed).

Lemma crawl_loop_cons c u us st :
  crawl_loop http_url_validate readability c (u :: us) st =
    match crawl_once_url http_url_validate readability c u st with
    | (Ok _, st1) => crawl_loop http_url_validate readability c us st1
    | (Raise e, st1) => (Raise e, st1)
    end.
Proof. reflexivity. Qed.

(** C3. At a log level above WARNING, [crawl_once]'s loop is the gate run
    over all the URLs composed with the engine run over the URLs the gate
    allowed, in order: nothing raises, every allowed URL is fetched once
    and counted once as crawled or as an error, and no other URL is
    fetched. *)
Theorem crawl_loop_quiet c urls st al g' :
  (WARNING < ls_level (cs_log st))%Z →
  gate_run CLI_AGENT urls (cs_gate st) = Ok (al, g') →
  ∃ st', crawl_loop http_url_validate readability c urls st = (Ok (), st') ∧
    cs_gate st' = g' ∧ cs_world st' = engine_run c al (cs_world st) ∧
    ls_level (cs_log st') = ls_level (cs_log st) ∧
    cli_outcomes (cs_metrics st') = cli_outcomes (cs_metrics st) + length al.
Proof.
  revert st al. induction urls as [|u us IH]; intros st al Hl Hrun; simpl in Hrun.
  - inv_clear Hrun. exists st. simpl. repeat split. lia.
  - destruct (gate_allowed u CLI_AGENT (cs_gate st)) as [[b g1]|e] eqn:Hg; [|done].
    destruct (gate_run CLI_AGENT us g1) as [[al' g'']|e] eqn:Hr; inv_clear Hrun.
    destruct (crawl_once_url_quiet http_url_validate readability c u st b g1 Hl Hg) as (st1 & Hst1 & Hg1 & Hw1 & Hl1 & Ho1).
    rewrite crawl_loop_cons, Hst1.
    destruct (IH st1 al' ltac:(lia) ltac:(by rewrite Hg1)) as (st' & Hst' & ? & Hw' & ? & Ho').
    exists st'. split; [done|]. rewrite Hw', Hw1. repeat split; try congruence.
    + by destruct b.
    + rewrite Ho', Ho1. destruct b; simpl; lia.
Qed.

(** C2. Politeness, at every log level: whatever [crawl_once] raises,
    its only effects on the politeness gate and on the network are those
    of asking the gate about a prefix of the URLs, in order, and fetching
    exactly the URLs the gate allowed among them, once each and in that
    order; when it returns normally the prefix is the whole list.  No
    disallowed URL is ever fetched. *)
Theorem crawl_once_polite env_log_level urls st :
  ∃ n, n ≤ length urls ∧
    ((crawl_once http_url_validate readability env_log_level urls st).1 = Ok () → n = length urls) ∧
    gw (crawl_once http_url_validate readability env_log_level urls st).2 =
      polite_effects http_client (take n urls) (cs_gate st) (cs_world st).
Proof.
  unfold crawl_once. pose proof (on_configure_frame env_log_level None st) as Hc.
  destruct (on_configure env_log_level None st) as [[[]|e] st1] eqn:E; unfold gw in Hc; simpl in Hc.
  - rewrite (st_bind_ok _ _ _ _ _ E).
    destruct (crawl_loop_polite http_url_validate readability http_client urls st1) as (n & ? & ? & Hgw).
    exists n. do 2 (split; [done|]). injection Hc as <- <-. exact Hgw.
  - rewrite (st_bind_raise _ _ _ _ _ E). exists 0. split; [lia|]. split; [done|]. exact Hc.
Qed.

(** C4. Liveness, at every log level (the default INFO included): when
    the gate allows every URL of the batch, the loop of [crawl_once]
    returns normally after fetching every URL once, in order.  A fetch
    error, a page that fails to assemble, or the [KeyError] of
    [log.info(..., extra={"message": ...})] at INFO is caught inside the
    [try] and never aborts the batch. *)
Theorem crawl_loop_all_allowed c urls st g' :
  gate_run CLI_AGENT urls (cs_gate st) = Ok (urls, g') →
  ∃ st', crawl_loop http_url_validate readability c urls st = (Ok (), st') ∧
    cs_gate st' = g' ∧ cs_world st' = engine_run c urls (cs_world st).
Proof.
  revert st. induction urls as [|u us IH]; intros st Hrun; simpl in Hrun.
  - inv_clear Hrun. by exists st.
  - destruct (gate_allowed u CLI_AGENT (cs_gate st)) as [[b g1]|e] eqn:Hg; [|done].
    destruct (gate_run CLI_AGENT us g1) as [[al g'']|e] eqn:Hr; [|done].
    destruct b; inv_clear Hrun; [|apply gate_run_length in Hr; simpl in Hr; lia].
    pose proof (crawl_once_url_allowed_ok http_url_validate readability c u st g1 Hg) as Hok.
    pose proof (crawl_once_url_effects http_url_validate readability c u st) as Hgw.
    destruct (crawl_once_url http_url_validate readability c u st) as [r st1] eqn:E. simpl in Hok, Hgw. subst r.
    rewrite Hg in Hgw. injection Hgw as Hg1 Hw1.
    rewrite crawl_loop_cons, E. destruct (IH st1) as (st' & Hst' & Hg' & Hw'); [by rewrite Hg1|].
    exists st'. by rewrite Hw', Hw1.
Qed.

(** C30. At a level above WARNING, a URL on which [allowed] raises
    [ValueError] aborts the rest of the batch: the exception escapes
    [crawl_once], outside its [try]. *)
Theorem crawl_loop_gate_raise c urls st e :
  (WARNING < ls_level (cs_log st))%Z →
  gate_run CLI_AGENT urls (cs_gate st) = Raise e →
  ∃ st', crawl_loop http_url_validate readability c urls st = (Raise (ExnURL e), st').
Proof.
  revert st. induction urls as [|u us IH]; intros st Hl Hrun; simpl in Hrun; [done|].
  rewrite crawl_loop_cons.
  destruct (gate_allowed u CLI_AGENT (cs_gate st)) as [[b g1]|e'] eqn:Hg.
  - destruct (crawl_once_url_quiet http_url_validate readability c u st b g1 Hl Hg) as (st1 & -> & Hg1 & _ & Hl1 & _).
    apply IH; [lia|]. rewrite Hg1. by destruct (gate_run CLI_AGENT us g1) as [[]|].
  - rewrite (crawl_once_url_gate_raise _ _ c u st e' Hg). inv_clear Hrun. eauto.
Qed.

(** C8. When [LOG_LEVEL] names a level up to WARNING (INFO when it is
    unset), a URL the gate disallows, at the head of the batch, makes
    [crawl_once] raise [KeyError]:
    [log.warning(..., extra={"message": ...})] is refused by
    [makeRecord], so the URLs after it are never visited (a later
    disallowed URL does the same once the loop reaches it). *)
Theorem crawl_once_disallowed_aborts env_log_level n url rest st g' :
  name_to_level (default "INFO" env_log_level) = Some n → (n ≤ WARNING)%Z →
  gate_allowed url CLI_AGENT (cs_gate st) = Ok (false, g') →
  ∃ m, crawl_once http_url_validate readability env_log_level (url :: rest) st =
       (Raise (ExnLog (KeyError m)),
        CState g' (cs_world st) (LogState n (ls_records (cs_log st))) (cs_metrics st)).
Proof.
  intros Hn Hw Hg. unfold crawl_once, mbind at 1, st_exc_bind at 1, on_configure.
  rewrite (configure_logging_env None env_log_level (cs_log st) n Hn). simpl.
  unfold mbind, st_exc_bind. rewrite (crawl_once_url_disallowed _ _ _ _ _ g') by exact Hg.
  destruct (on_log_message_raises (G:=G) (W:=W) WARNING "robots_disallow" (disallowed_message url)
              ("Disallowed by robots: " +:+ url)
              (with_gate g' (CState (cs_gate st) (cs_world st) (LogState n (ls_records (cs_log st)))
                                    (cs_metrics st)))) as [m Hm]; [done|by left|].
  rewrite Hm. eauto.
Qed.

(** C9. When INFO is enabled, a URL that is fetched and assembled is
    counted both as crawled and as a fetch error: [log.info(..., extra=
    {"message": ...})] raises [KeyError] after [crawled_pages_total] was
    incremented, inside the [try], and the handler counts an error. *)
Theorem crawl_once_url_double_count c url st g1 r w' a :
  (ls_level (cs_log st) ≤ INFO)%Z →
  gate_allowed url CLI_AGENT (cs_gate st) = Ok (true, g1) →
  engine_fetch c url (cs_world st) = (Ok r, w') →
  to_article http_url_validate readability url (resp_text r) (Some "") None (Some "cli") = Ok a →
  ∃ st', crawl_once_url http_url_validate readability c url st = (Ok (), st') ∧
    counter_value crawled_pages_total ["cli"; ""] (cs_metrics st') =
      counter_value crawled_pages_total ["cli"; ""] (cs_metrics st) + 1 ∧
    counter_value fetch_errors_total ["cli"; ""] (cs_metrics st') =
      counter_value fetch_errors_total ["cli"; ""] (cs_metrics st) + 1.
Proof.
  intros Hl Hg Hf Ha. unfold crawl_once_url, mbind, st_exc_bind, on_gate, st_try, on_fetch.
  rewrite Hg. simpl. rewrite Hf. simpl. unfold on_article, st_lift. rewrite Ha. simpl.
  match goal with
  | |- context [on_log INFO "fetched" [("message", ?v)] false ?s] =>
      destruct (on_log_message_raises INFO "fetched" [("message", v)] v s) as [m ->]; [simpl; lia|by left|]
  end.
  except_branch. eexists. split; [done|]. simpl in *.
  match goal with Hm : cs_metrics _ = _ |- _ => rewrite Hm end.
  rewrite counter_value_inc_same, counter_value_inc_other, counter_value_inc_same by done.
  rewrite counter_value_inc_other by done. lia.
Qed.

End BatchProperties.

(** ** Witnesses

    One host whose robots.txt disallows [/private] for every agent, a
    server that answers every request with a page titled [X], and the
    production gate and engine over them. *)

Definition demo_net : nat → string → robots_response :=
  λ _ _, RobotsBody "User-agent: *
Disallow: /private
".
Definition demo_clock : nat → Z := λ _, 1%Z.
Definition demo_transport : nat → string → get_outcome :=
  λ _ _, Response 200 "<html><title>X</title></html>".

#[local] Instance demo_gate : RobotsGate gate_state := robots_gate (env:=ascii_url_env) demo_net demo_clock.
#[local] Instance demo_engine : FetchEngine world := fetch_engine demo_transport Fetch.half.

Definition demo_state (level : Z) : crawl_state gate_state world :=
  CState empty_gate fresh_world (LogState level []) ∅.

Definition demo_gate_after : gate_state :=
  match gate_allowed "https://example.com/a" CLI_AGENT empty_gate with
  | Ok (_, g) => g
  | Raise _ => empty_gate
  end.

Lemma crawl_loop_quiet_witness :
  ∃ st', crawl_loop Some None http_client ["https://example.com/a"; "https://example.com/private/b"]
           (demo_state ERROR) = (Ok (), st') ∧
    cs_gate st' = demo_gate_after ∧
    cs_world st' = engine_run http_client ["https://example.com/a"] (cs_world (demo_state ERROR)) ∧
    ls_level (cs_log st') = ls_level (cs_log (demo_state ERROR)) ∧
    cli_outcomes (cs_metrics st') =
      cli_outcomes (cs_metrics (demo_state ERROR)) + length ["https://example.com/a"].
Proof.
  apply (crawl_loop_quiet Some None http_client _ (demo_state ERROR) ["https://example.com/a"]
           demo_gate_after); vm_compute; reflexivity.
Defined.

Lemma crawl_loop_gate_raise_witness :
  ∃ st', crawl_loop Some None http_client ["http://[::1/x"; "https://example.com/a"] (demo_state ERROR) =
         (Raise (ExnURL (ValueError "Invalid IPv6 URL")), st').
Proof. apply crawl_loop_gate_raise; vm_compute; reflexivity. Defined.

Lemma crawl_once_disallowed_aborts_witness :
  ∃ m, crawl_once Some None None ["https://example.com/private/b"; "https://example.com/a"] (demo_state WARNING) =
       (Raise (ExnLog (KeyError m)),
        CState demo_gate_after (cs_world (demo_state WARNING))
               (LogState INFO (ls_records (cs_log (demo_state WARNING)))) (cs_metrics (demo_state WARNING))).
Proof.
  apply (crawl_once_disallowed_aborts Some None None INFO); [reflexivity | unfold INFO, WARNING; lia |].
  vm_compute. reflexivity.
Defined.

Lemma crawl_once_url_double_count_witness :
  ∃ st', crawl_once_url Some None http_client "https://example.com/a" (demo_state INFO) = (Ok (), st') ∧
    counter_value crawled_pages_total ["cli"; ""] (cs_metrics st') =
      counter_value crawled_pages_total ["cli"; ""] (cs_metrics (demo_state INFO)) + 1 ∧
    counter_value fetch_errors_total ["cli"; ""] (cs_metrics st') =
      counter_value fetch_errors_total ["cli"; ""] (cs_metrics (demo_state INFO)) + 1.
Proof.
  apply (crawl_once_url_double_count Some None http_client "https://example.com/a" (demo_state INFO)
           demo_gate_after (Resp 200 "<html><title>X</title></html>")
           (engine_fetch http_client "https://example.com/a" fresh_world).2
           (Article "https://example.com/a" (Some "X") None [] None "" None "cli" (content_hash "X
")));
    [simpl; lia | vm_compute; reflexivity..].
Defined.

Definition demo_allowed_urls : list string := ["https://example.com/a"; "https://example.com/b"].

Definition demo_allowed_gate : gate_state :=
  match gate_run CLI_AGENT demo_allowed_urls empty_gate with Ok (_, g) => g | Raise _ => empty_gate end.

Lemma crawl_loop_all_allowed_witness :
  ∃ st', crawl_loop Some None http_client demo_allowed_urls (demo_state INFO) = (Ok (), st') ∧
    cs_gate st' = demo_allowed_gate ∧
    cs_world st' = engine_run http_client demo_allowed_urls (cs_world (demo_state INFO)).
Proof. apply crawl_loop_all_allowed; vm_compute; reflexivity. Defined.
