(* ===== verification/RunSource.v ===== *)
(** * RunSource: [cli.py:run_source]

    [run_source(source, country, max_pages, write_raw=..., metrics_port=...)]
    configures logging, starts the metrics server when a port is given,
    looks the source up in the YAML catalog, and crawls the first
    [max_pages] of its base URLs as [crawl_once] does, numbering them from
    1; with [write_raw] it also stores each page, gzipped, under
    [raw/{source}/{country}/dt={today}/page-{idx:06d}.html.gz].

    The loop reuses the primitive steps of [Crawl] over the same
    [RobotsGate] and [FetchEngine] interfaces, lifted to a state that adds
    the object store of [Storage] and the metrics ports started.  The
    catalog is the value [yaml.safe_load] returned, already reduced to
    [data.get("sources", [])]; whether PyYAML is installed and whether the
    config file exists are inputs.  The frame lemmas of [Crawl] lift to
    this state through [lift_crawl]; [run_source_polite] shows that no
    path of [run_source], the error paths included, fetches a URL the gate
    did not allow. *)

From S2P Require Import Prelude PyStr UrlLib Dedup RobotParser Robots Fetch Article Ops Storage Crawl.
From stdpp Require Import pretty.
From Stdlib Require Import Ascii.
Local Open Scope nat_scope.

(** One entry of [sources:] in [config/sources.yaml]; a field is [None]
    when it is missing (or, for the strings, not a string). *)
Record catalog_entry := CatalogEntry {
  ce_name : option string;
  ce_country : option string;
  ce_language : option string;
  ce_base_urls : list string        (** [entry.get("base_urls", [])] *)
}.

(** The exceptions of [run_source]'s loop. *)
Inductive run_exn :=
  | RunCrawl (e : py_exn)
  | RunStorage (e : storage_error)
  | RunUnicodeEncodeError.

Record run_state (G W : Type) := RState {
  rs_crawl : crawl_state G W;
  rs_store : store;
  rs_metrics_ports : list Z          (** [start_metrics_server(port)] calls *)
}.
Arguments RState {G W} _ _ _.
Arguments rs_crawl {G W} _.
Arguments rs_store {G W} _.
Arguments rs_metrics_ports {G W} _.

(** The bytes of a [str] held as its UTF-8 encoding. *)
Fixpoint str_bytes (s : string) : list Z :=
  match s with EmptyString => [] | String c s' => Z.of_nat (nat_of_ascii c) :: str_bytes s' end.

(** [r.text.encode("utf-8")]: the bytes of the text, or
    [UnicodeEncodeError] on a lone surrogate. *)
Definition encode_utf8_strict (s : string) : option (list Z) :=
  let b := str_bytes s in
  if bool_decide (encode_utf8_ignore s = b) then Some b else None.

(** [f"raw/{source}/{country}/dt={today:%Y-%m-%d}/page-{idx:06d}.html.gz"] *)
Definition raw_key (source country : string) (today : date) (idx : nat) : string :=
  "raw/" +:+ source +:+ "/" +:+ country +:+ "/dt=" +:+ format_ymd today +:+ "/page-" +:+
  py_format_zpad 6 idx +:+ ".html.gz".

(** [next((s for s in sources if s.get("name") == source and
    s.get("country") == country), None)] *)
Definition find_entry (sources : list catalog_entry) (source country : string) : option catalog_entry :=
  find (λ s, bool_decide (ce_name s = Some source ∧ ce_country s = Some country)) sources.

Section Run.
Context {G W : Type} `{RobotsGate G} `{FetchEngine W}.
Variable http_url_validate : string → option string.
Variable readability : option (string → option parsed).
Variable env_log_level : option string.
Variable cfg : s3_config.
Variable boto3_available : bool.
Variable gzip_compress : list Z → list Z.

Notation R := (st_exc (run_state G W) run_exn).

(** A step of [Crawl] on the crawl part of the state. *)
Definition lift_crawl {A} (m : st_exc (crawl_state G W) py_exn A) : R A :=
  λ rs, let '(r, st') := m (rs_crawl rs) in
        (match r with Ok a => Ok a | Raise e => Raise (RunCrawl e) end,
         RState st' (rs_store rs) (rs_metrics_ports rs)).

(** [put_gz] on the store part of the state. *)
Definition lift_put_gz (key : string) (data : list Z) (meta : list (string * string)) : R unit :=
  λ rs, let '(r, s') := put_gz cfg boto3_available gzip_compress key data DEFAULT_CONTENT_TYPE (Some meta)
                          (rs_store rs) in
        (match r with Ok a => Ok a | Raise e => Raise (RunStorage e) end,
         RState (rs_crawl rs) s' (rs_metrics_ports rs)).

Definition lift_encode (s : string) : R (list Z) :=
  st_lift (match encode_utf8_strict s with Some b => Ok b | None => Raise RunUnicodeEncodeError end).

(** [start_metrics_server(port)]: its exceptions are swallowed. *)
Definition start_metrics_server (port : Z) : R unit :=
  st_modify (λ rs, RState (rs_crawl rs) (rs_store rs) (rs_metrics_ports rs ++ [port])).

Definition log_error_extra (msg text : string) : R unit :=
  lift_crawl (on_log ERROR msg [("message", text)] false).

(** The [if write_raw:] block, with its own [try]. *)
Definition write_raw_page (source country : string) (today : date) (idx : nat) (r : response) : R unit :=
  (TRY (let key := raw_key source country today idx in
        data ← lift_encode (resp_text r);
        let meta := [("content_hash", content_hash (resp_text r)); ("status", pretty (status_code r));
                     ("source", source); ("country", country)] in
        lift_put_gz key data meta;;
        data' ← lift_encode (resp_text r);
        lift_crawl (on_inc bytes_written_total ["raw"; source; country] (length data'));;
        lift_crawl (on_log INFO "raw_written" [("message", key)] false))
   EXCEPT (λ _, lift_crawl (on_log ERROR "raw_write_failed" [] true)))%py.

(** The body of [for idx, url in enumerate(base_urls, start=1)]. *)
Definition run_source_url (c : client) (source country : string) (language : option string)
    (write_raw : bool) (today : date) (idx : nat) (url : string) : R unit :=
  ok ← lift_crawl (on_gate url CLI_AGENT);
  if negb ok then lift_crawl (on_log WARNING "robots_disallow" (disallowed_message url) false)
  else
    (TRY (r ← lift_crawl (on_fetch c url);
          art ← lift_crawl (on_article http_url_validate readability url (resp_text r)
                              (Some country) language (Some source));
          lift_crawl (on_inc crawled_pages_total [source; country] 1);;
          lift_crawl (on_log INFO "fetched_parsed"
                        [("message", url +:+ " title=" +:+ py_repr_opt (a_title art))] false);;
          if write_raw then write_raw_page source country today idx r else mret ())
     EXCEPT (λ _, lift_crawl (on_inc fetch_errors_total [source; country] 1);;
                  lift_crawl (on_log ERROR "run_error" [] true)))%py.

Fixpoint run_loop (c : client) (source country : string) (language : option string)
    (write_raw : bool) (today : date) (idx : nat) (urls : list string) : R unit :=
  match urls with
  | [] => mret ()
  | u :: us => run_source_url c source country language write_raw today idx u;;
               run_loop c source country language write_raw today (S idx) us
  end.

(** [run_source(source, country, max_pages, write_raw=..., metrics_port=...)];
    [yaml_available] is [yaml is not None], [config_exists] is
    [config_path.exists()] for the resolved [config_path], [sources] is the
    catalog's list of sources and [today] is [datetime.utcnow().date()]. *)
Definition run_source (yaml_available : bool) (config_path : string) (config_exists : bool)
    (sources : list catalog_entry)
    (today : date) (source country : string) (max_pages : Z) (write_raw : bool)
    (metrics_port : option Z) : R unit :=
  lift_crawl (on_configure env_log_level None);;
  (match metrics_port with
   | Some p => if bool_decide (p ≠ 0%Z) then start_metrics_server p else mret ()
   | None => mret ()
   end);;
  if negb yaml_available then
    log_error_extra "yaml_missing" "PyYAML is required for 'run' mode. Install pyyaml."
  else if negb config_exists then
    log_error_extra "config_missing" ("Sources config not found at " +:+ config_path)
  else
    match find_entry sources source country with
    | None => log_error_extra "source_not_found"
                ("No source '" +:+ source +:+ "' for country '" +:+ country +:+ "' in catalog.")
    | Some entry =>
        run_loop http_client source country (ce_language entry) write_raw today 1
                 (py_take max_pages (ce_base_urls entry))
    end.

End Run.

(** ** Step lemmas *)

Section RunSteps.
Context {G W : Type} `{RobotsGate G} `{FetchEngine W}.
Variable cfg : s3_config.
Variable boto3_available : bool.
Variable gzip_compress : list Z → list Z.
Variable http_url_validate : string → option string.
Variable readability : option (string → option parsed).

(** The two outcome counters of a source, summed. *)
Definition run_outcomes (source country : string) (m : metrics) : nat :=
  counter_value crawled_pages_total [source; country] m + counter_value fetch_errors_total [source; country] m.

(** Above WARNING the [write_raw] block never raises: a failed encode or
    put is caught by its own handler. *)
Lemma write_raw_page_quiet source country today idx r (rs : run_state G W) :
  (WARNING < ls_level (cs_log (rs_crawl rs)))%Z →
  ∃ rs', write_raw_page cfg boto3_available gzip_compress source country today idx r rs = (Ok (), rs') ∧
    cs_gate (rs_crawl rs') = cs_gate (rs_crawl rs) ∧ cs_world (rs_crawl rs') = cs_world (rs_crawl rs) ∧
    ls_level (cs_log (rs_crawl rs')) = ls_level (cs_log (rs_crawl rs)) ∧
    run_outcomes source country (cs_metrics (rs_crawl rs')) = run_outcomes source country (cs_metrics (rs_crawl rs)).
Proof.
  intros Hl. unfold write_raw_page, st_try, mbind, st_exc_bind, lift_encode, st_lift, lift_put_gz, lift_crawl.
  destruct (encode_utf8_strict (resp_text r)) as [b|] eqn:He; simpl.
  - unfold put_gz, make_client. destruct boto3_available; simpl.
    + rewrite on_log_disabled by (simpl; unfold INFO, WARNING in *; lia). simpl.
      eexists. split; [done|]. simpl. repeat split.
      unfold run_outcomes. rewrite !counter_value_inc_other by discriminate. try reflexivity.
    + except_branch. simpl. eexists. split; [done|]. simpl in *. repeat split; try congruence.
      all: unfold run_outcomes; congruence.
  - except_branch. simpl. eexists. split; [done|]. simpl in *. repeat split; try congruence.
    all: unfold run_outcomes; congruence.
Qed.

Lemma run_source_url_quiet c source country language wr today idx url (rs : run_state G W) b g1 :
  (WARNING < ls_level (cs_log (rs_crawl rs)))%Z →
  gate_allowed url CLI_AGENT (cs_gate (rs_crawl rs)) = Ok (b, g1) →
  ∃ rs', run_source_url http_url_validate readability cfg boto3_available gzip_compress
           c source country language wr today idx url rs = (Ok (), rs') ∧
    cs_gate (rs_crawl rs') = g1 ∧
    cs_world (rs_crawl rs') = (if b then (engine_fetch c url (cs_world (rs_crawl rs))).2 else cs_world (rs_crawl rs)) ∧
    ls_level (cs_log (rs_crawl rs')) = ls_level (cs_log (rs_crawl rs)) ∧
    run_outcomes source country (cs_metrics (rs_crawl rs')) =
      run_outcomes source country (cs_metrics (rs_crawl rs)) + (if b then 1 else 0).
Proof.
  intros Hl Hg. unfold run_source_url, mbind, st_exc_bind, lift_crawl at 1, on_gate. rewrite Hg. simpl.
  destruct b; simpl.
  - unfold st_try, lift_crawl, on_fetch. simpl.
    destruct (engine_fetch c url (cs_world (rs_crawl rs))) as [[r|e] w'] eqn:Hf; simpl.
    + unfold on_article, st_lift. simpl.
      destruct (to_article http_url_validate readability url (resp_text r) (Some country) language (Some source))
        as [a|e] eqn:Ha; simpl.
      * rewrite on_log_disabled by (simpl; unfold INFO, WARNING in *; lia). simpl.
        destruct wr.
        -- match goal with
           | |- context [write_raw_page cfg boto3_available gzip_compress source country today idx r ?s] =>
               destruct (write_raw_page_quiet source country today idx r s) as (rs' & -> & Hg' & Hw' & Hl' & Ho');
                 [exact Hl|]
           end.
           eexists. split; [done|]. simpl in *. rewrite Hg', Hw', Hl', Ho'. repeat split.
           unfold run_outcomes. rewrite counter_value_inc_same, counter_value_inc_other by discriminate. lia.
        -- eexists. split; [done|]. simpl. repeat split.
           unfold run_outcomes. rewrite counter_value_inc_same, counter_value_inc_other by discriminate. lia.
      * except_branch. eexists. split; [done|]. simpl in *. repeat split; try congruence.
        unfold run_outcomes in *. match goal with Hm : cs_metrics _ = _ |- _ => rewrite Hm end.
        rewrite counter_value_inc_same, counter_value_inc_other by discriminate. lia.
    + except_branch. eexists. split; [done|]. simpl in *. repeat split; try congruence.
      unfold run_outcomes in *. match goal with Hm : cs_metrics _ = _ |- _ => rewrite Hm end.
      rewrite counter_value_inc_same, counter_value_inc_other by discriminate. lia.
  - unfold lift_crawl. rewrite on_log_disabled by (simpl; unfold WARNING in *; lia). simpl.
    eexists. split; [done|]. simpl. repeat split. lia.
Qed.
End RunSteps.

(** ** Frames: what an iteration of [run_source] does to the gate and the network *)

Section RunPoliteness.
Context {G W : Type} `{RobotsGate G} `{FetchEngine W}.
Variable cfg : s3_config.
Variable boto3_available : bool.
Variable gzip_compress : list Z → list Z.
Variable http_url_validate : string → option string.
Variable readability : option (string → option parsed).

Definition rgw (rs : run_state G W) : G * W := gw (rs_crawl rs).

Lemma lift_crawl_frame {A} (m : st_exc (crawl_state G W) py_exn A) : st_frame gw m → st_frame rgw (lift_crawl m).
Proof. intros Hm rs. unfold lift_crawl, rgw. specialize (Hm (rs_crawl rs)). by destruct (m (rs_crawl rs)). Qed.

Lemma lift_put_gz_frame key data meta : st_frame rgw (lift_put_gz (G:=G) (W:=W) cfg boto3_available gzip_compress key data meta).
Proof. intros rs. unfold lift_put_gz. by destruct (put_gz _ _ _ _ _ _ _ _). Qed.

Lemma lift_encode_frame t : st_frame rgw (lift_encode (G:=G) (W:=W) t).
Proof. apply st_frame_lift. Qed.

Lemma start_metrics_server_frame p : st_frame rgw (start_metrics_server (G:=G) (W:=W) p).
Proof. by apply st_frame_modify. Qed.

Lemma log_error_extra_frame msg text : st_frame rgw (log_error_extra (G:=G) (W:=W) msg text).
Proof. apply lift_crawl_frame, on_log_frame. Qed.

#[local] Hint Resolve lift_crawl_frame lift_put_gz_frame lift_encode_frame start_metrics_server_frame
  on_log_frame on_inc_frame on_configure_frame on_article_frame : volector.

Lemma write_raw_page_frame source country today idx r :
  st_frame rgw (write_raw_page (G:=G) (W:=W) cfg boto3_available gzip_compress source country today idx r).
Proof. unfold write_raw_page. cbv zeta. auto 8 with volector. Qed.

#[local] Hint Resolve write_raw_page_frame : volector.

(** One iteration of [run_source]'s loop, at any log level and whatever it
    raises (the [write_raw] block included), acts on the gate and the
    network as [polite_effects] on its URL. *)
Lemma run_source_url_effects c source country language wr today idx u (rs : run_state G W) :
  rgw (run_source_url http_url_validate readability cfg boto3_available gzip_compress
         c source country language wr today idx u rs).2 =
    polite_effects c [u] (cs_gate (rs_crawl rs)) (cs_world (rs_crawl rs)).
Proof.
  simpl. unfold run_source_url.
  destruct (gate_allowed u CLI_AGENT (cs_gate (rs_crawl rs))) as [[b g1]|e] eqn:Hg.
  - rewrite (st_bind_ok _ _ rs b (RState (with_gate g1 (rs_crawl rs)) (rs_store rs) (rs_metrics_ports rs)))
      by (unfold lift_crawl, on_gate; by rewrite Hg).
    destruct b; cbn -[lift_crawl on_fetch on_article on_inc on_log st_try write_raw_page].
    + rewrite st_try_frame_r by (intros; auto with volector).
      rewrite st_bind_frame_r by (intros; destruct wr; auto 6 with volector).
      unfold lift_crawl at 1, on_fetch. by destruct (engine_fetch c u _).
    + by rewrite (lift_crawl_frame _ (on_log_frame _ _ _ _)).
  - rewrite (st_bind_raise _ _ rs (RunCrawl (ExnURL e)) rs) by (unfold lift_crawl, on_gate; rewrite Hg; by destruct rs).
    done.
Qed.

Lemma run_source_url_answered c source country language wr today idx u (rs rs' : run_state G W) :
  run_source_url http_url_validate readability cfg boto3_available gzip_compress
    c source country language wr today idx u rs = (Ok (), rs') →
  ∃ a, gate_allowed u CLI_AGENT (cs_gate (rs_crawl rs)) = Ok a.
Proof.
  intros E. destruct (gate_allowed u CLI_AGENT (cs_gate (rs_crawl rs))) as [a|e] eqn:Hg; [by eexists|].
  unfold run_source_url in E.
  rewrite (st_bind_raise _ _ rs (RunCrawl (ExnURL e)) rs) in E by (unfold lift_crawl, on_gate; rewrite Hg; by destruct rs).
  discriminate.
Qed.

(** The loop of [run_source], at any log level. *)
Lemma run_loop_polite c source country language wr today idx urls (rs : run_state G W) :
  ∃ n, n ≤ length urls ∧
    ((run_loop http_url_validate readability cfg boto3_available gzip_compress
        c source country language wr today idx urls rs).1 = Ok () → n = length urls) ∧
    rgw (run_loop http_url_validate readability cfg boto3_available gzip_compress
           c source country language wr today idx urls rs).2 =
      polite_effects c (take n urls) (rgw rs).1 (rgw rs).2.
Proof.
  apply (polite_loop rgw c
           (run_source_url http_url_validate readability cfg boto3_available gzip_compress c source country language wr today)
           (run_loop http_url_validate readability cfg boto3_available gzip_compress c source country language wr today)
           (λ _ _, eq_refl) (λ _ _ _, eq_refl)
           (run_source_url_effects c source country language wr today)
           (run_source_url_answered c source country language wr today)).
Qed.

End RunPoliteness.

(** ** Properties *)

(** [base_urls[:max_pages]] of the catalog entry [run_source] finds, if
    any: the URLs it may crawl. *)
Definition run_urls (sources : list catalog_entry) (source country : string) (max_pages : Z) : list string :=
  match find_entry sources source country with Some e => py_take max_pages (ce_base_urls e) | None => [] end.

Section RunProperties.
Context {G W : Type} `{RobotsGate G} `{FetchEngine W}.
Variable http_url_validate : string → option string.
Variable readability : option (string → option parsed).
Variable cfg : s3_config.
Variable boto3_available : bool.
Variable gzip_compress : list Z → list Z.

Lemma run_loop_quiet c source country language wr today idx urls (rs : run_state G W) al g' :
  (WARNING < ls_level (cs_log (rs_crawl rs)))%Z →
  gate_run CLI_AGENT urls (cs_gate (rs_crawl rs)) = Ok (al, g') →
  ∃ rs', run_loop http_url_validate readability cfg boto3_available gzip_compress
           c source country language wr today idx urls rs = (Ok (), rs') ∧
    cs_gate (rs_crawl rs') = g' ∧ cs_world (rs_crawl rs') = engine_run c al (cs_world (rs_crawl rs)) ∧
    ls_level (cs_log (rs_crawl rs')) = ls_level (cs_log (rs_crawl rs)) ∧
    run_outcomes source country (cs_metrics (rs_crawl rs')) =
      run_outcomes source country (cs_metrics (rs_crawl rs)) + length al.
Proof.
  revert idx rs al. induction urls as [|u us IH]; intros idx rs al Hl Hrun; simpl in Hrun.
  - inv_clear Hrun. exists rs. simpl. repeat split. lia.
  - destruct (gate_allowed u CLI_AGENT (cs_gate (rs_crawl rs))) as [[b g1]|e] eqn:Hg; [|done].
    destruct (gate_run CLI_AGENT us g1) as [[al' g'']|e] eqn:Hr; inv_clear Hrun.
    destruct (run_source_url_quiet cfg boto3_available gzip_compress http_url_validate readability
                c source country language wr today idx u rs b g1 Hl Hg) as (rs1 & Hst1 & Hg1 & Hw1 & Hl1 & Ho1).
    simpl run_loop. unfold mbind at 1, st_exc_bind at 1. rewrite Hst1.
    destruct (IH (S idx) rs1 al' ltac:(lia) ltac:(by rewrite Hg1)) as (rs' & Hst' & ? & Hw' & ? & Ho').
    exists rs'. split; [done|]. rewrite Hw', Hw1. repeat split; try congruence.
    + by destruct b.
    + rewrite Ho', Ho1. destruct b; simpl; lia.
Qed.
(** C13. At a log level above WARNING, [run_source] on a catalog entry
    crawls exactly [base_urls[:max_pages]]: the gate runs over that slice
    and the engine over the URLs it allows, each counted once as crawled
    or error for the source and country.  A negative [max_pages] drops
    that many URLs from the end. *)
Theorem run_source_quiet env n path sources today source country max_pages wr port (rs : run_state G W) entry al g' :
  name_to_level (default "INFO" env) = Some n → (WARNING < n)%Z →
  find_entry sources source country = Some entry →
  gate_run CLI_AGENT (py_take max_pages (ce_base_urls entry)) (cs_gate (rs_crawl rs)) = Ok (al, g') →
  ∃ rs', run_source http_url_validate readability env cfg boto3_available gzip_compress
           true path true sources today source country max_pages wr port rs = (Ok (), rs') ∧
    cs_gate (rs_crawl rs') = g' ∧ cs_world (rs_crawl rs') = engine_run http_client al (cs_world (rs_crawl rs)) ∧
    run_outcomes source country (cs_metrics (rs_crawl rs')) =
      run_outcomes source country (cs_metrics (rs_crawl rs)) + length al.
Proof.
  intros Hn Hw He Hrun. unfold run_source, mbind at 1, st_exc_bind at 1, lift_crawl at 1, on_configure.
  rewrite (configure_logging_env None env _ n Hn). simpl.
  set (rs1 := RState _ _ _).
  assert (∃ rs2, (match port with
                  | Some p => if bool_decide (p ≠ 0%Z) then start_metrics_server p else mret ()
                  | None => mret () end) rs1 = (Ok (), rs2) ∧ rs_crawl rs2 = rs_crawl rs1) as (rs2 & Hp & Hc2).
  { destruct port as [p|]; [case_bool_decide|]; eexists; split; reflexivity. }
  unfold mbind at 1, st_exc_bind at 1. rewrite Hp. simpl. rewrite He.
  destruct (run_loop_quiet http_client
              source country (ce_language entry) wr today 1 (py_take max_pages (ce_base_urls entry)) rs2 al g') as (rs' & Hl & ? & Hw' & _ & Ho).
  - rewrite Hc2. simpl. lia.
  - by rewrite Hc2.
  - exists rs'. rewrite Hw', Ho, Hc2. by split.
Qed.

(** A run that stopped before the loop asked the gate about nothing. *)
Ltac stop_prefix :=
  exists 0; split; [lia|]; split; [intros; first [discriminate | done]|];
  cbn [take polite_effects snd]; apply surjective_pairing.

(** C7. Politeness of [run_source], at every log level and whatever it
    raises (setup errors, logging errors, storage errors of [--write-raw]
    included): its only effects on the gate and on the network are those
    of asking the gate about a prefix of [base_urls[:max_pages]], in
    order, and fetching exactly the URLs the gate allowed among them, once
    each; with PyYAML and the config file present, a normal return means
    the whole slice was asked about. *)
Theorem run_source_polite env yaml path cfg_exists sources today source country max_pages wr port
    (rs : run_state G W) :
  ∃ n, n ≤ length (run_urls sources source country max_pages) ∧
    (yaml = true → cfg_exists = true →
     (run_source http_url_validate readability env cfg boto3_available gzip_compress
        yaml path cfg_exists sources today source country max_pages wr port rs).1 = Ok () →
     n = length (run_urls sources source country max_pages)) ∧
    rgw (run_source http_url_validate readability env cfg boto3_available gzip_compress
           yaml path cfg_exists sources today source country max_pages wr port rs).2 =
      polite_effects http_client (take n (run_urls sources source country max_pages))
        (cs_gate (rs_crawl rs)) (cs_world (rs_crawl rs)).
Proof.
  unfold run_source, run_urls.
  change (cs_gate (rs_crawl rs)) with (rgw rs).1. change (cs_world (rs_crawl rs)) with (rgw rs).2.
  pose proof (lift_crawl_frame _ (on_configure_frame env None) rs) as Hf0.
  destruct (lift_crawl (on_configure env None) rs) as [[[]|e] rs1] eqn:E0; cbn [snd] in Hf0; rewrite <- Hf0;
    [rewrite (st_bind_ok _ _ _ _ _ E0)|rewrite (st_bind_raise _ _ _ _ _ E0); stop_prefix].
  set (mp := match port with Some p => _ | None => _ end).
  assert (Hmp : st_frame rgw mp) by (subst mp; destruct port; [case_bool_decide|];
                                      auto using start_metrics_server_frame, st_frame_ret).
  pose proof (Hmp rs1) as Hf1.
  destruct (mp rs1) as [[[]|e] rs2] eqn:E1; cbn [snd] in Hf1; rewrite <- Hf1;
    [rewrite (st_bind_ok _ _ _ _ _ E1)|rewrite (st_bind_raise _ _ _ _ _ E1); stop_prefix].
  destruct yaml; [destruct cfg_exists|]; cbn [negb];
    [destruct (find_entry sources source country) as [entry|]|..];
    try (rewrite log_error_extra_frame; stop_prefix).
  destruct (run_loop_polite cfg boto3_available gzip_compress http_url_validate readability http_client
              source country (ce_language entry) wr today 1 (py_take max_pages (ce_base_urls entry)) rs2)
    as (n & Hn & Hok & Heq).
  exists n. auto.
Qed.

Lemma log_error_extra_raises msg text (rs : run_state G W) :
  (ls_level (cs_log (rs_crawl rs)) ≤ ERROR)%Z →
  ∃ m, log_error_extra msg text rs = (Raise (RunCrawl (ExnLog (KeyError m))), rs).
Proof.
  intros Hl. unfold log_error_extra, lift_crawl.
  destruct (on_log_message_raises (G:=G) (W:=W) ERROR msg [("message", text)] text (rs_crawl rs)) as [m ->];
    [done|by left|].
  exists m. by destruct rs.
Qed.

(** C11. When ERROR is enabled, [run_source] without PyYAML, without its
    config file, or with a source missing from the catalog raises
    [KeyError] from [log.error(..., extra={"message": ...})] instead of
    logging and returning; no URL is visited. *)
Theorem run_source_setup_error_raises env n yaml path cfg_exists sources today source country max_pages wr port
    (rs : run_state G W) :
  name_to_level (default "INFO" env) = Some n → (n ≤ ERROR)%Z →
  yaml = false ∨ cfg_exists = false ∨ find_entry sources source country = None →
  ∃ m rs', run_source http_url_validate readability env cfg boto3_available gzip_compress
             yaml path cfg_exists sources today source country max_pages wr port rs =
           (Raise (RunCrawl (ExnLog (KeyError m))), rs') ∧
    cs_gate (rs_crawl rs') = cs_gate (rs_crawl rs) ∧ cs_world (rs_crawl rs') = cs_world (rs_crawl rs).
Proof.
  intros Hn Hle Hcase. unfold run_source, mbind at 1, st_exc_bind at 1, lift_crawl at 1, on_configure.
  rewrite (configure_logging_env None env _ n Hn). simpl.
  set (rs1 := RState _ _ _).
  assert (∃ rs2, (match port with
                  | Some p => if bool_decide (p ≠ 0%Z) then start_metrics_server p else mret ()
                  | None => mret () end) rs1 = (Ok (), rs2) ∧ rs_crawl rs2 = rs_crawl rs1) as (rs2 & Hp & Hc2).
  { destruct port as [p|]; [case_bool_decide|]; eexists; split; reflexivity. }
  unfold mbind at 1, st_exc_bind at 1. rewrite Hp.
  assert (Hl2 : (ls_level (cs_log (rs_crawl rs2)) ≤ ERROR)%Z) by (rewrite Hc2; exact Hle).
  destruct yaml; [destruct cfg_exists; [destruct (find_entry sources source country) eqn:He|]|]; simpl;
    try (destruct Hcase as [?|[?|?]]; congruence);
    match goal with
    | |- context [log_error_extra ?msg ?text rs2] =>
        destruct (log_error_extra_raises msg text rs2 Hl2) as [m ->]; exists m, rs2; by rewrite Hc2
    end.
Qed.

(** Raw-page keys of one run are distinct: [page-{idx:06d}] determines
    the page index. *)
Theorem raw_key_inj source country today i j :
  raw_key source country today i = raw_key source country today j → i = j.
Proof.
  unfold raw_key. intros Hk.
  repeat (apply str_app_inv_l in Hk).
  apply str_app_inv_r in Hk. by apply py_format_zpad_inj in Hk.
Qed.

(** With boto3 available and INFO disabled, the [write_raw] block
    stores the gzipped UTF-8 bytes of the page under
    [raw/{source}/{country}/dt={today}/page-{idx:06d}.html.gz] with the
    fingerprint, status, source and country as metadata, and adds their
    length to [bytes_written_total]. *)
Theorem write_raw_page_stores source country today idx r (rs : run_state G W) b :
  (WARNING < ls_level (cs_log (rs_crawl rs)))%Z →
  encode_utf8_strict (resp_text r) = Some b →
  ∃ rs', write_raw_page cfg true gzip_compress source country today idx r rs = (Ok (), rs') ∧
    st_objects (rs_store rs') !! (bucket cfg, raw_key source country today idx) =
      Some (S3Object (gzip_compress b) "gzip" DEFAULT_CONTENT_TYPE
              [("content_hash", content_hash (resp_text r)); ("status", pretty (status_code r));
               ("source", source); ("country", country)]) ∧
    counter_value bytes_written_total ["raw"; source; country] (cs_metrics (rs_crawl rs')) =
      counter_value bytes_written_total ["raw"; source; country] (cs_metrics (rs_crawl rs)) + length b.
Proof.
  intros Hl He. unfold write_raw_page, st_try, mbind, st_exc_bind, lift_encode, st_lift, lift_put_gz, lift_crawl.
  rewrite He. simpl. rewrite on_log_disabled by (simpl; unfold INFO, WARNING in *; lia). simpl.
  eexists. split; [done|]. simpl. split; [by rewrite lookup_insert_eq|]. apply counter_value_inc_same.
Qed.

(** C12. When INFO is enabled, [--write-raw] writes nothing: the
    [log.info("fetched_parsed", extra={"message": ...})] before the write
    raises [KeyError], so the page is counted both as crawled and as an
    error and the store is untouched. *)
Theorem run_source_url_info_no_raw c source country language today idx url (rs : run_state G W) g1 r w' a :
  (ls_level (cs_log (rs_crawl rs)) ≤ INFO)%Z →
  gate_allowed url CLI_AGENT (cs_gate (rs_crawl rs)) = Ok (true, g1) →
  engine_fetch c url (cs_world (rs_crawl rs)) = (Ok r, w') →
  to_article http_url_validate readability url (resp_text r) (Some country) language (Some source) = Ok a →
  ∃ rs', run_source_url http_url_validate readability cfg boto3_available gzip_compress
           c source country language true today idx url rs = (Ok (), rs') ∧
    rs_store rs' = rs_store rs ∧
    counter_value crawled_pages_total [source; country] (cs_metrics (rs_crawl rs')) =
      counter_value crawled_pages_total [source; country] (cs_metrics (rs_crawl rs)) + 1 ∧
    counter_value fetch_errors_total [source; country] (cs_metrics (rs_crawl rs')) =
      counter_value fetch_errors_total [source; country] (cs_metrics (rs_crawl rs)) + 1.
Proof.
  intros Hl Hg Hf Ha. unfold run_source_url, mbind, st_exc_bind, lift_crawl, on_gate, st_try, on_fetch.
  rewrite Hg. simpl. rewrite Hf. simpl. unfold on_article, st_lift. rewrite Ha. simpl.
  match goal with
  | |- context [on_log INFO "fetched_parsed" [("message", ?v)] false ?s] =>
      destruct (on_log_message_raises INFO "fetched_parsed" [("message", v)] v s) as [m ->];
        [simpl; lia|by left|]
  end.
  simpl. except_branch. eexists. split; [done|]. simpl in *.
  match goal with Hm : cs_metrics _ = _ |- _ => rewrite Hm end.
  split; [done|].
  rewrite counter_value_inc_same, counter_value_inc_other, counter_value_inc_same by discriminate.
  rewrite counter_value_inc_other by discriminate. lia.
Qed.
End RunProperties.

(** ** Witnesses

    The production gate and engine over the oracles of [Crawl]'s
    witnesses: robots.txt disallows [/private], every page is titled [X]. *)

#[local] Instance run_demo_gate : RobotsGate gate_state := robots_gate (env:=ascii_url_env) demo_net demo_clock.
#[local] Instance run_demo_engine : FetchEngine world := fetch_engine demo_transport Fetch.half.

Definition demo_catalog : list catalog_entry :=
  [CatalogEntry (Some "news") (Some "MZ") (Some "pt")
     ["https://example.com/a"; "https://example.com/private/b"; "https://example.com/c"]].

Definition demo_run_state (level : Z) : run_state gate_state world := RState (demo_state level) empty_store [].

Definition demo_cfg : s3_config := s3_config_of_env (λ _, None).

Definition demo_today : date := Date 2024 1 5.

(** [max_pages = -1] keeps the first two of the three base URLs; the gate
    allows the first. *)
Lemma run_source_quiet_witness :
  ∃ rs', run_source Some None (Some "ERROR") demo_cfg true id true "/app/config/sources.yaml" true
           demo_catalog demo_today "news" "MZ" (-1) true None (demo_run_state WARNING) = (Ok (), rs') ∧
    cs_gate (rs_crawl rs') = demo_gate_after ∧
    cs_world (rs_crawl rs') = engine_run http_client ["https://example.com/a"]
                                (cs_world (rs_crawl (demo_run_state WARNING))) ∧
    run_outcomes "news" "MZ" (cs_metrics (rs_crawl rs')) =
      run_outcomes "news" "MZ" (cs_metrics (rs_crawl (demo_run_state WARNING))) +
      length ["https://example.com/a"].
Proof.
  eapply (run_source_quiet Some None demo_cfg true id (Some "ERROR") ERROR);
    [reflexivity | unfold WARNING, ERROR; lia | reflexivity | vm_compute; reflexivity].
Defined.

Lemma run_source_setup_error_raises_witness :
  ∃ m rs', run_source Some None None demo_cfg true id true "/app/config/sources.yaml" false
             demo_catalog demo_today "news" "MZ" 50 false None (demo_run_state WARNING) =
           (Raise (RunCrawl (ExnLog (KeyError m))), rs') ∧
    cs_gate (rs_crawl rs') = cs_gate (rs_crawl (demo_run_state WARNING)) ∧
    cs_world (rs_crawl rs') = cs_world (rs_crawl (demo_run_state WARNING)).
Proof.
  apply (run_source_setup_error_raises Some None demo_cfg true id None INFO); [reflexivity| |].
  - unfold INFO, ERROR. lia.
  - right. by left.
Defined.

Lemma raw_key_inj_witness :
  raw_key "news" "MZ" demo_today 7 = raw_key "news" "MZ" demo_today 7 ∧ 7 = 7.
Proof. split; [reflexivity|]. apply (raw_key_inj "news" "MZ" demo_today). reflexivity. Defined.

Lemma write_raw_page_stores_witness :
  ∃ rs', write_raw_page demo_cfg true id "news" "MZ" demo_today 1 (Resp 200 "<p>x</p>") (demo_run_state ERROR)
         = (Ok (), rs') ∧
    st_objects (rs_store rs') !! (bucket demo_cfg, raw_key "news" "MZ" demo_today 1) =
      Some (S3Object (id (str_bytes "<p>x</p>")) "gzip" DEFAULT_CONTENT_TYPE
              [("content_hash", content_hash "<p>x</p>"); ("status", pretty 200%Z);
               ("source", "news"); ("country", "MZ")]) ∧
    counter_value bytes_written_total ["raw"; "news"; "MZ"] (cs_metrics (rs_crawl rs')) =
      counter_value bytes_written_total ["raw"; "news"; "MZ"] (cs_metrics (rs_crawl (demo_run_state ERROR))) +
      length (str_bytes "<p>x</p>").
Proof. apply write_raw_page_stores; [vm_compute; reflexivity | reflexivity]. Defined.

Lemma run_source_url_info_no_raw_witness :
  ∃ rs', run_source_url Some None demo_cfg true id http_client "news" "MZ" (Some "pt") true demo_today 1
           "https://example.com/a" (demo_run_state INFO) = (Ok (), rs') ∧
    rs_store rs' = rs_store (demo_run_state INFO) ∧
    counter_value crawled_pages_total ["news"; "MZ"] (cs_metrics (rs_crawl rs')) =
      counter_value crawled_pages_total ["news"; "MZ"] (cs_metrics (rs_crawl (demo_run_state INFO))) + 1 ∧
    counter_value fetch_errors_total ["news"; "MZ"] (cs_metrics (rs_crawl rs')) =
      counter_value fetch_errors_total ["news"; "MZ"] (cs_metrics (rs_crawl (demo_run_state INFO))) + 1.
Proof.
  apply (run_source_url_info_no_raw Some None demo_cfg true id http_client "news" "MZ" (Some "pt") demo_today 1
           "https://example.com/a" (demo_run_state INFO) demo_gate_after (Resp 200 "<html><title>X</title></html>")
           (engine_fetch http_client "https://example.com/a" fresh_world).2
           (Article "https://example.com/a" (Some "X") None [] None "MZ" (Some "pt") "news" (content_hash "X
")));
    [simpl; lia | vm_compute; reflexivity..].
Defined.
