(* ===== verification/Cli.v ===== *)
(** * Cli: [cli.py:main] and the argument parser it builds

    [main()] builds an [argparse.ArgumentParser] with a required
    sub-command: [urls URL...] runs [crawl_once(urls)], and [run --source S
    --country C [--max-pages N] [--write-raw] [--metrics-port P]] runs
    [run_source(...)]; [parser.parse_args()] exits with status 2 on an
    error and 0 after printing help.

    The parser is modelled after CPython 3.11's [argparse]: the pre-pass
    that classifies each argument as an option ([_parse_optional], with
    exact names, [--opt=value], unique prefixes and single-dash
    concatenation, an ambiguous prefix being an error), as a negative
    number or other positional, or as the first [--]; the left-to-right
    consumption of options and positionals ([consume_optional],
    [consume_positionals]), which runs each action at once (help exits,
    [type=int] may fail); the required arguments and the unrecognized
    arguments checked at the end.  The sub-command is a positional with
    [nargs=PARSER]: it takes the rest of the command line and hands it to
    the sub-parser.  The help and error messages printed are not
    modelled, only the exit status.  None of the three parsers has an
    option that looks like a negative number, so [-5] is always a
    positional. *)

From S2P Require Import Prelude PyStr UrlLib Dedup RobotParser Robots Fetch Article Ops Storage Crawl RunSource.
From Stdlib Require Import Ascii.

(** ** Parsers *)

Inductive arg_action :=
  | ActHelp                          (** [-h], [--help] *)
  | ActStore (dest : string)         (** [nargs=None], a string *)
  | ActStoreInt (dest : string)      (** [type=int] *)
  | ActStoreTrue (dest : string).    (** [action="store_true"] *)

(** Options that take no argument ([nargs=0]). *)
Definition nargs0 (a : arg_action) : bool :=
  match a with ActHelp | ActStoreTrue _ => true | _ => false end.

(** A parser's option strings, in the order they were added. *)
Notation parser_options := (list (string * arg_action)).

(** The top-level parser and [urls]: only [add_help]'s options. *)
Definition HELP_OPTIONS : parser_options := [("-h", ActHelp); ("--help", ActHelp)].

(** [p_run] *)
Definition RUN_OPTIONS : parser_options :=
  HELP_OPTIONS ++ [("--source", ActStore "source"); ("--country", ActStore "country");
                   ("--max-pages", ActStoreInt "max_pages"); ("--write-raw", ActStoreTrue "write_raw");
                   ("--metrics-port", ActStoreInt "metrics_port")].

Definition opt_lookup (o : string) (opts : parser_options) : option arg_action :=
  snd <$> find (λ p, bool_decide (p.1 = o)) opts.

(** ** Classifying the arguments *)

(** [^-\d+$|^-\d*\.\d+$] after the [-], where [$] also matches before a
    final newline. *)
Definition negative_number_body (r : string) : bool :=
  py_isdigit r ||
  match py_split_once "."%char r with
  | Some (a, b) => str_forall is_digit_char a && py_isdigit b
  | None => false
  end.

Fixpoint drop_final_newline (s : string) : option string :=
  match s with
  | EmptyString => None
  | String c EmptyString => if Ascii.eqb c "010"%char then Some EmptyString else None
  | String c s' => String c <$> drop_final_newline s'
  end.

(** [_negative_number_matcher.match(arg_string)] *)
Definition looks_negative (s : string) : bool :=
  match s with
  | String c r =>
      Ascii.eqb c "-"%char &&
      (negative_number_body r ||
       match drop_final_newline r with Some r' => negative_number_body r' | None => false end)
  | EmptyString => false
  end.

(** [_get_option_tuples(option_string)] *)
Definition get_option_tuples (opts : parser_options) (s : string) : list (arg_action * string * option string) :=
  match s with
  | String c1 (String c2 rest) =>
      if Ascii.eqb c2 "-"%char then
        let '(prefix, explicit) := match py_split_once "="%char s with
                                   | Some (p, e) => (p, Some e)
                                   | None => (s, None)
                                   end in
        (λ p, (p.2, p.1, explicit)) <$> filter (λ p, String.prefix prefix p.1 = true) opts
      else
        let short := String c1 (String c2 EmptyString) in
        omap (λ p, if bool_decide (p.1 = short) then Some (p.2, p.1, Some rest)
                   else if String.prefix s p.1 then Some (p.2, p.1, None) else None) opts
  | _ => []
  end.

(** The class of an argument: a positional ['A'], the first [--] ['-'], an
    option of the parser ['O'], or an unknown option ['O' with no
    action]. *)
Inductive arg_class :=
  | ArgPos
  | ArgDashDash
  | ArgUnknown
  | ArgOpt (a : arg_action) (optstr : string) (explicit : option string).

(** [_parse_optional(arg_string)]; [None] is the ambiguous-option
    error. *)
Definition parse_optional (opts : parser_options) (s : string) : option arg_class :=
  match s with
  | EmptyString => Some ArgPos
  | String c r =>
      if negb (Ascii.eqb c "-"%char) then Some ArgPos else
      match opt_lookup s opts with
      | Some a => Some (ArgOpt a s None)
      | None =>
          if bool_decide (r = EmptyString) then Some ArgPos else
          match (match py_split_once "="%char s with
                 | Some (o, e) => (λ a, (a, o, e)) <$> opt_lookup o opts
                 | None => None
                 end) with
          | Some (a, o, e) => Some (ArgOpt a o (Some e))
          | None =>
              match get_option_tuples opts s with
              | [(a, o, e)] => Some (ArgOpt a o e)
              | _ :: _ :: _ => None
              | [] => if looks_negative s then Some ArgPos
                      else if str_has " "%char s then Some ArgPos
                      else Some ArgUnknown
              end
          end
      end
  end.

(** The pre-pass of [_parse_known_args]: everything after the first [--]
    is positional. *)
Fixpoint classify (opts : parser_options) (l : list string) : option (list (string * arg_class)) :=
  match l with
  | [] => Some []
  | s :: r =>
      if bool_decide (s = "--") then Some ((s, ArgDashDash) :: ((λ x, (x, ArgPos)) <$> r))
      else match parse_optional opts s with
           | None => None
           | Some k => (λ rest, (s, k) :: rest) <$> classify opts r
           end
  end.

(** ** Consuming an option *)

(** The actions one option argument triggers, each with its argument
    string, and whether it took the next argument as its value. *)
Inductive consumed :=
  | Consumed (acts : list (arg_action * option string)) (uses_next : bool)
  | ConsumeError.

Definition single_dash (o : string) : bool :=
  match o with String c1 (String c2 _) => Ascii.eqb c1 "-"%char && negb (Ascii.eqb c2 "-"%char) | _ => false end.

(** [consume_optional]: an explicit argument of a single-dash option with
    no argument is read as more single-dash options ([-hh]); [fuel] is the
    length of the explicit argument. *)
Fixpoint consume_optional (opts : parser_options) (fuel : nat) (a : arg_action) (o : string)
    (explicit : option string) (next : option (string * arg_class)) : consumed :=
  match explicit with
  | None =>
      if nargs0 a then Consumed [(a, None)] false
      else match next with
           | Some (s, ArgPos) => Consumed [(a, Some s)] true
           | _ => ConsumeError                              (** expected one argument *)
           end
  | Some e =>
      if nargs0 a then
        if single_dash o && negb (bool_decide (e = EmptyString)) then
          match fuel, e with
          | S f, String ch e' =>
              let o' := String "-"%char (String ch EmptyString) in
              match opt_lookup o' opts with
              | Some a' =>
                  match consume_optional opts f a' o' (if bool_decide (e' = EmptyString) then None else Some e')
                          next with
                  | Consumed acts u => Consumed ((a, None) :: acts) u
                  | ConsumeError => ConsumeError
                  end
              | None => ConsumeError                        (** ignored explicit argument *)
              end
          | _, _ => ConsumeError
          end
        else ConsumeError                                   (** ignored explicit argument *)
      else Consumed [(a, Some e)] false
  end.

Definition opt_fuel (e : option string) : nat := match e with Some s => String.length s | None => 0 end.

(** The values stored in the namespace. *)
Inductive arg_value :=
  | AStr (s : string)
  | AInt (z : Z)
  | ABool (b : bool)
  | AEmptyList.   (** the value of [--opt=--]: [_get_values] removes the [--] *)

Notation namespace := (list (string * arg_value)).

Inductive taken :=
  | TakenHelp
  | TakenError
  | TakenNs (ns : namespace).

(** [take_action]: [_get_values] (the [--] removed, [int] applied) and the
    action. *)
Definition take_action (a : arg_action) (arg : option string) (ns : namespace) : taken :=
  match a, arg with
  | ActHelp, _ => TakenHelp
  | ActStore d, Some s => TakenNs ((d, if bool_decide (s = "--") then AEmptyList else AStr s) :: ns)
  | ActStoreInt d, Some s =>
      if bool_decide (s = "--") then TakenNs ((d, AEmptyList) :: ns)
      else match py_int_of_str s with
           | Some z => TakenNs ((d, AInt z) :: ns)
           | None => TakenError                             (** invalid int value *)
           end
  | ActStoreTrue d, None => TakenNs ((d, ABool true) :: ns)
  | _, _ => TakenError
  end.

Fixpoint take_actions (acts : list (arg_action * option string)) (ns : namespace) : taken :=
  match acts with
  | [] => TakenNs ns
  | (a, v) :: r => match take_action a v ns with TakenNs ns' => take_actions r ns' | t => t end
  end.

Definition ns_get (d : string) (ns : namespace) : option arg_value :=
  snd <$> find (λ p, bool_decide (p.1 = d)) ns.

(** One option argument consumed and its actions taken: the exit status
    of help or of an error, or the namespace and whether the next argument
    was its value. *)
Inductive opt_step :=
  | OptExit (code : Z)
  | OptNext (ns : namespace) (used_next : bool).

Definition option_step (opts : parser_options) (a : arg_action) (o : string) (e : option string)
    (next : option (string * arg_class)) (ns : namespace) : opt_step :=
  match consume_optional opts (opt_fuel e) a o e next with
  | ConsumeError => OptExit 2
  | Consumed acts used =>
      match take_actions acts ns with
      | TakenHelp => OptExit 0
      | TakenError => OptExit 2
      | TakenNs ns' => OptNext ns' used
      end
  end.

(** ** The three parsers' loops *)

(** The top-level parser: options before the sub-command, then the
    sub-command positional ([nargs=PARSER]) takes the rest. *)
Inductive top_result :=
  | TopExit (code : Z)
  | TopCommand (cmd : string) (rest : list string) (extras : list string).

Fixpoint top_scan (toks : list (string * arg_class)) (extras : list string) : top_result :=
  match toks with
  | [] => TopExit 2                                   (** required: cmd *)
  | (s, ArgOpt a o e) :: r =>
      match option_step HELP_OPTIONS a o e (head r) [] with
      | OptExit c => TopExit c
      | OptNext _ used => match used, r with true, _ :: r' => top_scan r' extras | _, _ => top_scan r extras end
      end
  | (s, ArgUnknown) :: r => top_scan r (extras ++ [s])
  | (s, ArgPos) :: r => TopCommand s (fst <$> r) extras
  | (_, ArgDashDash) :: _ => TopExit 2                (** invalid choice [--], or cmd missing *)
  end.

(** The sub-parsers' result: the namespace, the [nargs="+"] positional's
    arguments if it matched, and the unrecognized arguments. *)
Inductive sub_result :=
  | SubExit (code : Z)
  | SubDone (ns : namespace) (pos : option (list string)) (extras : list string).

(** Where the [urls] positional stands: not matched yet, taking the run of
    arguments it matched, or matched. *)
Inductive urls_pos :=
  | UNone
  | UCollect (acc : list string)
  | UDone (urls : list string).

Definition urls_close (u : urls_pos) : urls_pos := match u with UCollect acc => UDone acc | _ => u end.

(** [-*A[A-]*] matches the run of non-option arguments starting here iff
    the run holds an ['A']. *)
Fixpoint run_has_pos (toks : list (string * arg_class)) : bool :=
  match toks with
  | (_, ArgPos) :: _ => true
  | (_, ArgDashDash) :: r => run_has_pos r
  | _ => false
  end.

(** [p_urls]: the positional [urls] with [nargs="+"] and the help options. *)
Fixpoint urls_scan (toks : list (string * arg_class)) (u : urls_pos) (extras : list string) : sub_result :=
  match toks with
  | [] => SubDone [] (match urls_close u with UDone l => Some l | _ => None end) extras
  | (s, ArgOpt a o e) :: r =>
      match option_step HELP_OPTIONS a o e (head r) [] with
      | OptExit c => SubExit c
      | OptNext _ used =>
          match used, r with
          | true, _ :: r' => urls_scan r' (urls_close u) extras
          | _, _ => urls_scan r (urls_close u) extras
          end
      end
  | (s, ArgUnknown) :: r => urls_scan r (urls_close u) (extras ++ [s])
  | (s, _) :: r =>
      match u with
      | UNone => if run_has_pos toks then urls_scan r (UCollect [s]) extras else urls_scan r UNone (extras ++ [s])
      | UCollect acc => urls_scan r (UCollect (acc ++ [s])) extras
      | UDone l => urls_scan r (UDone l) (extras ++ [s])
      end
  end.

(** [p_run]: options only; every other argument is unrecognized. *)
Fixpoint run_scan (toks : list (string * arg_class)) (ns : namespace) (extras : list string) : sub_result :=
  match toks with
  | [] => SubDone ns None extras
  | (s, ArgOpt a o e) :: r =>
      match option_step RUN_OPTIONS a o e (head r) ns with
      | OptExit c => SubExit c
      | OptNext ns' used =>
          match used, r with true, _ :: r' => run_scan r' ns' extras | _, _ => run_scan r ns' extras end
      end
  | (s, _) :: r => run_scan r ns (extras ++ [s])
  end.

(** [arg_strings.remove('--')] *)
Fixpoint remove_first_dashdash (l : list string) : list string :=
  match l with
  | [] => []
  | s :: r => if bool_decide (s = "--") then r else s :: remove_first_dashdash r
  end.

(** ** [parser.parse_args()] *)

Record run_args := RunArgs {
  ra_source : arg_value;
  ra_country : arg_value;
  ra_max_pages : arg_value;           (** [default=50] *)
  ra_write_raw : arg_value;           (** [default=False] *)
  ra_metrics_port : option arg_value  (** [default=None] *)
}.

Inductive cli_command :=
  | CmdUrls (urls : list string)
  | CmdRun (a : run_args).

Inductive parse_outcome :=
  | Parsed (cmd : cli_command)
  | ParseExit (code : Z).

Definition finish_urls (extras : list string) (r : sub_result) : parse_outcome :=
  match r with
  | SubExit c => ParseExit c
  | SubDone _ (Some acc) ex =>
      if bool_decide (extras ++ ex = []) then Parsed (CmdUrls (remove_first_dashdash acc)) else ParseExit 2
  | SubDone _ None _ => ParseExit 2                    (** required: urls *)
  end.

Definition finish_run (extras : list string) (r : sub_result) : parse_outcome :=
  match r with
  | SubExit c => ParseExit c
  | SubDone ns _ ex =>
      match ns_get "source" ns, ns_get "country" ns with
      | Some s, Some c =>
          if bool_decide (extras ++ ex = []) then
            Parsed (CmdRun (RunArgs s c (default (AInt 50) (ns_get "max_pages" ns))
                                    (default (ABool false) (ns_get "write_raw" ns)) (ns_get "metrics_port" ns)))
          else ParseExit 2                              (** unrecognized arguments *)
      | _, _ => ParseExit 2                             (** required: --source, --country *)
      end
  end.

Definition parse_args (argv : list string) : parse_outcome :=
  match classify HELP_OPTIONS argv with
  | None => ParseExit 2
  | Some toks =>
      match top_scan toks [] with
      | TopExit c => ParseExit c
      | TopCommand cmd rest extras =>
          if bool_decide (cmd = "urls") then
            match classify HELP_OPTIONS rest with
            | None => ParseExit 2
            | Some t => finish_urls extras (urls_scan t UNone [])
            end
          else if bool_decide (cmd = "run") then
            match classify RUN_OPTIONS rest with
            | None => ParseExit 2
            | Some t => finish_run extras (run_scan t [] [])
            end
          else ParseExit 2                              (** invalid choice *)
      end
  end.

(** ** [main()] *)

(** How [main()] ends: [SystemExit] from the parser, an exception that
    escapes [asyncio.run], or a namespace value of a type the model of
    [run_source] does not take (the empty list that [--source=--] or
    [--max-pages=--] stores). *)
Inductive main_exn :=
  | SystemExit (code : Z)
  | Uncaught (e : run_exn)
  | UnsupportedArgument.

Section Main.
Context {G W : Type} `{RobotsGate G} `{FetchEngine W}.
Variable http_url_validate : string → option string.
Variable readability : option (string → option parsed).
Variable env_log_level : option string.
Variable cfg : s3_config.
Variable boto3_available : bool.
Variable gzip_compress : list Z → list Z.
Variable yaml_available : bool.
Variable config_path : string.
Variable config_exists : bool.
Variable sources : list catalog_entry.
Variable today : date.

Notation MM := (st_exc (run_state G W) main_exn).

Definition lift_run {A} (m : st_exc (run_state G W) run_exn A) : MM A :=
  λ rs, let '(r, rs') := m rs in (match r with Ok a => Ok a | Raise e => Raise (Uncaught e) end, rs').

(** [metrics_port] as [run_source] uses it, in [if metrics_port:]: an
    empty list is falsy like [None]. *)
Definition port_arg (v : option arg_value) : option (option Z) :=
  match v with
  | None | Some AEmptyList => Some None
  | Some (AInt p) => Some (Some p)
  | Some _ => None
  end.

(** The dispatch on [args.cmd]. *)
Definition run_command (c : cli_command) : MM unit :=
  match c with
  | CmdUrls urls => lift_run (lift_crawl (crawl_once http_url_validate readability env_log_level urls))
  | CmdRun (RunArgs (AStr s) (AStr co) (AInt mp) (ABool wr) port) =>
      match port_arg port with
      | Some p => lift_run (run_source http_url_validate readability env_log_level cfg boto3_available
                              gzip_compress yaml_available config_path config_exists sources today
                              s co mp wr p)
      | None => st_throw UnsupportedArgument
      end
  | CmdRun _ => st_throw UnsupportedArgument
  end.

(** [main()] on [sys.argv[1:]] *)
Definition main (argv : list string) : MM unit :=
  match parse_args argv with
  | ParseExit c => st_throw (SystemExit c)
  | Parsed c => run_command c
  end.

End Main.

(** The command line asking for [run] with these arguments, each option
    in its [--opt=value] form. *)
Definition run_argv (source country : string) (max_pages : Z) (write_raw : bool) (port : option Z) : list string :=
  "run" :: ("--source" +:+ String "=" source) :: ("--country" +:+ String "=" country) ::
  ("--max-pages" +:+ String "=" (py_str_Z max_pages)) ::
  (if write_raw then ["--write-raw"] else []) ++
  (match port with Some p => ["--metrics-port" +:+ String "=" (py_str_Z p)] | None => [] end).

(** An argument that does not start with [-] is a positional. *)
Definition plain_arg (s : string) : Prop := match s with String ch _ => ch ≠ "-"%char | EmptyString => True end.

(** ** Properties of the parser *)

Lemma classify_strings opts l toks : classify opts l = Some toks → fst <$> toks = l.
Proof.
  revert toks. induction l as [|s l IH]; intros toks Hc; simpl in Hc; [by inv_clear Hc|].
  case_bool_decide.
  - inv_clear Hc. simpl. f_equal. rewrite <- list_fmap_compose. apply list_fmap_id.
  - destruct (parse_optional opts s); [|done]. destruct (classify opts l) as [r|] eqn:Hr; [|done].
    inv_clear Hc. simpl. by rewrite IH.
Qed.

Lemma classify_cons opts s l k :
  s ≠ "--" → parse_optional opts s = Some k →
  classify opts (s :: l) = (λ rest, (s, k) :: rest) <$> classify opts l.
Proof. intros Hs Hk. simpl. rewrite bool_decide_false, Hk by done. done. Qed.

Lemma classify_cons_inv opts s l toks :
  s ≠ "--" → classify opts (s :: l) = Some toks →
  ∃ k r, parse_optional opts s = Some k ∧ classify opts l = Some r ∧ toks = (s, k) :: r.
Proof.
  intros Hs Hc. simpl in Hc. rewrite bool_decide_false in Hc by done.
  destruct (parse_optional opts s) as [k|]; [|done]. destruct (classify opts l) as [r|]; [|done].
  inv_clear Hc. eauto.
Qed.

Lemma prefix_dash_second c2 rest t :
  String.prefix (String "-" (String c2 rest)) (String "-" (String "-" t)) = true → c2 = "-"%char.
Proof. cbn. destruct (ascii_dec c2 "-"); [done|discriminate]. Qed.

(** The top-level parser never meets an ambiguous option: only [--help]
    can match a double-dash prefix, only [-h] a single-dash one. *)
Lemma get_option_tuples_help s : length (get_option_tuples HELP_OPTIONS (String "-" s)) ≤ 1.
Proof.
  unfold get_option_tuples. destruct s as [|c2 rest]; [simpl; lia|].
  destruct (Ascii.eqb c2 "-"%char) eqn:H2.
  - apply Ascii.eqb_eq in H2. subst c2. cbn.
    destruct (py_split_once "="%char rest) as [[a b]|]; cbn; repeat case_decide; simpl; lia.
  - cbn [omap list_omap HELP_OPTIONS fst snd]. destruct (bool_decide ("--help" = String "-" (String c2 ""))) eqn:E1.
    { apply bool_decide_eq_true in E1. by inversion E1. }
    destruct (String.prefix (String "-" (String c2 rest)) "--help") eqn:E2.
    { apply prefix_dash_second in E2. subst. by rewrite Ascii.eqb_refl in H2. }
    destruct (bool_decide ("-h" = String "-" (String c2 ""))), (String.prefix (String "-" (String c2 rest)) "-h"); cbn; lia.
Qed.

(** The top-level parser never meets an ambiguous option: only [--help]
    can match a double-dash prefix, only [-h] a single-dash one. *)
Lemma parse_optional_help_total s : is_Some (parse_optional HELP_OPTIONS s).
Proof.
  unfold parse_optional. destruct s as [|c r]; [by eexists|].
  destruct (Ascii.eqb c "-"%char) eqn:Hc; [|by eexists]. apply Ascii.eqb_eq in Hc. subst c. cbn [negb].
  destruct (opt_lookup _ _); [by eexists|]. case_bool_decide; [by eexists|].
  pose proof (get_option_tuples_help r) as Hlen.
  destruct (get_option_tuples HELP_OPTIONS (String "-" r)) as [|t [|t' l]]; [| |simpl in Hlen; lia];
    [destruct (looks_negative (String "-" r)), (str_has " "%char (String "-" r))|destruct t as [[a o] e]];
    destruct (py_split_once "="%char (String "-" r)) as [[o' e']|]; try destruct (opt_lookup o' HELP_OPTIONS);
    by eexists.
Qed.

Lemma classify_help_total l : is_Some (classify HELP_OPTIONS l).
Proof.
  induction l as [|s l [r Hr]]; simpl; [by eexists|]. case_bool_decide; [by eexists|].
  destruct (parse_optional_help_total s) as [k ->]. rewrite Hr. by eexists.
Qed.

Lemma run_options_no_eq x a : opt_lookup x RUN_OPTIONS = Some a → str_has "="%char x = false.
Proof. unfold opt_lookup. simpl. by repeat (case_bool_decide; [intros _; subst; reflexivity|]). Qed.

(** [--opt=value] for an option of the parser whose name has no [=]. *)
Lemma parse_optional_explicit opts o' a e :
  (∀ x b, opt_lookup x opts = Some b → str_has "="%char x = false) →
  opt_lookup (String "-" o') opts = Some a →
  parse_optional opts (String "-" o' +:+ String "=" e) = Some (ArgOpt a (String "-" o') (Some e)).
Proof.
  intros Hno Ha. unfold parse_optional.
  change (String "-" o' +:+ String "=" e) with (String "-" (o' +:+ String "=" e)) at 1.
  cbv beta iota. rewrite Ascii.eqb_refl. cbn [negb].
  destruct (opt_lookup (String "-" o' +:+ String "=" e) opts) eqn:Hw.
  { apply Hno in Hw. rewrite str_has_app in Hw. cbn [str_has Ascii.eqb] in Hw. by rewrite orb_true_r in Hw. }
  rewrite bool_decide_false by (destruct o'; discriminate).
  by rewrite py_split_once_app, Ha by apply (Hno _ _ Ha).
Qed.

Lemma py_str_Z_not_dashdash z : py_str_Z z ≠ "--".
Proof.
  pose proof (λ n, decimal_go_digits (S n) n EmptyString eq_refl) as Hall.
  unfold py_str_Z. destruct (z <? 0)%Z; [set (n := Z.to_nat (- z))|set (n := Z.to_nat z)];
    specialize (Hall n); fold (decimal n) in Hall; destruct (decimal_cons n) as (d & t & Hd); rewrite Hd in *;
    cbn [str_forall] in Hall; apply andb_prop in Hall as [Hdig _]; intros Heq; inversion Heq; subst; discriminate.
Qed.

Lemma option_step_store opts d o v next ns :
  v ≠ "--" → option_step opts (ActStore d) o (Some v) next ns = OptNext ((d, AStr v) :: ns) false.
Proof. intros Hv. unfold option_step. destruct (opt_fuel _); cbn [consume_optional nargs0 take_actions take_action]; by rewrite bool_decide_false. Qed.

Lemma option_step_int opts d o v z next ns :
  v ≠ "--" → py_int_of_str v = Some z →
  option_step opts (ActStoreInt d) o (Some v) next ns = OptNext ((d, AInt z) :: ns) false.
Proof.
  intros Hv Hz. unfold option_step. destruct (opt_fuel _); cbn [consume_optional nargs0 take_actions take_action];
  by rewrite bool_decide_false, Hz.
Qed.

Lemma option_step_true opts d o next ns :
  option_step opts (ActStoreTrue d) o None next ns = OptNext ((d, ABool true) :: ns) false.
Proof. reflexivity. Qed.


Ltac classify_step :=
  erewrite classify_cons;
  [| by (let H := fresh in intros H; inversion H)
   | first [apply parse_optional_explicit; [apply run_options_no_eq|reflexivity] | reflexivity]].

Lemma parse_args_run_argv s c mp wr port :
  s ≠ "--" → c ≠ "--" →
  parse_args (run_argv s c mp wr port) =
    Parsed (CmdRun (RunArgs (AStr s) (AStr c) (AInt mp) (ABool wr) (AInt <$> port))).
Proof.
  intros Hs Hc. unfold parse_args.
  destruct (classify_help_total (run_argv s c mp wr port)) as [toks Ht]. rewrite Ht.
  unfold run_argv in Ht. apply classify_cons_inv in Ht as (k & r & Hk & Hr & ->); [|done].
  vm_compute in Hk. inv_clear Hk. cbn [top_scan]. rewrite (classify_strings _ _ _ Hr).
  rewrite bool_decide_false, bool_decide_true by done.
  destruct wr, port as [p|]; simpl app; repeat classify_step.
  all: cbn [classify fmap option_fmap option_map run_scan fst snd].
  all: repeat (first [rewrite option_step_true | rewrite option_step_store by done
                     | rewrite (option_step_int _ _ _ _ mp) by (apply py_str_Z_not_dashdash || apply py_int_of_str_str)
                     | rewrite (option_step_int _ _ _ _ p) by (apply py_str_Z_not_dashdash || apply py_int_of_str_str)];
               cbv beta iota).
  all: reflexivity.
Qed.

Lemma urls_scan_collect l acc ex :
  urls_scan ((λ x, (x, ArgPos)) <$> l) (UCollect acc) ex = SubDone [] (Some (acc ++ l)) ex.
Proof.
  revert acc. induction l as [|x l IH]; intros acc; simpl; [by rewrite app_nil_r|].
  rewrite IH. by rewrite <- app_assoc.
Qed.

(** [urls -- URL...] asks for exactly these URLs, whatever they look like. *)
Lemma parse_args_urls_argv us : us ≠ [] → parse_args ("urls" :: "--" :: us) = Parsed (CmdUrls us).
Proof.
  intros Hne. unfold parse_args. cbn [classify]. rewrite bool_decide_false by done.
  change (parse_optional HELP_OPTIONS "urls") with (Some ArgPos). rewrite bool_decide_true by done.
  cbn [fmap option_fmap option_map top_scan]. rewrite bool_decide_true by done.
  replace (list_fmap (string * arg_class)%type string fst _) with ("--" :: us)
    by (cbn; f_equal; rewrite <- list_fmap_compose; symmetry; apply list_fmap_id).
  cbn [classify]. rewrite bool_decide_true by done.
  destruct us as [|u us]; [done|]. cbn [fmap list_fmap urls_scan run_has_pos].
  rewrite (urls_scan_collect us ["--"; u]). unfold finish_urls. rewrite bool_decide_true by done.
  reflexivity.
Qed.

Lemma option_step_store_next opts d o v ns :
  v ≠ "--" → option_step opts (ActStore d) o None (Some (v, ArgPos)) ns = OptNext ((d, AStr v) :: ns) true.
Proof.
  intros Hv. unfold option_step. destruct (opt_fuel _); cbn [consume_optional nargs0 take_actions take_action];
    by rewrite bool_decide_false.
Qed.

Lemma option_step_int_next opts d o v z ns :
  v ≠ "--" → py_int_of_str v = Some z →
  option_step opts (ActStoreInt d) o None (Some (v, ArgPos)) ns = OptNext ((d, AInt z) :: ns) true.
Proof.
  intros Hv Hz. unfold option_step. destruct (opt_fuel _); cbn [consume_optional nargs0 take_actions take_action];
    by rewrite bool_decide_false, Hz.
Qed.


Lemma parse_optional_plain opts s : plain_arg s → parse_optional opts s = Some ArgPos.
Proof.
  unfold parse_optional. destruct s as [|ch r]; [done|]. intros Hch. simpl in Hch.
  destruct (Ascii.eqb_spec ch "-"); [done|]. reflexivity.
Qed.

Lemma run_option_second x a :
  opt_lookup x RUN_OPTIONS = Some a → ∃ c2 r, x = String "-" (String c2 r) ∧ is_digit_char c2 = false.
Proof. unfold opt_lookup. simpl. by repeat (case_bool_decide; [intros _; subst; eauto|]). Qed.

Lemma prefix_second_digit d t c2 r :
  is_digit_char d = true → is_digit_char c2 = false →
  String.prefix (String "-" (String d t)) (String "-" (String c2 r)) = false.
Proof. intros Hd Hc2. cbn. destruct (ascii_dec d c2) as [->|]; [congruence|done]. Qed.

Lemma str_has_digits c s : is_digit_char c = false → str_forall is_digit_char s = true → str_has c s = false.
Proof.
  intros Hc. induction s as [|d s IH]; [done|]. cbn [str_forall str_has]. intros [Hd Hs]%andb_prop.
  rewrite IH by done. destruct (Ascii.eqb_spec d c); [congruence|done].
Qed.

(** Every option string of [p_run] has a non-digit second character, so
    [-N] is a negative number, a positional. *)
Lemma parse_optional_negative d t :
  str_forall is_digit_char (String d t) = true →
  parse_optional RUN_OPTIONS (String "-" (String d t)) = Some ArgPos.
Proof.
  intros Hall. pose proof Hall as Hall'. cbn [str_forall] in Hall'. apply andb_prop in Hall' as [Hd Ht].
  unfold parse_optional. rewrite Ascii.eqb_refl. cbn [negb].
  destruct (opt_lookup _ RUN_OPTIONS) as [a|] eqn:Hl.
  { apply run_option_second in Hl as (c2 & r & [= <- <-] & Hc2). congruence. }
  rewrite bool_decide_false by done.
  assert (Hsp : py_split_once "="%char (String "-" (String d t)) = None)
    by (apply py_split_once_None; rewrite str_has_cons, (str_has_digits _ (String d t)) by done; done).
  rewrite Hsp. unfold get_option_tuples.
  destruct (Ascii.eqb_spec d "-") as [->|Hnd]; [done|].
  cbn [omap list_omap RUN_OPTIONS HELP_OPTIONS app fst snd].
  repeat rewrite bool_decide_false by (let H := fresh in intros H; inversion H; subst; by compute in Hd).
  rewrite !prefix_second_digit by done.
  unfold looks_negative, negative_number_body. rewrite Ascii.eqb_refl. cbn [py_isdigit]. by rewrite Hall.
Qed.

Lemma negative_token z :
  (z < 0)%Z → ∃ d t, py_str_Z z = String "-" (String d t) ∧ str_forall is_digit_char (String d t) = true.
Proof.
  intros Hz. unfold py_str_Z. rewrite (proj2 (Z.ltb_lt _ _) Hz).
  destruct (decimal_cons (Z.to_nat (- z))) as (d & t & Hd). exists d, t. rewrite <- Hd. split; [done|].
  apply decimal_go_digits. done.
Qed.

Lemma plain_not_dashdash s : plain_arg s → s ≠ "--".
Proof. intros Hs ->. by apply Hs. Qed.

Ltac classify_plain :=
  erewrite classify_cons;
  [| first [by apply plain_not_dashdash | by (let H := fresh in intros H; inversion H; subst; by compute in *)]
   | first [reflexivity | by apply parse_optional_plain | by apply parse_optional_negative]].

(** [argparse] accepts a negative [--max-pages]: [-N] looks like a
    negative number and the parser has no option that does, so it is taken
    as the option's value. *)
Lemma parse_args_negative_max_pages s c z :
  plain_arg s → plain_arg c → (z < 0)%Z →
  parse_args ["run"; "--source"; s; "--country"; c; "--max-pages"; py_str_Z z] =
    Parsed (CmdRun (RunArgs (AStr s) (AStr c) (AInt z) (ABool false) None)).
Proof.
  intros Hs Hc Hz. destruct (negative_token z Hz) as (d & t & Hzt & Hdig). pose proof Hdig as Hd.
  cbn [str_forall] in Hd. apply andb_prop in Hd as [Hd _].
  unfold parse_args. destruct (classify_help_total ["run"; "--source"; s; "--country"; c; "--max-pages"; py_str_Z z])
    as [toks Ht]. rewrite Ht.
  apply classify_cons_inv in Ht as (k & r & Hk & Hr & ->); [|done]. vm_compute in Hk. inv_clear Hk.
  cbn [top_scan]. rewrite (classify_strings _ _ _ Hr), bool_decide_false, bool_decide_true by done.
  rewrite Hzt. do 6 classify_plain.
  cbn [classify fmap option_fmap option_map run_scan head fst snd].
  rewrite option_step_store_next by (by apply plain_not_dashdash). cbv beta iota.
  rewrite option_step_store_next by (by apply plain_not_dashdash). cbv beta iota.
  rewrite (option_step_int_next _ _ _ _ z)
    by (by (let H := fresh in intros H; inversion H; subst; by compute in *) || (rewrite <- Hzt; apply py_int_of_str_str)).
  reflexivity.
Qed.

(** C15. Round trip: a command written as a command line is parsed back to
    itself: [run --source=S --country=C --max-pages=N [--write-raw]
    [--metrics-port=P]] for all strings [S], [C] other than [--] (which
    [argparse] turns into an empty list) and all integers, and
    [urls -- URL...] for every non-empty list of URLs, whatever they look
    like. *)
Theorem parse_args_roundtrip s c mp wr port us :
  s ≠ "--" → c ≠ "--" → us ≠ [] →
  parse_args (run_argv s c mp wr port) =
    Parsed (CmdRun (RunArgs (AStr s) (AStr c) (AInt mp) (ABool wr) (AInt <$> port))) ∧
  parse_args ("urls" :: "--" :: us) = Parsed (CmdUrls us).
Proof. intros. split; [by apply parse_args_run_argv|by apply parse_args_urls_argv]. Qed.

(** ** [main] *)

Section MainProperties.
Context {G W : Type} `{RobotsGate G} `{FetchEngine W}.
Variable http_url_validate : string → option string.
Variable readability : option (string → option parsed).
Variable env_log_level : option string.
Variable cfg : s3_config.
Variable boto3_available : bool.
Variable gzip_compress : list Z → list Z.
Variable yaml_available : bool.
Variable config_path : string.
Variable config_exists : bool.
Variable sources : list catalog_entry.
Variable today : date.

Notation main := (main http_url_validate readability env_log_level cfg boto3_available gzip_compress
                    yaml_available config_path config_exists sources today).
Notation run_source := (run_source http_url_validate readability env_log_level cfg boto3_available
                          gzip_compress yaml_available config_path config_exists sources today).

(** C14. [main()] runs the command written on its command line:
    [urls -- URL...] runs [crawl_once] on exactly those URLs, and
    [run --source=S --country=C --max-pages=N [--write-raw]
    [--metrics-port=P]] runs [run_source(S, C, N, write_raw=...,
    metrics_port=...)], with [write_raw] false and no metrics port when
    the flags are absent. *)
Theorem main_dispatch us s c mp wr port (rs : run_state G W) :
  us ≠ [] → s ≠ "--" → c ≠ "--" →
  main ("urls" :: "--" :: us) rs = lift_run (lift_crawl (crawl_once http_url_validate readability env_log_level us)) rs ∧
  main (run_argv s c mp wr port) rs = lift_run (run_source s c mp wr port) rs.
Proof.
  intros Hus Hs Hc. unfold Cli.main. rewrite parse_args_urls_argv, parse_args_run_argv by done.
  split; [done|]. by destruct port.
Qed.

(** C21. A negative [--max-pages -N] reaches [run_source] as [max_pages =
    -N] (which then drops the last [N] base URLs) instead of being
    rejected by the parser. *)
Theorem main_negative_max_pages s c z (rs : run_state G W) :
  plain_arg s → plain_arg c → (z < 0)%Z →
  main ["run"; "--source"; s; "--country"; c; "--max-pages"; py_str_Z z] rs =
    lift_run (run_source s c z false None) rs.
Proof. intros Hs Hc Hz. unfold Cli.main. by rewrite parse_args_negative_max_pages. Qed.

End MainProperties.

(** ** Witnesses: the demo host and catalog of [RunSource] *)

#[local] Instance cli_demo_gate : RobotsGate gate_state := robots_gate (env:=ascii_url_env) demo_net demo_clock.
#[local] Instance cli_demo_engine : FetchEngine world := fetch_engine demo_transport Fetch.half.

Lemma parse_args_roundtrip_witness :
  parse_args (run_argv "news" "MZ" (-3)%Z true (Some 9000%Z)) =
    Parsed (CmdRun (RunArgs (AStr "news") (AStr "MZ") (AInt (-3)%Z) (ABool true) (Some (AInt 9000%Z)))) ∧
  parse_args ["urls"; "--"; "-https://example.com"] = Parsed (CmdUrls ["-https://example.com"]).
Proof. apply (parse_args_roundtrip "news" "MZ" (-3)%Z true (Some 9000%Z) ["-https://example.com"]); discriminate. Defined.

Lemma main_dispatch_witness :
  main Some None None demo_cfg true id true "config/sources.yaml" true demo_catalog demo_today
    ["urls"; "--"; "https://example.com/a"] (demo_run_state ERROR) =
    lift_run (lift_crawl (crawl_once Some None None ["https://example.com/a"])) (demo_run_state ERROR) ∧
  main Some None None demo_cfg true id true "config/sources.yaml" true demo_catalog demo_today
    (run_argv "news" "MZ" 2%Z false None) (demo_run_state ERROR) =
    lift_run (run_source Some None None demo_cfg true id true "config/sources.yaml" true demo_catalog demo_today
                "news" "MZ" 2%Z false None) (demo_run_state ERROR).
Proof. apply main_dispatch; discriminate. Defined.

Lemma main_negative_max_pages_witness :
  main Some None None demo_cfg true id true "config/sources.yaml" true demo_catalog demo_today
    ["run"; "--source"; "news"; "--country"; "MZ"; "--max-pages"; py_str_Z (-1)%Z] (demo_run_state ERROR) =
    lift_run (run_source Some None None demo_cfg true id true "config/sources.yaml" true demo_catalog demo_today
                "news" "MZ" (-1)%Z false None) (demo_run_state ERROR).
Proof. apply main_negative_max_pages; [discriminate|discriminate|lia]. Defined.
