(* ===== verification/Render.v ===== *)
(** * Render: [core/render.py]

    [render_html(url, wait_until, timeout_ms, fallback_to_fetch)] renders a
    page with Playwright when it is installed; when the import fails, or
    when launching the browser or loading the page raises, it falls back,
    if allowed, to one plain [httpx] GET (no retry, no politeness delay,
    httpx's own headers) and otherwise raises [RenderNotAvailable].  The
    browser is closed in a [finally] whenever it was launched.

    Effects are a list of events: browser launches and closes and the
    fallback GETs with their client settings.  Whether Playwright is
    installed, what the browser does for a URL and what the server answers
    are inputs. *)

From S2P Require Import Prelude Fetch.
From Stdlib Require Import QArith.

Inductive render_error :=
  | RenderNotAvailable (msg : string)
  | RenderFetchError (e : fetch_error).      (** from the fallback GET *)

(** What [async_playwright()] does with the page. *)
Inductive browser_outcome :=
  | LaunchFailed                  (** [chromium.launch()] raises *)
  | PageFailed                    (** [new_page], [goto] or [content] raises *)
  | PageHtml (html : string).     (** [page.content()] *)

(** [httpx.AsyncClient(timeout=timeout_ms / 1000, follow_redirects=True)] *)
Record fallback_client := FallbackClient { fc_timeout : Q; fc_follow_redirects : bool }.

Inductive render_event :=
  | BrowserLaunch
  | BrowserClose
  | FallbackGet (c : fallback_client) (url : string).

Notation RD := (st_exc (list render_event) render_error).

Section Render.
Variable playwright_installed : bool.
Variable browser : string → string → Z → browser_outcome.   (** url, wait_until, timeout *)
Variable http : string → get_outcome.                         (** the final response *)

(** The fallback: [client.get(url)], [r.raise_for_status()], [r.text]. *)
Definition http_fallback (url : string) (timeout_ms : Z) : RD string :=
  λ ev, let c := FallbackClient (inject_Z timeout_ms / 1000) true in
        let ev' := ev ++ [FallbackGet c url] in
        match outcome_result (http url) with
        | Ok r => (Ok (resp_text r), ev')
        | Raise e => (Raise (RenderFetchError e), ev')
        end.

Definition fallback_or_raise (fallback_to_fetch : bool) (url : string) (timeout_ms : Z) (msg : string)
    : RD string :=
  if fallback_to_fetch then http_fallback url timeout_ms else st_throw (RenderNotAvailable msg).

(** [render_html(url, wait_until, timeout_ms, fallback_to_fetch)] *)
Definition render_html (url wait_until : string) (timeout_ms : Z) (fallback_to_fetch : bool) : RD string :=
  if negb playwright_installed then
    fallback_or_raise fallback_to_fetch url timeout_ms
      "Playwright is not installed. Install 'playwright' and browsers to enable rendering."
  else
    λ ev, match browser url wait_until timeout_ms with
          | LaunchFailed =>
              fallback_or_raise fallback_to_fetch url timeout_ms "Rendering failed and fallback is disabled." ev
          | PageFailed =>
              fallback_or_raise fallback_to_fetch url timeout_ms "Rendering failed and fallback is disabled."
                (ev ++ [BrowserLaunch; BrowserClose])
          | PageHtml html => (Ok html, ev ++ [BrowserLaunch; BrowserClose])
          end.

End Render.

(** The default arguments of [render_html(url)]. *)
Definition DEFAULT_WAIT_UNTIL : string := "networkidle".
Definition DEFAULT_TIMEOUT_MS : Z := 30000.

(** ** Properties *)

Section RenderProperties.
Variable playwright_installed : bool.
Variable browser : string → string → Z → browser_outcome.
Variable http : string → get_outcome.

Lemma http_fallback_result url t ev :
  ∃ r, http_fallback http url t ev = (r, ev ++ [FallbackGet (FallbackClient (inject_Z t / 1000) true) url]) ∧
       ∀ m, r ≠ Raise (RenderNotAvailable m).
Proof. unfold http_fallback. destruct (outcome_result (http url)); eexists; split; done. Qed.

(** With [fallback_to_fetch=True] (the default), [render_html] never
    raises [RenderNotAvailable]: a missing or failing browser leads to the
    plain GET, whose own errors are HTTP or transport errors. *)
Theorem render_fallback_never_unavailable url wait_until t ev m :
  (render_html playwright_installed browser http url wait_until t true ev).1 ≠ Raise (RenderNotAvailable m).
Proof.
  unfold render_html, fallback_or_raise.
  destruct playwright_installed; simpl;
    [destruct (browser url wait_until t)|];
    try (destruct (http_fallback_result url t (ev ++ [BrowserLaunch; BrowserClose])) as (r & -> & Hr); apply Hr);
    try (destruct (http_fallback_result url t ev) as (r & -> & Hr); apply Hr);
    done.
Qed.

(** [render_html] launches the browser at most once and always closes
    it right after, and makes at most one fallback GET, after the browser
    was closed. *)
Theorem render_effects url wait_until t fb ev :
  ∃ added, (render_html playwright_installed browser http url wait_until t fb ev).2 = ev ++ added ∧
    added ∈ [[]; [BrowserLaunch; BrowserClose];
             [FallbackGet (FallbackClient (inject_Z t / 1000) true) url];
             [BrowserLaunch; BrowserClose; FallbackGet (FallbackClient (inject_Z t / 1000) true) url]].
Proof.
  unfold render_html, fallback_or_raise.
  destruct playwright_installed; simpl; [destruct (browser url wait_until t)|]; destruct fb; simpl;
    try (destruct (http_fallback_result url t (ev ++ [BrowserLaunch; BrowserClose])) as (r & -> & _);
         eexists; split; [by rewrite <- app_assoc|]; set_solver);
    try (destruct (http_fallback_result url t ev) as (r & -> & _); eexists; split; [done|]; set_solver);
    eexists; split; try (by rewrite ?app_nil_r); set_solver.
Qed.

(** With [fallback_to_fetch=False], a missing Playwright or a browser
    that does not deliver the page raises [RenderNotAvailable]; no HTTP
    request is made, and a launched browser is closed. *)
Theorem render_no_fallback_raises url wait_until t ev :
  playwright_installed = false ∨ (∀ h, browser url wait_until t ≠ PageHtml h) →
  ∃ m added, render_html playwright_installed browser http url wait_until t false ev =
             (Raise (RenderNotAvailable m), ev ++ added) ∧
    (added = [] ∨ added = [BrowserLaunch; BrowserClose]).
Proof.
  intros Hcase. unfold render_html, fallback_or_raise, st_throw.
  destruct playwright_installed; simpl.
  - destruct Hcase as [?|Hb]; [done|].
    destruct (browser url wait_until t) as [| |h]; [| |by destruct (Hb h)].
    + eexists _, []. split; [by rewrite app_nil_r|by left].
    + eexists _, _. split; [reflexivity|by right].
  - eexists _, []. split; [by rewrite app_nil_r|by left].
Qed.

End RenderProperties.

Lemma render_no_fallback_raises_witness :
  ∃ m added, render_html false (λ _ _ _, LaunchFailed) (λ _, Response 200 "x") "https://example.com"
               DEFAULT_WAIT_UNTIL DEFAULT_TIMEOUT_MS false [] = (Raise (RenderNotAvailable m), [] ++ added) ∧
    (added = [] ∨ added = [BrowserLaunch; BrowserClose]).
Proof. apply render_no_fallback_raises. by left. Defined.
