(* ===== verification/Worker.v ===== *)
(** * Worker: [workers/tasks.py]

    The Celery task [crawl_url(job, url)] opens an HTTP client, obtains the
    page either through [render_html(url)] (when [job["render"]] is
    truthy, with a fallback to [fetch] on [RenderNotAvailable]) or through
    [fetch(url, client)], and returns [to_article(...).model_dump()].  The
    task is declared with [autoretry_for=(Exception,)] and [max_retries=5]:
    a run that raises is run again, from the start, up to five more times,
    and the last exception is raised.

    The fetch is the [FetchEngine] interface of [Crawl]; rendering is
    [Render.render_html] over its inputs.  Celery's countdown between
    retries (exponential with jitter) is scheduling, not modelled.  The
    module-level wiring ([BROKER_URL], [app], and the task defined only
    when Celery is installed) is modelled by [BROKER_URL], [app] and
    [registered_tasks]. *)

From S2P Require Import Prelude Fetch Article Storage Render Crawl.
Local Open Scope nat_scope.

(** The fields of the [job] dict the task reads; a field is [None] when it
    is missing or not a string. *)
Record job := Job {
  job_render : bool;                 (** [job.get("render")] is truthy *)
  job_country : option string;
  job_language : option string;
  job_source : option string
}.

Inductive task_error :=
  | TaskFetch (e : fetch_error)
  | TaskRender (e : render_error)
  | TaskValidation (e : validation_error).

Record worker_state (W : Type) := WState { ws_world : W; ws_events : list render_event }.
Arguments WState {W} _ _.
Arguments ws_world {W} _.
Arguments ws_events {W} _.

(** [max_retries=5] *)
Definition MAX_RETRIES : nat := 5.

Section Worker.
Context {W : Type} `{FetchEngine W}.
Variable http_url_validate : string → option string.
Variable readability : option (string → option parsed).
Variable playwright_installed : bool.
Variable browser : string → string → Z → browser_outcome.
Variable http : string → get_outcome.

Notation T := (st_exc (worker_state W) task_error).

Definition task_fetch (c : client) (url : string) : T response :=
  λ s, let '(r, w') := engine_fetch c url (ws_world s) in
       (match r with Ok a => Ok a | Raise e => Raise (TaskFetch e) end, WState w' (ws_events s)).

Definition task_render (url : string) : T string :=
  λ s, let '(r, ev') := render_html playwright_installed browser http url DEFAULT_WAIT_UNTIL
                                     DEFAULT_TIMEOUT_MS true (ws_events s) in
       (match r with Ok a => Ok a | Raise e => Raise (TaskRender e) end, WState (ws_world s) ev').

(** One run of [_run()]. *)
Definition crawl_url_run (j : job) (url : string) : T (list (string * pyval)) :=
  let c := http_client in
  html ← (if job_render j then
            TRY task_render url
            EXCEPT (λ e, match e with
                         | TaskRender (RenderNotAvailable _) => r ← task_fetch c url; mret (resp_text r)
                         | _ => st_throw e
                         end)
          else r ← task_fetch c url; mret (resp_text r))%py;
  art ← st_lift (match to_article http_url_validate readability url html
                         (job_country j) (job_language j) (job_source j) with
                 | Ok a => Ok a | Raise e => Raise (TaskValidation e) end);
  mret (article_dump art).

(** The task under [autoretry_for=(Exception,)], with [retries] retries left. *)
Fixpoint crawl_url_task (retries : nat) (j : job) (url : string) : T (list (string * pyval)) :=
  (TRY crawl_url_run j url
   EXCEPT (λ e, match retries with O => st_throw e | S k => crawl_url_task k j url end))%py.

(** [crawl_url.delay(job, url)] as a worker runs it. *)
Definition crawl_url (j : job) (url : string) : T (list (string * pyval)) :=
  crawl_url_task MAX_RETRIES j url.

End Worker.

(** The module-level wiring: [BROKER_URL = os.getenv("CELERY_BROKER_URL",
    "redis://localhost:6379/0")] and [app = Celery("crawler",
    broker=BROKER_URL)] when the guarded import of [celery] succeeded,
    [None] otherwise. *)
Definition BROKER_URL (getenv : string → option string) : string :=
  default "redis://localhost:6379/0" (getenv "CELERY_BROKER_URL").

Record celery_app := CeleryApp { app_main : string; app_broker : string }.

Definition app (celery_available : bool) (getenv : string → option string) : option celery_app :=
  if celery_available then Some (CeleryApp "crawler" (BROKER_URL getenv)) else None.

(** [if app: @app.task(...) def crawl_url(...)]: the names the task module
    registers with its app; without Celery it defines no [crawl_url]. *)
Definition registered_tasks (a : option celery_app) : list string :=
  match a with Some _ => ["crawl_url"] | None => [] end.

(** ** Properties *)

Section WorkerProperties.
Context {W : Type} `{FetchEngine W}.
Variable http_url_validate : string → option string.
Variable readability : option (string → option parsed).
Variable playwright_installed : bool.
Variable browser : string → string → Z → browser_outcome.
Variable http : string → get_outcome.

(** One fetch of [url] through the task's client. *)
Definition fetch_step (url : string) (w : W) : W := (engine_fetch http_client url w).2.

Lemma crawl_url_run_plain j url s :
  job_render j = false →
  (crawl_url_run http_url_validate readability playwright_installed browser http j url s).2 =
    WState (fetch_step url (ws_world s)) (ws_events s).
Proof.
  intros Hj. unfold crawl_url_run, mbind, st_exc_bind, task_fetch, fetch_step. rewrite Hj.
  destruct (engine_fetch http_client url (ws_world s)) as [[r|e] w']; simpl; [|done].
  by destruct (to_article _ _ _ _ _ _ _).
Qed.

(** [render_html] with its default fallback leaves the fetch world alone and
    never raises [RenderNotAvailable]. *)
Lemma task_render_result url (s : worker_state W) :
  ws_world (task_render playwright_installed browser http url s).2 = ws_world s ∧
  ∀ m, (task_render playwright_installed browser http url s).1 ≠ Raise (TaskRender (RenderNotAvailable m)).
Proof.
  unfold task_render, render_html, fallback_or_raise.
  destruct playwright_installed; simpl; [destruct (browser url DEFAULT_WAIT_UNTIL DEFAULT_TIMEOUT_MS)|];
    try (destruct (http_fallback_result http url DEFAULT_TIMEOUT_MS (ws_events s ++ [BrowserLaunch; BrowserClose]))
           as (r & -> & Hr); split; [done|]; intros m; destruct r; [done|]; intros [= ->]; by apply (Hr m));
    try (destruct (http_fallback_result http url DEFAULT_TIMEOUT_MS (ws_events s)) as (r & -> & Hr);
         split; [done|]; intros m; destruct r; [done|]; intros [= ->]; by apply (Hr m));
    done.
Qed.

Lemma crawl_url_run_render j url s :
  job_render j = true →
  ws_world (crawl_url_run http_url_validate readability playwright_installed browser http j url s).2 = ws_world s.
Proof.
  intros Hj. unfold crawl_url_run, mbind at 1, st_exc_bind at 1. rewrite Hj. unfold st_try.
  destruct (task_render_result url s) as [Hw Hn].
  destruct (task_render playwright_installed browser http url s) as [[html|e] s1] eqn:Hr; simpl in Hw, Hn.
  - unfold mbind, st_exc_bind, st_lift. by destruct (to_article _ _ _ _ _ _ _).
  - destruct e as [e|e|e]; [|destruct e as [m|e]; [by destruct (Hn m)|]|]; simpl; done.
Qed.

(** C19. The worker fetches without consulting robots.txt: with rendering
    off, [crawl_url] only ever fetches [url], once per run, and runs
    between one and six times ([max_retries=5]). *)
Theorem crawl_url_fetches_unchecked j url s :
  job_render j = false →
  ∃ k, 1 ≤ k ≤ S MAX_RETRIES ∧
    ws_world (crawl_url http_url_validate readability playwright_installed browser http j url s).2 =
      Nat.iter k (fetch_step url) (ws_world s) ∧
    ws_events (crawl_url http_url_validate readability playwright_installed browser http j url s).2 = ws_events s.
Proof.
  intros Hj. unfold crawl_url. generalize MAX_RETRIES as n. intros n. revert s.
  induction n as [|n IH]; intros s; simpl; unfold st_try;
    pose proof (crawl_url_run_plain j url s Hj) as Hrun;
    destruct (crawl_url_run _ _ _ _ _ j url s) as [[a|e] s1]; simpl in Hrun; subst s1.
  - exists 1. simpl. repeat split; lia.
  - exists 1. simpl. repeat split; lia.
  - exists 1. simpl. repeat split; lia.
  - destruct (IH (WState (fetch_step url (ws_world s)) (ws_events s))) as (k & Hk & Hw & He).
    exists (S k). split; [lia|]. simpl in *. rewrite Hw, He. split; [|done].
    first [apply Nat.iter_swap | symmetry; apply Nat.iter_swap].
Qed.

(** C27. With rendering on, the worker's [except RenderNotAvailable] branch
    is dead: [render_html] falls back by itself, so [fetch] (with its
    retries and politeness delay) is never called, in any run. *)
Theorem crawl_url_render_no_fetch j url s :
  job_render j = true →
  ws_world (crawl_url http_url_validate readability playwright_installed browser http j url s).2 = ws_world s.
Proof.
  intros Hj. unfold crawl_url. generalize MAX_RETRIES as n. intros n. revert s.
  induction n as [|n IH]; intros s; simpl; unfold st_try;
    pose proof (crawl_url_run_render j url s Hj) as Hrun;
    destruct (crawl_url_run _ _ _ _ _ j url s) as [[a|e] s1]; simpl in Hrun; try done.
  rewrite IH. done.
Qed.

End WorkerProperties.

(** ** Witnesses *)

#[local] Instance worker_demo_engine : FetchEngine world := fetch_engine demo_transport Fetch.half.

Definition demo_job (render : bool) : job := Job render (Some "MZ") (Some "pt") (Some "news").

Definition demo_worker_state : worker_state world := WState fresh_world [].

(** A URL the demo robots.txt disallows is fetched all the same. *)
Lemma crawl_url_fetches_unchecked_witness :
  ∃ k, 1 ≤ k ≤ S MAX_RETRIES ∧
    ws_world (crawl_url Some None false (λ _ _ _, LaunchFailed) (λ _, Response 200 "x") (demo_job false)
                "https://example.com/private/b" demo_worker_state).2 =
      Nat.iter k (fetch_step "https://example.com/private/b") (ws_world demo_worker_state) ∧
    ws_events (crawl_url Some None false (λ _ _ _, LaunchFailed) (λ _, Response 200 "x") (demo_job false)
                 "https://example.com/private/b" demo_worker_state).2 = ws_events demo_worker_state.
Proof. apply crawl_url_fetches_unchecked. reflexivity. Defined.

Lemma crawl_url_render_no_fetch_witness :
  ws_world (crawl_url Some None false (λ _ _ _, LaunchFailed) (λ _, Response 503 "busy") (demo_job true)
              "https://example.com/a" demo_worker_state).2 = ws_world demo_worker_state.
Proof. apply crawl_url_render_no_fetch. reflexivity. Defined.
