(* ===== verification/Scheduler.v ===== *)
(** * Scheduler: [ops/scheduler.py]

    [start_scheduler(catalog_path, run_source_coro)] loads the YAML catalog
    and, for every entry with a name, a country and a schedule, splits the
    schedule into the five cron fields and adds a cron job with id
    [f"{source}:{country}"] and [replace_existing=True]; it logs each job
    and, after the loop, starts the scheduler.  Its log calls pass
    [extra={"message": ...}] to the logger ["crawler.scheduler"], so the
    logging model of [Ops] decides which of them raise [KeyError].

    State: the jobs, a map from job id to the job (adding a job with an
    existing id replaces it), whether [scheduler.start()] ran, and the
    logging state.  The entries are the catalog's [sources] list as the
    fields [entry.get(...)] returns: a name or country is a string or
    missing (an empty string is falsy), a schedule is a string, missing,
    or another YAML value with its truthiness.  Job ids are
    [f"{source}:{country}"]; adding a job under an existing id replaces
    it. *)

From S2P Require Import Prelude PyStr Ops.
From Stdlib Require Import Ascii.

Inductive yaml_value :=
  | YStr (s : string)
  | YMissing
  | YOther (truthy : bool).

Record sched_entry := SchedEntry {
  se_name : option string;
  se_country : option string;
  se_schedule : yaml_value;
  se_max_pages : Z                   (** [entry.get("max_pages", 50)] *)
}.

(** [scheduler.add_job(job, trigger="cron", minute=..., ...)] *)
Record cron_job := CronJob {
  cj_minute : string; cj_hour : string; cj_day : string; cj_month : string; cj_day_of_week : string;
  cj_source : string; cj_country : string; cj_max_pages : Z
}.

Inductive sched_error :=
  | SchedLog (e : log_error)
  | SchedRuntimeError (msg : string).     (** [_load_catalog] without PyYAML *)

Record sched_state := SchedState {
  ss_jobs : gmap string cron_job;
  ss_started : bool;
  ss_log : logger_state
}.

Notation SM := (st_exc sched_state sched_error).

Definition sched_log (level : Z) (msg : string) (extra : list (string * string)) : SM unit :=
  λ st, let '(r, l') := log_call "crawler.scheduler" level msg extra false (ss_log st) in
        (match r with Ok a => Ok a | Raise e => Raise (SchedLog e) end,
         SchedState (ss_jobs st) (ss_started st) l').

Definition add_job (id : string) (j : cron_job) : SM unit :=
  st_modify (λ st, SchedState (<[id := j]> (ss_jobs st)) (ss_started st) (ss_log st)).

Definition truthy_str (x : option string) : option string :=
  match x with Some s => if bool_decide (s = EmptyString) then None else Some s | None => None end.

(** [schedule] is truthy *)
Definition schedule_truthy (v : yaml_value) : bool :=
  match v with YStr s => negb (bool_decide (s = EmptyString)) | YMissing => false | YOther b => b end.

(** [repr(schedule)], for a string without quotes or escapes. *)
Definition schedule_repr (v : yaml_value) : string :=
  match v with YStr s => "'" +:+ s +:+ "'" | YMissing => "None" | YOther _ => "<value>" end.

(** [minute, hour, day, month, day_of_week = schedule.split()]: [None]
    when it raises ([ValueError] on another field count,
    [AttributeError] on a non-string). *)
Definition cron_fields (v : yaml_value) : option (string * string * string * string * string) :=
  match v with
  | YStr s => match py_split_ws s with [mi; h; d; mo; dw] => Some (mi, h, d, mo, dw) | _ => None end
  | _ => None
  end.

(** The body of [for entry in sources]. *)
Definition schedule_entry (e : sched_entry) : SM unit :=
  match truthy_str (se_name e), truthy_str (se_country e) with
  | Some source, Some country =>
      if negb (schedule_truthy (se_schedule e)) then mret ()
      else match cron_fields (se_schedule e) with
           | None =>
               sched_log WARNING "invalid_cron"
                 [("message", "Skipping invalid cron for " +:+ source +:+ ":" +:+ country +:+ ": " +:+
                              schedule_repr (se_schedule e))]
           | Some (mi, h, d, mo, dw) =>
               let sched := match se_schedule e with YStr s => s | _ => EmptyString end in
               add_job (source +:+ ":" +:+ country) (CronJob mi h d mo dw source country (se_max_pages e));;
               sched_log INFO "scheduled" [("message", source +:+ ":" +:+ country +:+ " -> " +:+ sched)]
           end
  | _, _ => mret ()
  end.

Fixpoint schedule_entries (es : list sched_entry) : SM unit :=
  match es with [] => mret () | e :: es' => schedule_entry e;; schedule_entries es' end.

(** [start_scheduler(catalog_path, run_source_coro)]: [Ok true] for a
    returned scheduler, [Ok false] for [None]. *)
Definition start_scheduler (apscheduler_installed yaml_installed : bool) (sources : list sched_entry)
    : SM bool :=
  if negb apscheduler_installed then
    sched_log ERROR "apscheduler_missing" [("message", "Install apscheduler to use scheduler.")];; mret false
  else if negb yaml_installed then st_throw (SchedRuntimeError "PyYAML is required to load the catalog.")
  else
    schedule_entries sources;;
    st_modify (λ st, SchedState (ss_jobs st) true (ss_log st));;
    sched_log INFO "scheduler_started"
      [("message", "Loaded " +:+ decimal (length sources) +:+ " entries")];;
    mret true.

(** ** Properties *)





Lemma sched_log_message_raises level msg extra v st :
  (ls_level (ss_log st) ≤ level)%Z → ("message", v) ∈ extra →
  ∃ m, sched_log level msg extra st = (Raise (SchedLog (KeyError m)), st).
Proof.
  intros Hl Hin. destruct (log_call_message_raises "crawler.scheduler" level msg extra false (ss_log st) v)
    as [m Hm]; [done..|].
  exists m. unfold sched_log. rewrite Hm. by destruct st.
Qed.





Lemma start_scheduler_cons e rest st :
  start_scheduler true true (e :: rest) st =
    match schedule_entry e st with
    | (Ok _, st1) =>
        (schedule_entries rest;;
         st_modify (λ st, SchedState (ss_jobs st) true (ss_log st));;
         sched_log INFO "scheduler_started"
           [("message", "Loaded " +:+ decimal (length (e :: rest)) +:+ " entries")];;
         mret true) st1
    | (Raise err, st1) => (Raise err, st1)
    end.
Proof. unfold start_scheduler. simpl. unfold mbind, st_exc_bind. by destruct (schedule_entry e st) as [[] ?]. Qed.

(** C18. When WARNING is enabled, which is the root logger's level when
    logging was not configured, an entry at the head of the catalog whose
    schedule does not split into five fields makes [start_scheduler] raise [KeyError] from
    [log.warning(..., extra={"message": ...})]: the scheduler is never
    started and the later entries are never read. *)
Theorem start_scheduler_invalid_cron_raises e rest st source country :
  (ls_level (ss_log st) ≤ WARNING)%Z →
  truthy_str (se_name e) = Some source → truthy_str (se_country e) = Some country →
  schedule_truthy (se_schedule e) = true → cron_fields (se_schedule e) = None →
  ∃ m, start_scheduler true true (e :: rest) st = (Raise (SchedLog (KeyError m)), st).
Proof.
  intros Hl Hs Hc Ht Hf. rewrite start_scheduler_cons. unfold schedule_entry. rewrite Hs, Hc, Ht, Hf. simpl.
  match goal with
  | |- context [sched_log WARNING "invalid_cron" [("message", ?v)] st] =>
      destruct (sched_log_message_raises WARNING "invalid_cron" [("message", v)] v st) as [m ->];
        [done|by left|]
  end.
  by exists m.
Qed.


(** ** Witnesses *)

Definition demo_sched_entry (sched : string) : sched_entry :=
  SchedEntry (Some "news") (Some "MZ") (YStr sched) 50.


Lemma start_scheduler_invalid_cron_raises_witness :
  ∃ m, start_scheduler true true [demo_sched_entry "0 * * *"] (SchedState ∅ false logging_init) =
       (Raise (SchedLog (KeyError m)), SchedState ∅ false logging_init).
Proof.
  apply (start_scheduler_invalid_cron_raises _ _ _ "news" "MZ"); [simpl; unfold WARNING; lia|reflexivity..].
Defined.


