(* ===== verification/ScheduledJob.v ===== *)
(** * ScheduledJob: the job closure of [ops/scheduler.py:start_scheduler]

    For each valid catalog entry, [start_scheduler] defines
    [async def job(_source=source, _country=country, _max=max_pages)],
    which awaits [run_source_coro(_source, _country, _max)] and, in its
    [except Exception] handler, logs [scheduled_run_error] with
    [exc_info=True].  The default arguments bind the entry's values when
    the job is defined, so each job runs its own entry (the jobs of
    [Scheduler] record them as [cj_source], [cj_country],
    [cj_max_pages]).

    The job is modelled over any state that holds the logging state (a
    getter and a setter), and any coroutine; [run_source_job] instantiates
    it with [cli.py:run_source], the coroutine the docstring of
    [start_scheduler] names, over the state of [RunSource]. *)

From S2P Require Import Prelude PyStr UrlLib Dedup RobotParser Robots Fetch Article Ops Storage Crawl RunSource Scheduler.

Section Job.
Context {S E : Type}.
Variable get_log : S → logger_state.
Variable set_log : S → logger_state → S.
Variable run_source_coro : string → string → Z → st_exc S E unit.

(** [log.error("scheduled_run_error", exc_info=True)] on the logger
    ["crawler.scheduler"]. *)
Definition job_log_error : st_exc S log_error unit :=
  λ s, let '(r, l') := log_call "crawler.scheduler" ERROR "scheduled_run_error" [] true (get_log s) in
       (r, set_log s l').

(** [job()] for the entry recorded in [j]. *)
Definition scheduled_job (j : cron_job) : st_exc S log_error unit :=
  λ s, match run_source_coro (cj_source j) (cj_country j) (cj_max_pages j) s with
       | (Ok _, s') => (Ok (), s')
       | (Raise _, s') => job_log_error s'
       end.

End Job.

(** The logging state inside [RunSource]'s state. *)
Definition rs_log {G W} (rs : run_state G W) : logger_state := cs_log (rs_crawl rs).

Definition rs_set_log {G W} (rs : run_state G W) (l : logger_state) : run_state G W :=
  RState (CState (cs_gate (rs_crawl rs)) (cs_world (rs_crawl rs)) l (cs_metrics (rs_crawl rs)))
         (rs_store rs) (rs_metrics_ports rs).

Section RunJob.
Context {G W : Type} `{RobotsGate G} `{FetchEngine W}.
Variable http_url_validate : string → option string.
Variable readability : option (string → option parsed).
Variable env_log_level : option string.
Variable cfg : s3_config.
Variable boto3_available : bool.
Variable gzip_compress : list Z → list Z.
Variable yaml_available : bool.
Variable config_path : string.
Variable config_exists : bool.
Variable sources : list catalog_entry.
Variable today : date.

(** The job with [run_source_coro = run_source]: [run_source(_source,
    _country, _max)] with [write_raw=False] and no metrics port. *)
Definition run_source_job (j : cron_job) : st_exc (run_state G W) log_error unit :=
  scheduled_job rs_log rs_set_log
    (λ s c m, run_source http_url_validate readability env_log_level cfg boto3_available gzip_compress
                yaml_available config_path config_exists sources today s c m false None) j.

End RunJob.

(** ** Properties *)

Section JobProperties.
Context {S E : Type}.
Variable get_log : S → logger_state.
Variable set_log : S → logger_state → S.
Variable run_source_coro : string → string → Z → st_exc S E unit.

(** The record [job_log_error] adds, if ERROR is enabled. *)
Definition after_error_log (l : logger_state) : logger_state :=
  if is_enabled_for ERROR l
  then LogState (ls_level l) (ls_records l ++ [LogRecord "crawler.scheduler" ERROR "scheduled_run_error" [] true])
  else l.

(** C17. A scheduled job never raises into the scheduler, whatever the
    coroutine does: it runs the coroutine on its own entry's source,
    country and [max_pages]; a normal return is the job's, and an
    exception is caught and logged as [scheduled_run_error] (a call
    without [extra], which cannot raise). *)
Theorem scheduled_job_catches j s :
  scheduled_job get_log set_log run_source_coro j s =
    match run_source_coro (cj_source j) (cj_country j) (cj_max_pages j) s with
    | (Ok _, s') => (Ok (), s')
    | (Raise _, s') => (Ok (), set_log s' (after_error_log (get_log s')))
    end.
Proof.
  unfold scheduled_job, job_log_error, after_error_log.
  destruct (run_source_coro _ _ _ s) as [[]] ; [done|]. by rewrite log_call_no_extra.
Qed.

End JobProperties.

(** ** Example: a job whose source is not in the catalog

    At level INFO, [run_source] raises [KeyError] from its
    [source_not_found] log call; the job catches it and logs
    [scheduled_run_error], so the failure of every such scheduled run is
    only visible in the log. *)

#[local] Instance job_demo_gate : RobotsGate gate_state := robots_gate (env:=ascii_url_env) demo_net demo_clock.
#[local] Instance job_demo_engine : FetchEngine world := fetch_engine demo_transport Fetch.half.

Definition demo_missing_job : cron_job := CronJob "0" "6" "*" "*" "*" "sports" "MZ" 50.

Example run_source_job_missing_source :
  (∃ m, (run_source Some None None demo_cfg true id true "config/sources.yaml" true demo_catalog demo_today
           "sports" "MZ" 50 false None (demo_run_state INFO)).1 = Raise (RunCrawl (ExnLog (KeyError m)))) ∧
  (run_source_job Some None None demo_cfg true id true "config/sources.yaml" true demo_catalog demo_today
     demo_missing_job (demo_run_state INFO)).1 = Ok () ∧
  last (ls_records (rs_log (run_source_job Some None None demo_cfg true id true "config/sources.yaml" true
                              demo_catalog demo_today demo_missing_job (demo_run_state INFO)).2)) =
    Some (LogRecord "crawler.scheduler" ERROR "scheduled_run_error" [] true).
Proof. split; [eexists; vm_compute; reflexivity|split; vm_compute; reflexivity]. Qed.
